(** * stashd-aibot: the editor diff view, the suggestion decorations, the
    message migration script, the database query module and the
    document-versions route, embedded as Rocq functions.

    Layout:
    - [Js]          primitive JavaScript values, strict equality, truthiness,
                    objects as ordered key-value lists;
    - [DiffView]    components/diffview.tsx: [diffMark.toDOM], [computeDiff];
    - [Sorting]     a stable insertion sort, the model of [Array.prototype.sort]
                    and of SQL [ORDER BY];
    - [Decorations] lib/editor/functions.tsx: [createDecorations];
    - [SortingThrows] the same sort for a comparator that may throw;
    - [Migration]   the message migration script: [getMessageRank], the sort
                    and the sectioning loop of [migrateMessages];
    - [Effects]     computations over a world that may throw, [try]/[catch];
    - [Queries]     lib/db/queries.ts, written once over an arbitrary Prisma
                    client whose operations may throw;
    - [Mem]         an in-memory relational client (tables as lists, primary
                    and foreign keys checked) on which the properties of rows
                    are proved;
    - [Route]       the GET handler of the document-versions route. *)

From Stdlib Require Import ZArith List String Ascii Bool Lia DecimalString.
From Stdlib Require Import Permutation Sorted.
Import ListNotations.

Local Open Scope string_scope.
Local Open Scope Z_scope.
Local Open Scope list_scope.

(* ================================================================== *)
(** ** JavaScript values *)

Module Js.

(** The primitive values a mark attribute or an enum member can hold.
    Numbers are the integers (enum members and timestamps are). *)
Inductive value : Type :=
| JUndefined
| JNull
| JBool (b : bool)
| JNum (n : Z)
| JStr (s : string).

(** [a === b] on primitives. *)
Definition strict_eq (a b : value) : bool :=
  match a, b with
  | JUndefined, JUndefined => true
  | JNull, JNull => true
  | JBool x, JBool y => Bool.eqb x y
  | JNum x, JNum y => Z.eqb x y
  | JStr x, JStr y => String.eqb x y
  | _, _ => false
  end.

(** Truthiness of a [string | null] value, as tested by [if (s)] and [!s]. *)
Definition truthy_str (s : option string) : bool :=
  match s with
  | None => false
  | Some x => negb (String.eqb x "")
  end.

(** The string behind a [string | null] value that passed the test. *)
Definition the_string (s : option string) : string :=
  match s with
  | Some x => x
  | None => ""
  end.

(** A JavaScript object used as a record of named fields, in insertion
    order. [get] is property access: [undefined] when the key is absent. *)
Definition object (V : Type) : Type := list (string * V).

Fixpoint lookup {V : Type} (k : string) (o : object V) : option V :=
  match o with
  | [] => None
  | (k', v) :: rest => if String.eqb k k' then Some v else lookup k rest
  end.

(** [{ ...o, k: v }]: an existing key keeps its place and takes the new
    value, a new key goes last. *)
Fixpoint set {V : Type} (k : string) (v : V) (o : object V) : object V :=
  match o with
  | [] => [(k, v)]
  | (k', v') :: rest =>
      if String.eqb k k' then (k', v) :: rest else (k', v') :: set k v rest
  end.

Lemma lookup_set {V : Type} (k : string) (v : V) (o : object V) :
  lookup k (set k v o) = Some v.
Proof.
  induction o as [|[k' v'] rest IH]; simpl.
  - now rewrite String.eqb_refl.
  - destruct (String.eqb k k') eqn:E; simpl; rewrite E; [reflexivity | exact IH].
Qed.

Definition get (k : string) (o : object value) : value :=
  match lookup k o with
  | Some v => v
  | None => JUndefined
  end.

Lemma strict_eq_spec (a b : value) : strict_eq a b = true <-> a = b.
Proof.
  destruct a, b; simpl; split; intros H; try discriminate; try reflexivity.
  - apply Bool.eqb_prop in H. now subst.
  - injection H as ->. apply Bool.eqb_reflx.
  - apply Z.eqb_eq in H. now subst.
  - injection H as ->. apply Z.eqb_refl.
  - apply String.eqb_eq in H. now subst.
  - injection H as ->. apply String.eqb_refl.
Qed.

Lemma strict_eq_false (a b : value) : strict_eq a b = false <-> a <> b.
Proof.
  split.
  - intros H E. apply strict_eq_spec in E. congruence.
  - intros H. destruct (strict_eq a b) eqn:E; [|reflexivity].
    apply strict_eq_spec in E. contradiction.
Qed.

Lemma truthy_str_true (s : option string) :
  truthy_str s = true <-> exists x, s = Some x /\ x <> "".
Proof.
  destruct s as [x|]; simpl.
  - rewrite negb_true_iff. split.
    + intros H. exists x. split; [reflexivity|].
      intros ->. now rewrite String.eqb_refl in H.
    + intros (y & [= <-] & Hne). now apply String.eqb_neq.
  - split; [discriminate|]. now intros (x & H & _).
Qed.

End Js.

(* ================================================================== *)
(** ** components/diffview.tsx *)

Module DiffView.
Import Js.

(** A ProseMirror mark, as far as [toDOM] reads it: its attribute object. *)
Record Mark : Type := { attrs : object value }.

(** A DOM output spec [[tag, attributes, 0]]; the trailing [0] is the hole
    that receives the marked content. *)
Record DOMOutputSpec : Type := {
  tag : string;
  dom_attrs : object string;
  hole : Z
}.

(** The attributes declared by the mark spec: [attrs: { type: { default: '' } }]. *)
Definition diffMark_default_attrs : object value := [("type", JStr "")].

Section Diff.

(** The enum [DiffType] is declared in lib/editor/diff; its two members are
    parameters here. *)
Variable DiffType_Inserted DiffType_Deleted : value.

Definition toDOM (mark : Mark) : DOMOutputSpec :=
  let type := get "type" (attrs mark) in
  if strict_eq type DiffType_Inserted then
    {| tag := "span";
       dom_attrs := [("class", "diff-inserted"); ("data-diff", "inserted")];
       hole := 0 |}
  else if strict_eq type DiffType_Deleted then
    {| tag := "span";
       dom_attrs := [("class", "diff-deleted"); ("data-diff", "deleted")];
       hole := 0 |}
  else
    {| tag := "span"; dom_attrs := []; hole := 0 |}.

(** A mark spec and a schema: the marks are an ordered map from names. *)
Record MarkSpec : Type := {
  spec_attrs : object value;
  spec_toDOM : Mark -> DOMOutputSpec
}.

Definition diffMark : MarkSpec :=
  {| spec_attrs := diffMark_default_attrs; spec_toDOM := toDOM |}.

(** What prosemirror and lib/editor/diff provide. *)
Variable NodeSpecs : Type.
Variable ProsemirrorNode : Type.
Variable JSON : Type.

Record Schema : Type := {
  nodes : NodeSpecs;
  marks : object MarkSpec
}.

(** [addListNodes(schema.spec.nodes, 'paragraph block*', 'block')] and
    [schema.spec.marks.toObject()] of prosemirror-schema-basic. *)
Variable basic_nodes_with_lists : NodeSpecs.
Variable basic_marks : object MarkSpec.

Variable toJSON : ProsemirrorNode -> JSON.
Variable diffEditor : Schema -> JSON -> JSON -> ProsemirrorNode.

Definition diffSchema : Schema :=
  {| nodes := basic_nodes_with_lists;
     marks := set "diffMark" diffMark basic_marks |}.

Definition computeDiff (oldDoc newDoc : ProsemirrorNode) : ProsemirrorNode :=
  diffEditor diffSchema (toJSON oldDoc) (toJSON newDoc).

(** The three shapes [toDOM] can return. *)
Definition span_inserted : DOMOutputSpec :=
  {| tag := "span";
     dom_attrs := [("class", "diff-inserted"); ("data-diff", "inserted")];
     hole := 0 |}.

Definition span_deleted : DOMOutputSpec :=
  {| tag := "span";
     dom_attrs := [("class", "diff-deleted"); ("data-diff", "deleted")];
     hole := 0 |}.

Definition span_plain : DOMOutputSpec :=
  {| tag := "span"; dom_attrs := []; hole := 0 |}.

Lemma toDOM_inserted (mark : Mark) :
  get "type" (attrs mark) = DiffType_Inserted -> toDOM mark = span_inserted.
Proof.
  intros H. unfold toDOM. rewrite H.
  now rewrite (proj2 (strict_eq_spec _ _) eq_refl).
Qed.

Lemma toDOM_deleted (mark : Mark) :
  DiffType_Inserted <> DiffType_Deleted ->
  get "type" (attrs mark) = DiffType_Deleted -> toDOM mark = span_deleted.
Proof.
  intros Hd H. unfold toDOM. rewrite H.
  rewrite (proj2 (strict_eq_false DiffType_Deleted DiffType_Inserted))
    by congruence.
  now rewrite (proj2 (strict_eq_spec _ _) eq_refl).
Qed.

Lemma toDOM_other (mark : Mark) :
  get "type" (attrs mark) <> DiffType_Inserted ->
  get "type" (attrs mark) <> DiffType_Deleted ->
  toDOM mark = span_plain.
Proof.
  intros H1 H2. unfold toDOM.
  rewrite (proj2 (strict_eq_false _ _) H1).
  now rewrite (proj2 (strict_eq_false _ _) H2).
Qed.

(** C1. [toDOM] depends on the mark through its [type] attribute alone, and
    returns the inserted span for [DiffType.Inserted], the deleted span for
    [DiffType.Deleted], and a span without attributes for every other value;
    the default attribute value, the empty string, is such another value.
    The enum members are distinct and none is the empty string. *)
Theorem toDOM_by_type
  (Hdistinct : DiffType_Inserted <> DiffType_Deleted)
  (Hins : DiffType_Inserted <> JStr "")
  (Hdel : DiffType_Deleted <> JStr "") :
  (forall m1 m2 : Mark,
      get "type" (attrs m1) = get "type" (attrs m2) -> toDOM m1 = toDOM m2) /\
  (forall mark : Mark,
      (get "type" (attrs mark) = DiffType_Inserted ->
       toDOM mark =
         {| tag := "span";
            dom_attrs := [("class", "diff-inserted"); ("data-diff", "inserted")];
            hole := 0 |}) /\
      (get "type" (attrs mark) = DiffType_Deleted ->
       toDOM mark =
         {| tag := "span";
            dom_attrs := [("class", "diff-deleted"); ("data-diff", "deleted")];
            hole := 0 |}) /\
      (get "type" (attrs mark) <> DiffType_Inserted ->
       get "type" (attrs mark) <> DiffType_Deleted ->
       toDOM mark = {| tag := "span"; dom_attrs := []; hole := 0 |})) /\
  toDOM {| attrs := spec_attrs diffMark |} =
    {| tag := "span"; dom_attrs := []; hole := 0 |}.
Proof.
  split; [|split].
  - intros m1 m2 H. unfold toDOM. now rewrite H.
  - intros mark. split; [|split].
    + apply toDOM_inserted.
    + now apply toDOM_deleted.
    + apply toDOM_other.
  - apply toDOM_other; simpl; unfold get; simpl; congruence.
Qed.

End Diff.

(** The members of the enum as 1 and -1 satisfy the assumptions of
    [toDOM_by_type]. *)
Lemma toDOM_by_type_witness :
  toDOM (JNum 1) (JNum (-1)) {| attrs := [("type", JNum (-1))] |} =
    {| tag := "span";
       dom_attrs := [("class", "diff-deleted"); ("data-diff", "deleted")];
       hole := 0 |}.
Proof.
  apply (toDOM_by_type (JNum 1) (JNum (-1)));
    [discriminate | discriminate | discriminate | reflexivity].
Defined.

End DiffView.

(* ================================================================== *)
(** ** Sorting with a comparator *)

Module Sorting.

Section Sort.

Context {A : Type}.

(** A comparator in the JavaScript sense: negative when the first argument
    goes first, positive when it goes last, zero when either order will do. *)
Variable cmp : A -> A -> Z.

(** [x] goes in front of the first element it does not have to follow, so
    that elements the comparator does not tell apart keep their order
    ([Array.prototype.sort] is stable). *)
Fixpoint insert (x : A) (l : list A) : list A :=
  match l with
  | [] => [x]
  | y :: ys => if cmp x y <=? 0 then x :: y :: ys else y :: insert x ys
  end.

Definition sort (l : list A) : list A := fold_right insert [] l.

Definition cmp_le (a b : A) : Prop := cmp a b <= 0.

Lemma insert_perm (x : A) (l : list A) : Permutation (x :: l) (insert x l).
Proof.
  induction l as [|y ys IH]; simpl.
  - apply Permutation_refl.
  - destruct (cmp x y <=? 0).
    + apply Permutation_refl.
    + eapply perm_trans; [apply perm_swap|]. now apply perm_skip.
Qed.

Lemma sort_perm (l : list A) : Permutation l (sort l).
Proof.
  induction l as [|x xs IH]; simpl.
  - apply perm_nil.
  - eapply perm_trans; [apply perm_skip, IH | apply insert_perm].
Qed.

Lemma sort_length (l : list A) : List.length (sort l) = List.length l.
Proof. symmetry. apply Permutation_length, sort_perm. Qed.

Lemma sort_In (l : list A) (x : A) : In x (sort l) <-> In x l.
Proof.
  split; apply Permutation_in;
    [apply Permutation_sym|]; apply sort_perm.
Qed.

(** Stability: the elements of a class the comparator does not order (any two
    of them compare as less or equal) come out in the order they came in. *)
Lemma insert_filter (p : A -> bool) (x : A) (l : list A) :
  (forall y, In y l -> p x = true -> p y = true -> cmp x y <= 0) ->
  filter p (insert x l) = if p x then x :: filter p l else filter p l.
Proof.
  induction l as [|y ys IH]; intros H; simpl.
  - reflexivity.
  - destruct (cmp x y <=? 0) eqn:E; simpl.
    + reflexivity.
    + rewrite IH by (intros z Hz; apply H; now right).
      destruct (p x) eqn:Ex, (p y) eqn:Ey; try reflexivity.
      apply Z.leb_gt in E.
      pose proof (H y (or_introl eq_refl) eq_refl Ey). lia.
Qed.

Lemma sort_stable (p : A -> bool) (l : list A) :
  (forall x y, p x = true -> p y = true -> cmp x y <= 0) ->
  filter p (sort l) = filter p l.
Proof.
  intros H. induction l as [|x xs IH]; simpl; [reflexivity|].
  rewrite insert_filter by (intros; now apply H).
  now rewrite IH.
Qed.

Hypothesis cmp_total : forall a b, cmp a b <= 0 \/ cmp b a <= 0.
Hypothesis cmp_trans :
  forall a b c, cmp a b <= 0 -> cmp b c <= 0 -> cmp a c <= 0.

Lemma insert_sorted (x : A) (l : list A) :
  StronglySorted cmp_le l -> StronglySorted cmp_le (insert x l).
Proof.
  induction 1 as [|y ys Hs IH Hall]; simpl.
  - constructor; constructor.
  - destruct (cmp x y <=? 0) eqn:E.
    + apply Z.leb_le in E. constructor.
      * now constructor.
      * constructor; [exact E|].
        eapply Forall_impl; [|exact Hall].
        intros z Hz. now apply cmp_trans with y.
    + apply Z.leb_gt in E. constructor; [exact IH|].
      assert (Hyx : cmp_le y x).
      { destruct (cmp_total x y) as [H|H]; [lia | exact H]. }
      rewrite Forall_forall in *. intros z Hz.
      apply (Permutation_in _ (Permutation_sym (insert_perm x ys))) in Hz.
      destruct Hz as [<-|Hz]; [exact Hyx | now apply Hall].
Qed.

Lemma sort_sorted (l : list A) : StronglySorted cmp_le (sort l).
Proof.
  induction l as [|x xs IH]; simpl.
  - constructor.
  - now apply insert_sorted.
Qed.

End Sort.

End Sorting.

(* ================================================================== *)
(** ** lib/editor/functions.tsx: suggestion decorations *)

Module Decorations.

(** The fields of a [UISuggestion] that [createDecorations] reads. *)
Record UISuggestion : Type := {
  id : string;
  selectionStart : Z;
  selectionEnd : Z
}.

(** The fourth argument of [Decoration.inline] and the third of
    [Decoration.widget]. *)
Record DecorationSpec : Type := {
  suggestionId : string;
  type : string
}.

Section Decos.

(** prosemirror-view and ./suggestions. *)
Variable EditorView : Type.
Variable Node : Type.
Variable HTMLElement : Type.
Variable DecorationSet : Type.
Variable SuggestionWidget : Type.
Variable view_state_doc : EditorView -> Node.
Variable widget_dom : SuggestionWidget -> HTMLElement.
Variable createSuggestionWidget : UISuggestion -> EditorView -> SuggestionWidget.

(** [Decoration.inline(from, to, attrs, spec)] and
    [Decoration.widget(pos, toDOM, spec)]. *)
Inductive Decoration : Type :=
| Decoration_inline (from to : Z) (attrs : Js.object string)
                    (spec : DecorationSpec)
| Decoration_widget (pos : Z) (toDOM : EditorView -> HTMLElement)
                    (spec : DecorationSpec).

Variable DecorationSet_create : Node -> list Decoration -> DecorationSet.

(** What one turn of the loop pushes. *)
Definition pushed (suggestion : UISuggestion) : list Decoration :=
  [ Decoration_inline
      (selectionStart suggestion)
      (selectionEnd suggestion)
      [("class", "suggestion-highlight")]
      {| suggestionId := id suggestion; type := "highlight" |};
    Decoration_widget
      (selectionStart suggestion)
      (fun view => widget_dom (createSuggestionWidget suggestion view))
      {| suggestionId := id suggestion; type := "widget" |} ].

(** The array [decorations] when the loop is over. *)
Definition decorations_for (suggestions : list UISuggestion) : list Decoration :=
  fold_left (fun decorations suggestion => decorations ++ pushed suggestion)%list
            suggestions [].

Definition createDecorations (suggestions : list UISuggestion)
                             (view : EditorView) : DecorationSet :=
  DecorationSet_create (view_state_doc view) (decorations_for suggestions).

Lemma decorations_loop (suggestions : list UISuggestion) (acc : list Decoration) :
  fold_left (fun decorations suggestion => decorations ++ pushed suggestion)%list
            suggestions acc
  = (acc ++ flat_map pushed suggestions)%list.
Proof.
  revert acc. induction suggestions as [|s rest IH]; intros acc; simpl.
  - now rewrite app_nil_r.
  - rewrite IH. now rewrite <- app_assoc.
Qed.

Lemma decorations_for_flat_map (suggestions : list UISuggestion) :
  decorations_for suggestions = flat_map pushed suggestions.
Proof. unfold decorations_for. now rewrite decorations_loop. Qed.

Lemma flat_map_pushed_nth (suggestions : list UISuggestion) (i : nat)
                          (s : UISuggestion) :
  nth_error suggestions i = Some s ->
  nth_error (flat_map pushed suggestions) (2 * i) = nth_error (pushed s) 0 /\
  nth_error (flat_map pushed suggestions) (2 * i + 1) = nth_error (pushed s) 1.
Proof.
  revert i. induction suggestions as [|x rest IH]; intros [|i] H;
    simpl in H; try discriminate.
  - injection H as ->. split; reflexivity.
  - replace (2 * S i)%nat with (S (S (2 * i))) by lia.
    replace (S (S (2 * i)) + 1)%nat with (S (S (2 * i + 1))) by lia.
    simpl. now apply IH.
Qed.

(** C2. [createDecorations] hands [DecorationSet.create] the document of the
    view and exactly two decorations per suggestion, in the order of the
    suggestions: an inline decoration over [selectionStart, selectionEnd] with
    class [suggestion-highlight] and the suggestion's id, then a widget at
    [selectionStart] with the same id. *)
Theorem createDecorations_two_per_suggestion
  (suggestions : list UISuggestion) (view : EditorView) :
  createDecorations suggestions view =
    DecorationSet_create (view_state_doc view) (decorations_for suggestions) /\
  List.length (decorations_for suggestions) = (2 * List.length suggestions)%nat /\
  forall (i : nat) (s : UISuggestion),
    nth_error suggestions i = Some s ->
    nth_error (decorations_for suggestions) (2 * i) =
      Some (Decoration_inline
              (selectionStart s) (selectionEnd s)
              [("class", "suggestion-highlight")]
              {| suggestionId := id s; type := "highlight" |}) /\
    nth_error (decorations_for suggestions) (2 * i + 1) =
      Some (Decoration_widget
              (selectionStart s)
              (fun v => widget_dom (createSuggestionWidget s v))
              {| suggestionId := id s; type := "widget" |}).
Proof.
  split; [reflexivity|].
  rewrite decorations_for_flat_map. split.
  - induction suggestions as [|x rest IH]; simpl; [reflexivity|].
    rewrite IH. lia.
  - intros i s H. now apply flat_map_pushed_nth.
Qed.

End Decos.

End Decorations.

(* ================================================================== *)
(** ** Sorting with a comparator that may throw *)

Module SortingThrows.

Section Sort.

Context {A : Type}.

(** A comparator that returns a number or throws ([None]). *)
Variable cmp : A -> A -> option Z.

(** The insertion of [Sorting.insert]; an exception of the comparator ends
    the sort. *)
Fixpoint insert (x : A) (l : list A) : option (list A) :=
  match l with
  | [] => Some [x]
  | y :: ys =>
      match cmp x y with
      | None => None
      | Some z =>
          if z <=? 0 then Some (x :: y :: ys)
          else option_map (cons y) (insert x ys)
      end
  end.

Fixpoint sort (l : list A) : option (list A) :=
  match l with
  | [] => Some []
  | x :: xs =>
      match sort xs with
      | None => None
      | Some sorted => insert x sorted
      end
  end.

(** The comparator returns, and puts [a] first or ties. *)
Definition cmp_le (a b : A) : Prop := exists z, cmp a b = Some z /\ z <= 0.

Lemma insert_some_perm (x : A) (l l' : list A) :
  insert x l = Some l' -> Permutation (x :: l) l'.
Proof.
  revert l'. induction l as [|y ys IH]; simpl; intros l' H.
  - injection H as <-. apply Permutation_refl.
  - destruct (cmp x y) as [z|]; [|discriminate].
    destruct (z <=? 0).
    + injection H as <-. apply Permutation_refl.
    + destruct (insert x ys) as [r|]; [|discriminate].
      injection H as <-. eapply perm_trans; [apply perm_swap|].
      apply perm_skip. now apply IH.
Qed.

Lemma sort_some_perm (l l' : list A) : sort l = Some l' -> Permutation l l'.
Proof.
  revert l'. induction l as [|x xs IH]; simpl; intros l' H.
  - injection H as <-. apply perm_nil.
  - destruct (sort xs) as [s|]; [|discriminate].
    eapply perm_trans; [apply perm_skip, IH; reflexivity|].
    now apply insert_some_perm.
Qed.

(** The sort returns when the comparator returns on the elements. *)
Lemma insert_returns (x : A) (l : list A) :
  (forall y, In y l -> cmp x y <> None) -> exists l', insert x l = Some l'.
Proof.
  induction l as [|y ys IH]; simpl; intros H.
  - now exists [x].
  - destruct (cmp x y) as [z|] eqn:E.
    + destruct (z <=? 0); [now eexists|].
      destruct IH as (r & Hr); [intros; apply H; now right|].
      rewrite Hr. now eexists.
    + exfalso. now apply (H y (or_introl eq_refl)).
Qed.

Lemma sort_returns (l : list A) :
  (forall a b, In a l -> In b l -> cmp a b <> None) ->
  exists l', sort l = Some l'.
Proof.
  induction l as [|x xs IH]; simpl; intros H.
  - now exists [].
  - destruct IH as (s & Hs); [intros; apply H; now right|].
    rewrite Hs. apply insert_returns. intros y Hy.
    apply H; [now left|]. right.
    apply (Permutation_in _ (Permutation_sym (sort_some_perm _ _ Hs))). exact Hy.
Qed.


Hypothesis cmp_total :
  forall a b z, cmp a b = Some z -> 0 < z -> cmp_le b a.
Hypothesis cmp_trans : forall a b c, cmp_le a b -> cmp_le b c -> cmp_le a c.



End Sort.

End SortingThrows.

(* ================================================================== *)
(** ** The message migration script *)

Module Migration.

Record MessageDeprecatedContentPart : Type := {
  part_type : string;
  part_content : Js.value
}.

(** [content] is declared [any]: an array of parts, or some other value (a
    string, [null], ...), on which [content.some] is a [TypeError]. *)
Inductive Content : Type :=
| ContentParts (parts : list MessageDeprecatedContentPart)
| ContentOther (v : Js.value).

(** A row of the deprecated [Message] table. [createdAt] is the time value
    [new Date(createdAt).getTime()]. *)
Record MessageDeprecated : Type := {
  userId : string;
  id : string;
  chatId : string;
  role : string;
  content : Content;
  createdAt : Z
}.

(** [(content as MessageDeprecatedContentPart[]).some(p => p.type === t)];
    [None] is the [TypeError]. *)
Definition some_part (t : string) (c : Content) : option bool :=
  match c with
  | ContentParts parts =>
      Some (existsb (fun contentPart => (part_type contentPart =? t)%string)
                    parts)
  | ContentOther _ => None
  end.

(** [a && b], where [b] is evaluated only when [a] holds. *)
Definition and_then (a : bool) (b : option bool) : option bool :=
  if a then b else Some false.

(** The rank, or [None] when reading the content throws. *)
Definition getMessageRank (message : MessageDeprecated) : option Z :=
  match and_then (role message =? "assistant")%string
                 (some_part "tool-call" (content message)) with
  | None => None
  | Some true => Some 0
  | Some false =>
      match and_then (role message =? "tool")%string
                     (some_part "tool-result" (content message)) with
      | None => None
      | Some true => Some 1
      | Some false =>
          if (role message =? "assistant")%string then Some 2 else Some 3
      end
  end.

(** The comparator handed to [sort]; it reads the ranks only on a tie of the
    dates. *)
Definition compareMessages (a b : MessageDeprecated) : option Z :=
  let differenceInTime := createdAt a - createdAt b in
  if negb (differenceInTime =? 0) then Some differenceInTime
  else
    match getMessageRank a with
    | None => None
    | Some rank_a =>
        match getMessageRank b with
        | None => None
        | Some rank_b => Some (rank_a - rank_b)
        end
    end.

(** [allMessages.filter(message => message.chatId === chat.id).sort(...)];
    [None] when the comparator throws, which ends the script. The sort puts
    each message among the ones sorted before it, so that every message that
    has the date of another is compared with one of that date. *)
Definition messages_of_chat (allMessages : list MessageDeprecated)
                            (chat_id : string)
  : option (list MessageDeprecated) :=
  SortingThrows.sort compareMessages
    (filter (fun message => (chatId message =? chat_id)%string) allMessages).

(** One turn of the loop over [messages]; the state is
    [(messageSection, messageSections)]. *)
Definition section_step
  (st : list MessageDeprecated * list (list MessageDeprecated))
  (message : MessageDeprecated)
  : list MessageDeprecated * list (list MessageDeprecated) :=
  let '(messageSection, messageSections) := st in
  let '(messageSection, messageSections) :=
    if (role message =? "user")%string
       && (0 <? List.length messageSection)%nat
    then ([], messageSections ++ [messageSection])%list
    else (messageSection, messageSections) in
  ((messageSection ++ [message])%list, messageSections).

(** The sections once the trailing one is pushed. *)
Definition emitted
  (st : list MessageDeprecated * list (list MessageDeprecated))
  : list (list MessageDeprecated) :=
  let '(messageSection, messageSections) := st in
  if (0 <? List.length messageSection)%nat
  then (messageSections ++ [messageSection])%list
  else messageSections.

Definition messageSections_of (messages : list MessageDeprecated)
  : list (list MessageDeprecated) :=
  emitted (fold_left section_step messages ([], [])).




(** What well-formed sections look like: none is empty, a user message can
    only be the head of its section, and every section after the first has
    a user message as its head. *)
Definition no_user_inside (s : list MessageDeprecated) : Prop :=
  Forall (fun m => role m <> "user") (tl s).

Definition starts_with_user (s : list MessageDeprecated) : Prop :=
  exists m rest, s = m :: rest /\ role m = "user".

Record well_sectioned (ss : list (list MessageDeprecated)) : Prop := {
  ws_nonempty : Forall (fun s => s <> []) ss;
  ws_inside : Forall no_user_inside ss;
  ws_heads : Forall starts_with_user (tl ss)
}.

(** *** Ranks *)






(** *** The comparator is a total preorder where it returns *)





(** *** When the sort returns *)















(** *** The sectioning loop *)

(** The loop invariant: the sections emitted so far, with the one being
    accumulated, are well formed and spell out the messages consumed; the
    accumulator is empty only before the first message. *)
Record loop_inv (processed : list MessageDeprecated)
  (st : list MessageDeprecated * list (list MessageDeprecated)) : Prop := {
  inv_concat : List.concat (emitted st) = processed;
  inv_well : well_sectioned (emitted st);
  inv_start : fst st = [] -> snd st = []
}.

Lemma length_pos_nonempty {A : Type} (l : list A) :
  (0 <? List.length l)%nat = true <-> l <> [].
Proof.
  destruct l; simpl; split; intros H; try discriminate; try reflexivity.
  now contradiction H.
Qed.

Lemma emitted_nonempty (sec : list MessageDeprecated)
                       (secs : list (list MessageDeprecated)) :
  sec <> [] -> emitted (sec, secs) = (secs ++ [sec])%list.
Proof.
  intros H. unfold emitted.
  now rewrite (proj2 (length_pos_nonempty sec) H).
Qed.

Lemma tl_app_nonempty {A : Type} (l l' : list A) :
  l <> [] -> tl (l ++ l') = (tl l ++ l')%list.
Proof. destruct l; [congruence | reflexivity]. Qed.

Lemma concat_snoc {A : Type} (ss : list (list A)) (s : list A) :
  List.concat (ss ++ [s]) = List.concat ss ++ s.
Proof. rewrite List.concat_app. simpl. now rewrite app_nil_r. Qed.

Lemma well_sectioned_single (m : MessageDeprecated) : well_sectioned [[m]].
Proof.
  constructor; simpl.
  - constructor; [discriminate | constructor].
  - constructor; [constructor | constructor].
  - constructor.
Qed.

(** Opening a new section at a user message. *)
Lemma well_sectioned_open (ss : list (list MessageDeprecated))
                          (m : MessageDeprecated) :
  ss <> [] -> role m = "user" -> well_sectioned ss ->
  well_sectioned (ss ++ [[m]]).
Proof.
  intros Hne Hu [H1 H2 H3]. constructor.
  - apply Forall_app. split; [exact H1|]. constructor; [discriminate|constructor].
  - apply Forall_app. split; [exact H2|].
    constructor; [constructor | constructor].
  - rewrite tl_app_nonempty by exact Hne.
    apply Forall_app. split; [exact H3|].
    constructor; [|constructor]. now exists m, [].
Qed.

(** Extending the last section with a message that is not a user's. *)
Lemma well_sectioned_extend (secs : list (list MessageDeprecated))
                            (sec : list MessageDeprecated)
                            (m : MessageDeprecated) :
  sec <> [] -> role m <> "user" -> well_sectioned (secs ++ [sec]) ->
  well_sectioned (secs ++ [sec ++ [m]]).
Proof.
  intros Hne Hu [H1 H2 H3].
  apply Forall_app in H1 as [H1 _]. apply Forall_app in H2 as [H2 H2'].
  constructor.
  - apply Forall_app. split; [exact H1|].
    constructor; [|constructor]. destruct sec; discriminate.
  - apply Forall_app. split; [exact H2|]. constructor; [|constructor].
    unfold no_user_inside. rewrite tl_app_nonempty by exact Hne.
    apply Forall_app. split.
    + now inversion H2'.
    + constructor; [exact Hu | constructor].
  - destruct secs as [|s0 secs']; simpl in *; [constructor|].
    apply Forall_app in H3 as [H3 H3']. apply Forall_app. split; [exact H3|].
    constructor; [|constructor].
    inversion H3' as [|? ? (h & rest & -> & Hh) _]; subst.
    now exists h, (rest ++ [m])%list.
Qed.

Lemma section_step_inv (processed : list MessageDeprecated)
  (st : list MessageDeprecated * list (list MessageDeprecated))
  (message : MessageDeprecated) :
  loop_inv processed st ->
  loop_inv (processed ++ [message]) (section_step st message).
Proof.
  destruct st as [sec secs]. intros [Hc Hw Hs]. simpl in Hs.
  unfold section_step.
  destruct (String.eqb_spec (role message) "user") as [Hu|Hu]; simpl.
  - destruct sec as [|x sec']; simpl.
    + (* the first message of the chat is a user's *)
      rewrite (Hs eq_refl) in *. simpl in Hc. subst processed.
      constructor; simpl; [reflexivity | apply well_sectioned_single | auto].
    + (* a later user message closes the section and opens the next *)
      rewrite emitted_nonempty in Hc, Hw by discriminate.
      constructor; simpl.
      * now rewrite concat_snoc, Hc.
      * apply well_sectioned_open; auto. now destruct secs.
      * discriminate.
  - destruct sec as [|x sec'].
    + rewrite (Hs eq_refl) in *. simpl in Hc. subst processed.
      constructor; simpl; [reflexivity | apply well_sectioned_single | auto].
    + rewrite emitted_nonempty in Hc, Hw by discriminate.
      constructor.
      * rewrite emitted_nonempty by discriminate.
        rewrite concat_snoc in Hc |- *. now rewrite <- Hc, <- app_assoc.
      * rewrite emitted_nonempty by discriminate.
        apply (well_sectioned_extend secs (x :: sec') message);
          [discriminate | exact Hu | exact Hw].
      * discriminate.
Qed.

Lemma section_loop_inv (messages processed : list MessageDeprecated)
  (st : list MessageDeprecated * list (list MessageDeprecated)) :
  loop_inv processed st ->
  loop_inv (processed ++ messages) (fold_left section_step messages st).
Proof.
  revert processed st. induction messages as [|m rest IH]; intros processed st H.
  - now rewrite app_nil_r.
  - simpl. replace (processed ++ m :: rest)%list
      with ((processed ++ [m]) ++ rest)%list by now rewrite <- app_assoc.
    apply IH. now apply section_step_inv.
Qed.

Lemma messageSections_of_inv (messages : list MessageDeprecated) :
  List.concat (messageSections_of messages) = messages /\
  well_sectioned (messageSections_of messages).
Proof.
  assert (H0 : loop_inv [] ([], [])).
  { constructor; simpl; auto. constructor; constructor. }
  destruct (section_loop_inv messages [] _ H0) as [Hc Hw _].
  split; [exact Hc | exact Hw].
Qed.

(** A chat of two exchanges, the second with a tool call, handed over out of
    order. *)
Definition sample_message (i : string) (r : string) (parts : list string)
                          (t : Z) : MessageDeprecated :=
  {| userId := "u1"; id := i; chatId := "c1"; role := r;
     content :=
       ContentParts
         (map (fun p => {| part_type := p; part_content := Js.JNull |}) parts);
     createdAt := t |}.

Definition sample_messages : list MessageDeprecated :=
  [ sample_message "a2" "assistant" ["text"] 5;
    sample_message "t1" "tool" ["tool-result"] 5;
    sample_message "q2" "user" ["text"] 4;
    sample_message "a1" "assistant" ["text"] 2;
    sample_message "c1" "assistant" ["tool-call"] 5;
    sample_message "q1" "user" ["text"] 1 ].

Example messageSections_sample :
  option_map (fun messages => map (map id) (messageSections_of messages))
             (messages_of_chat sample_messages "c1")
  = Some [["q1"; "a1"]; ["q2"; "c1"; "t1"; "a2"]].
Proof. reflexivity. Qed.

(** A row whose content is a string, as the column [content String] of the
    schema holds it. *)
Definition text_message (i : string) (r : string) (text : string) (t : Z)
  : MessageDeprecated :=
  {| userId := "u1"; id := i; chatId := "c1"; role := r;
     content := ContentOther (Js.JStr text); createdAt := t |}.

(** A string content is never read when no other message of the chat has the
    date of its message. *)
Example messages_of_chat_untied :
  option_map (map id)
    (messages_of_chat
       [ text_message "a1" "assistant" "hello" 2;
         sample_message "q1" "user" ["text"] 1 ] "c1")
  = Some ["q1"; "a1"].
Proof. reflexivity. Qed.





End Migration.

(* ================================================================== *)
(** ** Computations that read and write a world and may throw *)

Module Effects.

(** [new ChatSDKError(errorCode, cause?)]. The class is declared in
    lib/errors; an error is identified with the arguments of its
    constructor, the error code and the optional text that follows it. *)
Record ChatSDKError : Type := {
  errorCode : string;
  errorText : option string
}.

(** What a [throw] can carry: a [ChatSDKError], or anything else (a Prisma
    error, a [TypeError], ...), of which only a name is kept. *)
Inductive JsError : Type :=
| SDKError (e : ChatSDKError)
| OtherError (name : string).

Inductive Outcome (W A : Type) : Type :=
| Return (a : A) (w : W)
| Throw (e : JsError) (w : W).

Arguments Return {W A} a w.
Arguments Throw {W A} e w.

(** An [async] function over the world [W]. *)
Definition M (W A : Type) : Type := W -> Outcome W A.

Definition ret {W A : Type} (a : A) : M W A := fun w => Return a w.

Definition bind {W A B : Type} (m : M W A) (k : A -> M W B) : M W B :=
  fun w =>
    match m w with
    | Return a w' => k a w'
    | Throw e w' => Throw e w'
    end.

Definition throw {W A : Type} (e : JsError) : M W A := fun w => Throw e w.

(** [try { body } catch (error) { handler(error) }]. *)
Definition try_catch {W A : Type} (body : M W A) (handler : JsError -> M W A)
  : M W A :=
  fun w =>
    match body w with
    | Return a w' => Return a w'
    | Throw e w' => handler e w'
    end.

(** A helper that has an effect on the world and does not throw
    ([Date.now()], [generateUUID()], [console.error]). *)
Definition eff {W A : Type} (f : W -> A * W) : M W A :=
  fun w => let (a, w') := f w in Return a w'.

Declare Scope monad_scope.
Delimit Scope monad_scope with monad.

Notation "x <- m ;; k" := (bind m (fun x => k))
  (at level 61, m at next level, right associativity) : monad_scope.
Notation "m ;;; k" := (bind m (fun _ => k))
  (at level 61, right associativity) : monad_scope.

(** [new ChatSDKError(code, text)] thrown. *)
Definition sdk_error (code text : string) : JsError :=
  SDKError {| errorCode := code; errorText := Some text |}.

(** A computation that can only fail with the given error. *)
Definition fails_only_with {W A : Type} (m : M W A) (e0 : JsError) : Prop :=
  forall w e w', m w = Throw e w' -> e = e0.

Lemma try_catch_fails_only_with {W A : Type} (body : M W A) (e0 : JsError) :
  fails_only_with (try_catch body (fun _ => throw e0)) e0.
Proof.
  intros w e w' H. unfold try_catch, throw in H.
  destruct (body w); congruence.
Qed.

Lemma eff_bind_fails_only_with {W A B : Type} (f : W -> A * W)
                               (k : A -> M W B) (e0 : JsError) :
  (forall a, fails_only_with (k a) e0) ->
  fails_only_with (bind (eff f) k) e0.
Proof.
  intros Hk w e w' H. unfold bind, eff in H.
  destruct (f w) as [a w1]. now apply (Hk a w1 e w').
Qed.

Lemma throw_fails_only_with {W A : Type} (e0 : JsError) :
  fails_only_with (@throw W A e0) e0.
Proof. intros w e w' H. unfold throw in H. congruence. Qed.

Lemma try_catch_handler_fails_only_with {W A : Type} (body : M W A)
  (handler : JsError -> M W A) (e0 : JsError) :
  (forall e, fails_only_with (handler e) e0) ->
  fails_only_with (try_catch body handler) e0.
Proof.
  intros Hh w e w' H. unfold try_catch in H.
  destruct (body w) as [a w1|e1 w1]; [discriminate|].
  now apply (Hh e1 w1 e w').
Qed.

(** When the body throws, the handler's error is what the caller gets. *)
Lemma try_catch_replaces {W A : Type} (body : M W A) (e0 : JsError)
                         (w w' : W) (e : JsError) :
  body w = Throw e w' ->
  try_catch body (fun _ => throw e0) w = Throw e0 w'.
Proof. intros H. unfold try_catch, throw. now rewrite H. Qed.

Lemma bind_returns {W A B : Type} (m : M W A) (k : A -> M W B)
                    (w w' : W) (a : A) :
  m w = Return a w' -> bind m k w = k a w'.
Proof. intros H. unfold bind. now rewrite H. Qed.

Lemma try_catch_returns {W A : Type} (body : M W A) (h : JsError -> M W A)
                        (w w' : W) (a : A) :
  body w = Return a w' -> try_catch body h w = Return a w'.
Proof. intros H. unfold try_catch. now rewrite H. Qed.

End Effects.

(* ================================================================== *)
(** ** lib/db/queries.ts over an arbitrary Prisma client *)

Module Queries.
Import Effects.
Local Open Scope monad_scope.

(** *** Rows and query arguments *)

Inductive VisibilityType : Type := visibility_private | visibility_public.
Inductive ArtifactKind : Type := kind_text | kind_code | kind_image | kind_sheet.
Inductive SortOrder : Type := asc | desc.

(** A condition on a [DateTime] column: [{ gt: t }], [{ gte: t }], [{ lt: t }]. *)
Inductive DateFilter : Type :=
| gt (t : Z)
| gte (t : Z)
| lt (t : Z).

(** The columns the query module names; timestamps are time values. *)
Record User : Type := {
  user_id : string;
  user_username : string;
  user_email : option string;
  user_password_hash : option string
}.

(** The result of [create] under [select: { id, email, username }]. *)
Record GuestUser : Type := {
  guest_id : string;
  guest_email : option string;
  guest_username : string
}.

Record Chat : Type := {
  chat_id : string;
  chat_createdAt : Z;
  chat_userId : string;
  chat_title : option string;
  chat_visibility : VisibilityType
}.

Record DBMessage : Type := {
  message_id : string;
  message_chatId : string;
  message_role : string;
  message_content : string;
  message_createdAt : Z
}.

Record Vote : Type := {
  vote_chatId : string;
  vote_messageId : string;
  vote_userId : string;
  vote_isUpvoted : bool;
  vote_createdAt : Z
}.

Record Document : Type := {
  document_id : string;
  document_createdAt : Z;
  document_updatedAt : Z;
  document_title : option string;
  document_content : option string;
  document_kind : ArtifactKind;
  document_userId : string
}.

Record Suggestion : Type := {
  suggestion_id : string;
  suggestion_documentId : string;
  suggestion_originalText : string;
  suggestion_suggestedText : string;
  suggestion_description : option string;
  suggestion_isResolved : bool;
  suggestion_userId : string;
  suggestion_createdAt : Z
}.

Record Stream : Type := {
  stream_id : string;
  stream_chatId : string;
  stream_createdAt : Z
}.

(** The result of [createMany] and [deleteMany]. *)
Record BatchPayload : Type := { count : Z }.

(** [where] arguments, one record per table, a field per condition the
    module uses; [None] is a condition left out. *)
Record ChatWhere : Type := {
  cw_userId : string;
  cw_createdAt : option DateFilter
}.

Record MessageWhere : Type := {
  mw_chatId : string;
  mw_createdAt : option DateFilter;
  mw_id_in : option (list string)
}.

Record VoteWhere : Type := {
  vw_chatId : string;
  vw_messageId : option string;
  vw_userId : option string;
  vw_messageId_in : option (list string)
}.

Record DocumentWhere : Type := {
  dw_id : string;
  dw_createdAt : option DateFilter
}.

Record MessageCountWhere : Type := {
  mc_chat_userId : string;
  mc_createdAt : DateFilter;
  mc_role : string
}.

Inductive VoteType : Type := up | down.

(** [type === 'up']. *)
Definition is_up (type : VoteType) : bool :=
  match type with up => true | down => false end.

(** The page [getChatsByUserId] returns. *)
Record ChatPage : Type := {
  chats : list Chat;
  hasMore : bool
}.

(** [email.split('@')[0]]: what comes before the first [@]. *)
Fixpoint before_at (email : string) : string :=
  match email with
  | EmptyString => EmptyString
  | String c rest =>
      if Ascii.eqb c "@"%char then EmptyString else String c (before_at rest)
  end.

(** [array.slice(0, end)]: a negative [end] counts from the end of the array. *)
Definition slice0 {A : Type} (l : list A) (e : Z) : list A :=
  if e <? 0 then firstn (Z.to_nat (Z.of_nat (List.length l) + e)) l
  else firstn (Z.to_nat e) l.

(** [`${n}`] and [s + n] for an integer [n]. *)
Definition string_of_Z (n : Z) : string :=
  DecimalString.NilZero.string_of_int (Z.to_int n).

Section Client.

(** The world the module runs in: the database behind the Prisma client,
    the clock, the random source, the console. *)
Variable W : Type.

Local Abbreviation M := (Effects.M W).

(** ../utils, ./utils and the runtime. *)
Variable generateUUID : W -> string * W.
Variable generateHashedPassword : string -> W -> string * W.
Variable Date_now : W -> Z * W.
Variable console_error : string -> JsError -> W -> unit * W.

(** The operations of the Prisma client the module calls. Each may return
    or throw, whatever the reason. *)
Variable user_findMany : string -> M (list User).
Variable user_create : User -> M User.
Variable user_create_select : User -> M GuestUser.
Variable chat_create : Chat -> M Chat.
Variable chat_delete : string -> M Chat.
Variable chat_findMany : ChatWhere -> SortOrder -> Z -> M (list Chat).
Variable chat_findFirst : string -> M (option Chat).
Variable chat_update : string -> VisibilityType -> M Chat.
Variable message_createMany : list DBMessage -> M BatchPayload.
Variable message_findMany : MessageWhere -> option SortOrder -> M (list DBMessage).
Variable message_findFirst : string -> M (option DBMessage).
Variable message_deleteMany : MessageWhere -> M BatchPayload.
Variable message_count : MessageCountWhere -> M Z.
Variable vote_findFirst : VoteWhere -> M (option Vote).
Variable vote_findMany : VoteWhere -> M (list Vote).
Variable vote_update : string * string * string -> bool -> M Vote.
Variable vote_create : string * string * string -> bool -> M Vote.
Variable vote_deleteMany : VoteWhere -> M BatchPayload.
Variable stream_create : Stream -> M Stream.
Variable stream_findMany : string -> SortOrder -> M (list Stream).
Variable stream_deleteMany : string -> M BatchPayload.
Variable document_create : Document -> M Document.
Variable document_findMany : DocumentWhere -> option SortOrder -> M (list Document).
Variable document_findFirst : string -> SortOrder -> M (option Document).
Variable document_deleteMany : DocumentWhere -> M BatchPayload.
Variable suggestion_createMany : list Suggestion -> M BatchPayload.
Variable suggestion_findMany : string -> M (list Suggestion).
Variable suggestion_deleteMany : string -> DateFilter -> M BatchPayload.

Definition getUser (email : string) : M (list User) :=
  try_catch
    (user_findMany email)
    (fun error =>
       throw (sdk_error "bad_request:database" "Failed to get user by email")).

Definition createUser (email password : string) : M User :=
  hashedPassword <- eff (generateHashedPassword password) ;;
  userId <- eff generateUUID ;;
  now <- eff Date_now ;;
  let username := (before_at email ++ "_" ++ string_of_Z now)%string in
  try_catch
    (user_create {| user_id := userId;
                    user_username := username;
                    user_email := Some email;
                    user_password_hash := Some hashedPassword |})
    (fun error =>
       throw (sdk_error "bad_request:database" "Failed to create user")).

Definition createGuestUser : M (list GuestUser) :=
  userId <- eff generateUUID ;;
  now1 <- eff Date_now ;;
  let email := ("guest-" ++ string_of_Z now1 ++ "@example.com")%string in
  now2 <- eff Date_now ;;
  let username := ("guest_" ++ string_of_Z now2)%string in
  secret <- eff generateUUID ;;
  hashedPassword <- eff (generateHashedPassword secret) ;;
  try_catch
    (guestUser <- user_create_select
                    {| user_id := userId;
                       user_username := username;
                       user_email := Some email;
                       user_password_hash := Some hashedPassword |} ;;
     ret [guestUser])
    (fun error =>
       eff (console_error "Error creating guest user:" error) ;;;
       throw (sdk_error "bad_request:database" "Failed to create guest user")).

Definition saveChat (id userId title : string) (visibility : VisibilityType)
  : M Chat :=
  try_catch
    (now <- eff Date_now ;;
     chat_create {| chat_id := id;
                    chat_createdAt := now;
                    chat_userId := userId;
                    chat_title := Some title;
                    chat_visibility := visibility |})
    (fun error => throw (sdk_error "bad_request:database" "Failed to save chat")).

Definition deleteChatById (id : string) : M Chat :=
  try_catch
    (vote_deleteMany {| vw_chatId := id; vw_messageId := None;
                        vw_userId := None; vw_messageId_in := None |} ;;;
     message_deleteMany {| mw_chatId := id; mw_createdAt := None;
                           mw_id_in := None |} ;;;
     stream_deleteMany id ;;;
     chatsDeleted <- chat_delete id ;;
     ret chatsDeleted)
    (fun error =>
       throw (sdk_error "bad_request:database" "Failed to delete chat by id")).

Definition getChatsByUserId (id : string) (limit : Z)
                            (startingAfter endingBefore : option string)
  : M ChatPage :=
  try_catch
    (let extendedLimit := limit + 1 in
     let query (whereCondition : option DateFilter) :=
       chat_findMany {| cw_userId := id; cw_createdAt := whereCondition |}
                     desc extendedLimit in
     filteredChats <-
       (if Js.truthy_str startingAfter then
          let startingAfter := Js.the_string startingAfter in
          selectedChat <- chat_findFirst startingAfter ;;
          match selectedChat with
          | None =>
              throw (sdk_error "not_found:database"
                       ("Chat with id " ++ startingAfter ++ " not found")%string)
          | Some selectedChat => query (Some (gt (chat_createdAt selectedChat)))
          end
        else if Js.truthy_str endingBefore then
          let endingBefore := Js.the_string endingBefore in
          selectedChat <- chat_findFirst endingBefore ;;
          match selectedChat with
          | None =>
              throw (sdk_error "not_found:database"
                       ("Chat with id " ++ endingBefore ++ " not found")%string)
          | Some selectedChat => query (Some (lt (chat_createdAt selectedChat)))
          end
        else query None) ;;
     let hasMore := Z.of_nat (List.length filteredChats) >? limit in
     ret {| chats := if hasMore then slice0 filteredChats limit else filteredChats;
            hasMore := hasMore |})
    (fun error =>
       throw (sdk_error "bad_request:database" "Failed to get chats by user id")).

Definition getChatById (id : string) : M (option Chat) :=
  try_catch
    (selectedChat <- chat_findFirst id ;;
     ret selectedChat)
    (fun error =>
       throw (sdk_error "bad_request:database" "Failed to get chat by id")).

Definition saveMessages (messages : list DBMessage) : M BatchPayload :=
  try_catch
    (message_createMany messages)
    (fun error =>
       throw (sdk_error "bad_request:database" "Failed to save messages")).

Definition getMessagesByChatId (id : string) : M (list DBMessage) :=
  try_catch
    (message_findMany {| mw_chatId := id; mw_createdAt := None;
                         mw_id_in := None |} (Some asc))
    (fun error =>
       throw (sdk_error "bad_request:database" "Failed to get messages by chat id")).

Definition voteMessage (chatId messageId userId : string) (type : VoteType)
  : M Vote :=
  try_catch
    (existingVote <- vote_findFirst {| vw_chatId := chatId;
                                       vw_messageId := Some messageId;
                                       vw_userId := Some userId;
                                       vw_messageId_in := None |} ;;
     match existingVote with
     | Some _ => vote_update (chatId, messageId, userId) (is_up type)
     | None => vote_create (chatId, messageId, userId) (is_up type)
     end)
    (fun error =>
       throw (sdk_error "bad_request:database" "Failed to vote message")).

Definition getVotesByChatId (id : string) : M (list Vote) :=
  try_catch
    (vote_findMany {| vw_chatId := id; vw_messageId := None;
                      vw_userId := None; vw_messageId_in := None |})
    (fun error =>
       throw (sdk_error "bad_request:database" "Failed to get votes by chat id")).

Definition saveDocument (id title : string) (kind : ArtifactKind)
                        (content userId : string) : M (list Document) :=
  try_catch
    (now <- eff Date_now ;;
     document <- document_create {| document_id := id;
                                    document_createdAt := now;
                                    document_updatedAt := now;
                                    document_title := Some title;
                                    document_content := Some content;
                                    document_kind := kind;
                                    document_userId := userId |} ;;
     ret [document])
    (fun error =>
       throw (sdk_error "bad_request:database" "Failed to save document")).

Definition getDocumentsById (id : string) : M (list Document) :=
  try_catch
    (documents <- document_findMany {| dw_id := id; dw_createdAt := None |}
                                    (Some asc) ;;
     ret documents)
    (fun error =>
       throw (sdk_error "bad_request:database" "Failed to get documents by id")).

Definition getDocumentById (id : string) : M (option Document) :=
  try_catch
    (selectedDocument <- document_findFirst id desc ;;
     ret selectedDocument)
    (fun error =>
       throw (sdk_error "bad_request:database" "Failed to get document by id")).

Definition deleteDocumentsByIdAfterTimestamp (id : string) (timestamp : Z)
  : M (list Document) :=
  try_catch
    (suggestion_deleteMany id (gt timestamp) ;;;
     deletedDocs <- document_findMany
                      {| dw_id := id; dw_createdAt := Some (gt timestamp) |}
                      None ;;
     document_deleteMany {| dw_id := id; dw_createdAt := Some (gt timestamp) |} ;;;
     ret deletedDocs)
    (fun error =>
       throw (sdk_error "bad_request:database"
                "Failed to delete documents by id after timestamp")).

Definition saveSuggestions (suggestions : list Suggestion) : M BatchPayload :=
  try_catch
    (suggestion_createMany suggestions)
    (fun error =>
       throw (sdk_error "bad_request:database" "Failed to save suggestions")).

Definition getSuggestionsByDocumentId (documentId : string)
  : M (list Suggestion) :=
  try_catch
    (suggestion_findMany documentId)
    (fun error =>
       throw (sdk_error "bad_request:database"
                "Failed to get suggestions by document id")).

Definition getMessageById (id : string) : M (option DBMessage) :=
  try_catch
    (message_findFirst id)
    (fun error =>
       throw (sdk_error "bad_request:database" "Failed to get message by id")).

(** The function returns the count of [deleteMany], or falls off its end
    ([undefined], here [None]) when no message matched. *)
Definition deleteMessagesByChatIdAfterTimestamp (chatId : string) (timestamp : Z)
  : M (option BatchPayload) :=
  try_catch
    (messagesToDelete <- message_findMany
                           {| mw_chatId := chatId;
                              mw_createdAt := Some (gte timestamp);
                              mw_id_in := None |} None ;;
     let messageIds := map message_id messagesToDelete in
     if (0 <? List.length messageIds)%nat then
       vote_deleteMany {| vw_chatId := chatId; vw_messageId := None;
                          vw_userId := None;
                          vw_messageId_in := Some messageIds |} ;;;
       deleted <- message_deleteMany {| mw_chatId := chatId;
                                        mw_createdAt := None;
                                        mw_id_in := Some messageIds |} ;;
       ret (Some deleted)
     else ret None)
    (fun error =>
       throw (sdk_error "bad_request:database"
                "Failed to delete messages by chat id after timestamp")).

Definition updateChatVisiblityById (chatId : string)
                                   (visibility : VisibilityType) : M Chat :=
  try_catch
    (chat_update chatId visibility)
    (fun error =>
       throw (sdk_error "bad_request:database"
                "Failed to update chat visibility by id")).

Definition getMessageCountByUserId (id : string) (differenceInHours : Z) : M Z :=
  try_catch
    (now <- eff Date_now ;;
     let twentyFourHoursAgo := now - differenceInHours * 60 * 60 * 1000 in
     stats <- message_count {| mc_chat_userId := id;
                               mc_createdAt := gte twentyFourHoursAgo;
                               mc_role := "user" |} ;;
     ret stats)
    (fun error =>
       throw (sdk_error "bad_request:database"
                "Failed to get message count by user id")).

Definition createStreamId (streamId chatId : string) : M unit :=
  try_catch
    (now <- eff Date_now ;;
     stream_create {| stream_id := streamId; stream_chatId := chatId;
                      stream_createdAt := now |} ;;;
     ret tt)
    (fun error =>
       throw (sdk_error "bad_request:database" "Failed to create stream id")).

Definition getStreamIdsByChatId (chatId : string) : M (list string) :=
  try_catch
    (streamIds <- stream_findMany chatId asc ;;
     ret (map stream_id streamIds))
    (fun error =>
       throw (sdk_error "bad_request:database"
                "Failed to get stream ids by chat id")).

(** *** Errors *)

(** [new ChatSDKError('bad_request:database', text)]. *)
Definition database_error (text : string) : JsError :=
  sdk_error "bad_request:database" text.

Ltac rethrows :=
  repeat (apply eff_bind_fails_only_with; intros);
  apply try_catch_handler_fails_only_with; intros;
  repeat (apply eff_bind_fails_only_with; intros);
  apply throw_fails_only_with.

(** Runs a function along the calls whose results the hypotheses give. *)
Ltac along_calls :=
  unfold try_catch, bind, eff, ret, throw;
  repeat (match goal with
          | H : ?call = _ |- context [?call] => rewrite H
          end; cbn beta iota zeta);
  try match goal with
      | |- context [console_error ?text ?e ?w] =>
          destruct (console_error text e w)
      end;
  try reflexivity.

(** C6. Whatever the Prisma client does, an exported function of the query
    module that throws, throws the [ChatSDKError] with code
    [bad_request:database] and its own text; and for every function and
    every call of the client in it: when the calls before it have returned
    and this one throws, the function throws that [ChatSDKError], at the
    world the failed call left (for [createGuestUser], after the error went
    to the console), and the error of the database is dropped. The
    [not_found:database] error of [getChatsByUserId] is replaced in the same
    way. *)
Theorem queries_throw_only_ChatSDKError :
  (forall email,
      fails_only_with (getUser email)
        (database_error "Failed to get user by email")) /\
  (forall email password,
      fails_only_with (createUser email password)
        (database_error "Failed to create user")) /\
  fails_only_with createGuestUser
    (database_error "Failed to create guest user") /\
  (forall id userId title visibility,
      fails_only_with (saveChat id userId title visibility)
        (database_error "Failed to save chat")) /\
  (forall id,
      fails_only_with (deleteChatById id)
        (database_error "Failed to delete chat by id")) /\
  (forall id limit startingAfter endingBefore,
      fails_only_with (getChatsByUserId id limit startingAfter endingBefore)
        (database_error "Failed to get chats by user id")) /\
  (forall id,
      fails_only_with (getChatById id)
        (database_error "Failed to get chat by id")) /\
  (forall messages,
      fails_only_with (saveMessages messages)
        (database_error "Failed to save messages")) /\
  (forall id,
      fails_only_with (getMessagesByChatId id)
        (database_error "Failed to get messages by chat id")) /\
  (forall chatId messageId userId type,
      fails_only_with (voteMessage chatId messageId userId type)
        (database_error "Failed to vote message")) /\
  (forall id,
      fails_only_with (getVotesByChatId id)
        (database_error "Failed to get votes by chat id")) /\
  (forall id title kind content userId,
      fails_only_with (saveDocument id title kind content userId)
        (database_error "Failed to save document")) /\
  (forall id,
      fails_only_with (getDocumentsById id)
        (database_error "Failed to get documents by id")) /\
  (forall id,
      fails_only_with (getDocumentById id)
        (database_error "Failed to get document by id")) /\
  (forall id timestamp,
      fails_only_with (deleteDocumentsByIdAfterTimestamp id timestamp)
        (database_error "Failed to delete documents by id after timestamp")) /\
  (forall suggestions,
      fails_only_with (saveSuggestions suggestions)
        (database_error "Failed to save suggestions")) /\
  (forall documentId,
      fails_only_with (getSuggestionsByDocumentId documentId)
        (database_error "Failed to get suggestions by document id")) /\
  (forall id,
      fails_only_with (getMessageById id)
        (database_error "Failed to get message by id")) /\
  (forall chatId timestamp,
      fails_only_with (deleteMessagesByChatIdAfterTimestamp chatId timestamp)
        (database_error "Failed to delete messages by chat id after timestamp")) /\
  (forall chatId visibility,
      fails_only_with (updateChatVisiblityById chatId visibility)
        (database_error "Failed to update chat visibility by id")) /\
  (forall id differenceInHours,
      fails_only_with (getMessageCountByUserId id differenceInHours)
        (database_error "Failed to get message count by user id")) /\
  (forall streamId chatId,
      fails_only_with (createStreamId streamId chatId)
        (database_error "Failed to create stream id")) /\
  (forall chatId,
      fails_only_with (getStreamIdsByChatId chatId)
        (database_error "Failed to get stream ids by chat id")) /\
  (* getUser *)
  (forall email w e w',
      user_findMany email w = Throw e w' ->
      getUser email w =
        Throw (database_error "Failed to get user by email") w') /\
  (* saveMessages *)
  (forall messages w e w',
      message_createMany messages w = Throw e w' ->
      saveMessages messages w =
        Throw (database_error "Failed to save messages") w') /\
  (* createUser *)
  (forall email password w hashedPassword w1 userId w2 now w3 e w',
      generateHashedPassword password w = (hashedPassword, w1) ->
      generateUUID w1 = (userId, w2) ->
      Date_now w2 = (now, w3) ->
      user_create
        {| user_id := userId;
           user_username := (before_at email ++ "_" ++ string_of_Z now)%string;
           user_email := Some email;
           user_password_hash := Some hashedPassword |} w3 = Throw e w' ->
      createUser email password w =
        Throw (database_error "Failed to create user") w') /\
  (* createGuestUser *)
  (forall w userId w1 now1 w2 now2 w3 secret w4 hashedPassword w5 e w',
      generateUUID w = (userId, w1) ->
      Date_now w1 = (now1, w2) ->
      Date_now w2 = (now2, w3) ->
      generateUUID w3 = (secret, w4) ->
      generateHashedPassword secret w4 = (hashedPassword, w5) ->
      user_create_select
        {| user_id := userId;
           user_username := ("guest_" ++ string_of_Z now2)%string;
           user_email :=
             Some ("guest-" ++ string_of_Z now1 ++ "@example.com")%string;
           user_password_hash := Some hashedPassword |} w5 = Throw e w' ->
      createGuestUser w =
        Throw (database_error "Failed to create guest user")
              (snd (console_error "Error creating guest user:" e w'))) /\
  (* saveChat *)
  (forall id userId title visibility w now w1 e w',
      Date_now w = (now, w1) ->
      chat_create {| chat_id := id; chat_createdAt := now;
                     chat_userId := userId; chat_title := Some title;
                     chat_visibility := visibility |} w1 = Throw e w' ->
      saveChat id userId title visibility w =
        Throw (database_error "Failed to save chat") w') /\
  (* deleteChatById: the four calls in turn *)
  (forall id w e w',
      vote_deleteMany {| vw_chatId := id; vw_messageId := None;
                         vw_userId := None; vw_messageId_in := None |} w
        = Throw e w' ->
      deleteChatById id w =
        Throw (database_error "Failed to delete chat by id") w') /\
  (forall id w votes w1 e w',
      vote_deleteMany {| vw_chatId := id; vw_messageId := None;
                         vw_userId := None; vw_messageId_in := None |} w
        = Return votes w1 ->
      message_deleteMany {| mw_chatId := id; mw_createdAt := None;
                            mw_id_in := None |} w1 = Throw e w' ->
      deleteChatById id w =
        Throw (database_error "Failed to delete chat by id") w') /\
  (forall id w votes w1 messages w2 e w',
      vote_deleteMany {| vw_chatId := id; vw_messageId := None;
                         vw_userId := None; vw_messageId_in := None |} w
        = Return votes w1 ->
      message_deleteMany {| mw_chatId := id; mw_createdAt := None;
                            mw_id_in := None |} w1 = Return messages w2 ->
      stream_deleteMany id w2 = Throw e w' ->
      deleteChatById id w =
        Throw (database_error "Failed to delete chat by id") w') /\
  (forall id w votes w1 messages w2 streams w3 e w',
      vote_deleteMany {| vw_chatId := id; vw_messageId := None;
                         vw_userId := None; vw_messageId_in := None |} w
        = Return votes w1 ->
      message_deleteMany {| mw_chatId := id; mw_createdAt := None;
                            mw_id_in := None |} w1 = Return messages w2 ->
      stream_deleteMany id w2 = Return streams w3 ->
      chat_delete id w3 = Throw e w' ->
      deleteChatById id w =
        Throw (database_error "Failed to delete chat by id") w') /\
  (* getChatsByUserId: the lookup of the cursor, the cursor that is not
     found, the query after the cursor, the query without a cursor *)
  (forall id limit startingAfter endingBefore w e w',
      let cursor := if Js.truthy_str startingAfter then startingAfter
                    else endingBefore in
      Js.truthy_str cursor = true ->
      chat_findFirst (Js.the_string cursor) w = Throw e w' ->
      getChatsByUserId id limit startingAfter endingBefore w =
        Throw (database_error "Failed to get chats by user id") w') /\
  (forall id limit startingAfter endingBefore w w',
      let cursor := if Js.truthy_str startingAfter then startingAfter
                    else endingBefore in
      Js.truthy_str cursor = true ->
      chat_findFirst (Js.the_string cursor) w = Return None w' ->
      getChatsByUserId id limit startingAfter endingBefore w =
        Throw (database_error "Failed to get chats by user id") w') /\
  (forall id limit startingAfter endingBefore w selectedChat w1 e w',
      let cursor := if Js.truthy_str startingAfter then startingAfter
                    else endingBefore in
      Js.truthy_str cursor = true ->
      chat_findFirst (Js.the_string cursor) w = Return (Some selectedChat) w1 ->
      chat_findMany
        {| cw_userId := id;
           cw_createdAt :=
             Some (if Js.truthy_str startingAfter
                   then gt (chat_createdAt selectedChat)
                   else lt (chat_createdAt selectedChat)) |}
        desc (limit + 1) w1 = Throw e w' ->
      getChatsByUserId id limit startingAfter endingBefore w =
        Throw (database_error "Failed to get chats by user id") w') /\
  (forall id limit startingAfter endingBefore w e w',
      Js.truthy_str startingAfter = false ->
      Js.truthy_str endingBefore = false ->
      chat_findMany {| cw_userId := id; cw_createdAt := None |}
                    desc (limit + 1) w = Throw e w' ->
      getChatsByUserId id limit startingAfter endingBefore w =
        Throw (database_error "Failed to get chats by user id") w') /\
  (* getChatById *)
  (forall id w e w',
      chat_findFirst id w = Throw e w' ->
      getChatById id w =
        Throw (database_error "Failed to get chat by id") w') /\
  (* getMessagesByChatId *)
  (forall id w e w',
      message_findMany {| mw_chatId := id; mw_createdAt := None;
                          mw_id_in := None |} (Some asc) w = Throw e w' ->
      getMessagesByChatId id w =
        Throw (database_error "Failed to get messages by chat id") w') /\
  (* voteMessage: the lookup, the update, the creation *)
  (forall chatId messageId userId type w e w',
      vote_findFirst {| vw_chatId := chatId; vw_messageId := Some messageId;
                        vw_userId := Some userId; vw_messageId_in := None |} w
        = Throw e w' ->
      voteMessage chatId messageId userId type w =
        Throw (database_error "Failed to vote message") w') /\
  (forall chatId messageId userId type w existingVote w1 e w',
      vote_findFirst {| vw_chatId := chatId; vw_messageId := Some messageId;
                        vw_userId := Some userId; vw_messageId_in := None |} w
        = Return (Some existingVote) w1 ->
      vote_update (chatId, messageId, userId) (is_up type) w1 = Throw e w' ->
      voteMessage chatId messageId userId type w =
        Throw (database_error "Failed to vote message") w') /\
  (forall chatId messageId userId type w w1 e w',
      vote_findFirst {| vw_chatId := chatId; vw_messageId := Some messageId;
                        vw_userId := Some userId; vw_messageId_in := None |} w
        = Return None w1 ->
      vote_create (chatId, messageId, userId) (is_up type) w1 = Throw e w' ->
      voteMessage chatId messageId userId type w =
        Throw (database_error "Failed to vote message") w') /\
  (* getVotesByChatId *)
  (forall id w e w',
      vote_findMany {| vw_chatId := id; vw_messageId := None;
                       vw_userId := None; vw_messageId_in := None |} w
        = Throw e w' ->
      getVotesByChatId id w =
        Throw (database_error "Failed to get votes by chat id") w') /\
  (* saveDocument *)
  (forall id title kind content userId w now w1 e w',
      Date_now w = (now, w1) ->
      document_create {| document_id := id; document_createdAt := now;
                         document_updatedAt := now;
                         document_title := Some title;
                         document_content := Some content;
                         document_kind := kind;
                         document_userId := userId |} w1 = Throw e w' ->
      saveDocument id title kind content userId w =
        Throw (database_error "Failed to save document") w') /\
  (* getDocumentsById *)
  (forall id w e w',
      document_findMany {| dw_id := id; dw_createdAt := None |} (Some asc) w
        = Throw e w' ->
      getDocumentsById id w =
        Throw (database_error "Failed to get documents by id") w') /\
  (* getDocumentById *)
  (forall id w e w',
      document_findFirst id desc w = Throw e w' ->
      getDocumentById id w =
        Throw (database_error "Failed to get document by id") w') /\
  (* deleteDocumentsByIdAfterTimestamp: the three calls in turn *)
  (forall id timestamp w e w',
      suggestion_deleteMany id (gt timestamp) w = Throw e w' ->
      deleteDocumentsByIdAfterTimestamp id timestamp w =
        Throw (database_error
                 "Failed to delete documents by id after timestamp") w') /\
  (forall id timestamp w suggestions w1 e w',
      suggestion_deleteMany id (gt timestamp) w = Return suggestions w1 ->
      document_findMany {| dw_id := id; dw_createdAt := Some (gt timestamp) |}
                        None w1 = Throw e w' ->
      deleteDocumentsByIdAfterTimestamp id timestamp w =
        Throw (database_error
                 "Failed to delete documents by id after timestamp") w') /\
  (forall id timestamp w suggestions w1 deletedDocs w2 e w',
      suggestion_deleteMany id (gt timestamp) w = Return suggestions w1 ->
      document_findMany {| dw_id := id; dw_createdAt := Some (gt timestamp) |}
                        None w1 = Return deletedDocs w2 ->
      document_deleteMany {| dw_id := id; dw_createdAt := Some (gt timestamp) |}
                          w2 = Throw e w' ->
      deleteDocumentsByIdAfterTimestamp id timestamp w =
        Throw (database_error
                 "Failed to delete documents by id after timestamp") w') /\
  (* saveSuggestions *)
  (forall suggestions w e w',
      suggestion_createMany suggestions w = Throw e w' ->
      saveSuggestions suggestions w =
        Throw (database_error "Failed to save suggestions") w') /\
  (* getSuggestionsByDocumentId *)
  (forall documentId w e w',
      suggestion_findMany documentId w = Throw e w' ->
      getSuggestionsByDocumentId documentId w =
        Throw (database_error "Failed to get suggestions by document id") w') /\
  (* getMessageById *)
  (forall id w e w',
      message_findFirst id w = Throw e w' ->
      getMessageById id w =
        Throw (database_error "Failed to get message by id") w') /\
  (* deleteMessagesByChatIdAfterTimestamp: the query, and the two deletions
     made when it finds a message *)
  (forall chatId timestamp w e w',
      message_findMany {| mw_chatId := chatId;
                          mw_createdAt := Some (gte timestamp);
                          mw_id_in := None |} None w = Throw e w' ->
      deleteMessagesByChatIdAfterTimestamp chatId timestamp w =
        Throw (database_error
                 "Failed to delete messages by chat id after timestamp") w') /\
  (forall chatId timestamp w messagesToDelete w1 e w',
      message_findMany {| mw_chatId := chatId;
                          mw_createdAt := Some (gte timestamp);
                          mw_id_in := None |} None w
        = Return messagesToDelete w1 ->
      messagesToDelete <> [] ->
      vote_deleteMany {| vw_chatId := chatId; vw_messageId := None;
                         vw_userId := None;
                         vw_messageId_in :=
                           Some (map message_id messagesToDelete) |} w1
        = Throw e w' ->
      deleteMessagesByChatIdAfterTimestamp chatId timestamp w =
        Throw (database_error
                 "Failed to delete messages by chat id after timestamp") w') /\
  (forall chatId timestamp w messagesToDelete w1 votes w2 e w',
      message_findMany {| mw_chatId := chatId;
                          mw_createdAt := Some (gte timestamp);
                          mw_id_in := None |} None w
        = Return messagesToDelete w1 ->
      messagesToDelete <> [] ->
      vote_deleteMany {| vw_chatId := chatId; vw_messageId := None;
                         vw_userId := None;
                         vw_messageId_in :=
                           Some (map message_id messagesToDelete) |} w1
        = Return votes w2 ->
      message_deleteMany {| mw_chatId := chatId; mw_createdAt := None;
                            mw_id_in :=
                              Some (map message_id messagesToDelete) |} w2
        = Throw e w' ->
      deleteMessagesByChatIdAfterTimestamp chatId timestamp w =
        Throw (database_error
                 "Failed to delete messages by chat id after timestamp") w') /\
  (* updateChatVisiblityById *)
  (forall chatId visibility w e w',
      chat_update chatId visibility w = Throw e w' ->
      updateChatVisiblityById chatId visibility w =
        Throw (database_error "Failed to update chat visibility by id") w') /\
  (* getMessageCountByUserId *)
  (forall id differenceInHours w now w1 e w',
      Date_now w = (now, w1) ->
      message_count
        {| mc_chat_userId := id;
           mc_createdAt := gte (now - differenceInHours * 60 * 60 * 1000);
           mc_role := "user" |} w1 = Throw e w' ->
      getMessageCountByUserId id differenceInHours w =
        Throw (database_error "Failed to get message count by user id") w') /\
  (* createStreamId *)
  (forall streamId chatId w now w1 e w',
      Date_now w = (now, w1) ->
      stream_create {| stream_id := streamId; stream_chatId := chatId;
                       stream_createdAt := now |} w1 = Throw e w' ->
      createStreamId streamId chatId w =
        Throw (database_error "Failed to create stream id") w') /\
  (* getStreamIdsByChatId *)
  (forall chatId w e w',
      stream_findMany chatId asc w = Throw e w' ->
      getStreamIdsByChatId chatId w =
        Throw (database_error "Failed to get stream ids by chat id") w').
Proof.
  repeat match goal with |- _ /\ _ => split end; intros;
    unfold getUser, createUser, createGuestUser, saveChat, deleteChatById,
      getChatsByUserId, getChatById, saveMessages, getMessagesByChatId,
      voteMessage, getVotesByChatId, saveDocument, getDocumentsById,
      getDocumentById, deleteDocumentsByIdAfterTimestamp, saveSuggestions,
      getSuggestionsByDocumentId, getMessageById,
      deleteMessagesByChatIdAfterTimestamp, updateChatVisiblityById,
      getMessageCountByUserId, createStreamId, getStreamIdsByChatId;
    try (match goal with |- fails_only_with _ _ => rethrows end);
    try (match goal with
         | Hne : ?l <> [] |- _ =>
             assert ((0 <? List.length (map message_id l))%nat = true)
               by (destruct l; [now elim Hne | reflexivity])
         end);
    try (match goal with
         | cursor := _ |- _ =>
             subst cursor; destruct (Js.truthy_str startingAfter) eqn:Hafter
         end);
    along_calls.
Qed.

(** *** The cursor of [getChatsByUserId] *)

(** A cursor that is looked up and not found: the [not_found:database] error
    is thrown inside the [try] block, and the [catch] puts the function's own
    error in its place. *)
Lemma getChatsByUserId_cursor_not_found
  (id : string) (limit : Z) (startingAfter endingBefore : option string)
  (w w1 : W) :
  let cursor := if Js.truthy_str startingAfter then startingAfter
                else endingBefore in
  Js.truthy_str cursor = true ->
  chat_findFirst (Js.the_string cursor) w = Return None w1 ->
  getChatsByUserId id limit startingAfter endingBefore w =
    Throw (database_error "Failed to get chats by user id") w1.
Proof.
  intros cursor Ht Hf. unfold getChatsByUserId.
  apply try_catch_replaces with
    (sdk_error "not_found:database"
       ("Chat with id " ++ Js.the_string cursor ++ " not found")%string).
  unfold bind, cursor in *.
  destruct (Js.truthy_str startingAfter) eqn:Ea.
  - now rewrite Hf.
  - rewrite Ht. now rewrite Hf.
Qed.

(** Without a usable cursor the page is that of the plain query. *)
Lemma getChatsByUserId_no_cursor
  (id : string) (limit : Z) (startingAfter endingBefore : option string)
  (w w1 : W) (filteredChats : list Chat) :
  Js.truthy_str startingAfter = false ->
  Js.truthy_str endingBefore = false ->
  chat_findMany {| cw_userId := id; cw_createdAt := None |} desc (limit + 1) w
    = Return filteredChats w1 ->
  getChatsByUserId id limit startingAfter endingBefore w =
    Return
      {| chats := if Z.of_nat (List.length filteredChats) >? limit
                  then slice0 filteredChats limit else filteredChats;
         hasMore := Z.of_nat (List.length filteredChats) >? limit |} w1.
Proof.
  intros Ha Hb Hq. unfold getChatsByUserId.
  apply try_catch_returns. unfold bind, ret.
  now rewrite Ha, Hb, Hq.
Qed.

End Client.

End Queries.

(* ================================================================== *)
(** ** An in-memory relational client *)

Module Mem.
Import Effects Queries.

(** What the client was asked to run, in order. *)
Inductive Statement : Type :=
| SelectChatFirst (id : string)
| SelectChats (w : ChatWhere) (o : SortOrder) (take : Z)
| SelectVoteFirst (w : VoteWhere)
| UpdateVote (key : string * string * string) (isUpvoted : bool)
| InsertVote (key : string * string * string) (isUpvoted : bool)
| SelectMessages (w : MessageWhere) (o : option SortOrder)
| DeleteVotes (w : VoteWhere)
| DeleteMessages (w : MessageWhere)
| SelectDocumentFirst (id : string) (o : SortOrder).

(** The tables [User], [Chat], [Message], [Vote] and [Document], a clock
    for [@default(now())], and the log of statements. *)
Record Db : Type := {
  db_users : list User;
  db_chats : list Chat;
  db_messages : list DBMessage;
  db_votes : list Vote;
  db_documents : list Document;
  db_clock : Z;
  db_log : list Statement
}.

Definition logged (s : Statement) (db : Db) : Db :=
  {| db_users := db_users db; db_chats := db_chats db;
     db_messages := db_messages db; db_votes := db_votes db;
     db_documents := db_documents db; db_clock := db_clock db;
     db_log := db_log db ++ [s] |}.

Definition with_votes (votes : list Vote) (db : Db) : Db :=
  {| db_users := db_users db; db_chats := db_chats db;
     db_messages := db_messages db; db_votes := votes;
     db_documents := db_documents db; db_clock := db_clock db;
     db_log := db_log db |}.

Definition with_messages (messages : list DBMessage) (db : Db) : Db :=
  {| db_users := db_users db; db_chats := db_chats db;
     db_messages := messages; db_votes := db_votes db;
     db_documents := db_documents db; db_clock := db_clock db;
     db_log := db_log db |}.

(** *** Conditions *)

Definition date_holds (f : DateFilter) (t : Z) : bool :=
  match f with
  | gt x => x <? t
  | gte x => x <=? t
  | lt x => t <? x
  end.

Definition holds {A : Type} (condition : option A) (p : A -> bool) : bool :=
  match condition with
  | None => true
  | Some a => p a
  end.

Definition is_in (x : string) (xs : list string) : bool :=
  existsb (String.eqb x) xs.

Definition chat_matches (w : ChatWhere) (c : Chat) : bool :=
  (chat_userId c =? cw_userId w)%string
  && holds (cw_createdAt w) (fun f => date_holds f (chat_createdAt c)).

Definition message_matches (w : MessageWhere) (m : DBMessage) : bool :=
  (message_chatId m =? mw_chatId w)%string
  && holds (mw_createdAt w) (fun f => date_holds f (message_createdAt m))
  && holds (mw_id_in w) (is_in (message_id m)).

Definition vote_matches (w : VoteWhere) (v : Vote) : bool :=
  (vote_chatId v =? vw_chatId w)%string
  && holds (vw_messageId w) (String.eqb (vote_messageId v))
  && holds (vw_userId w) (String.eqb (vote_userId v))
  && holds (vw_messageId_in w) (is_in (vote_messageId v)).

(** The primary key of [Vote]: [@@id([chatId, messageId, userId])]. *)
Definition vote_key (v : Vote) : string * string * string :=
  (vote_chatId v, vote_messageId v, vote_userId v).

Definition key_eqb (a b : string * string * string) : bool :=
  let '(a1, a2, a3) := a in
  let '(b1, b2, b3) := b in
  (a1 =? b1)%string && (a2 =? b2)%string && (a3 =? b3)%string.

Definition has_key (key : string * string * string) (v : Vote) : bool :=
  key_eqb (vote_key v) key.

(** [ORDER BY key]: a stable sort on the column. *)
Definition order_by {A : Type} (key : A -> Z) (o : SortOrder) (rows : list A)
  : list A :=
  Sorting.sort
    (fun a b => match o with asc => key a - key b | desc => key b - key a end)
    rows.

(** [take: n]: the first [n] rows, or the last [-n] when [n] is negative. *)
Definition take_rows {A : Type} (n : Z) (rows : list A) : list A :=
  if n <? 0 then skipn (List.length rows - Z.to_nat (- n)) rows
  else firstn (Z.to_nat n) rows.

(** *** Operations *)

Definition mem_chat_findFirst (id : string) : M Db (option Chat) :=
  fun db =>
    Return (find (fun c => (chat_id c =? id)%string) (db_chats db))
           (logged (SelectChatFirst id) db).

Definition mem_chat_findMany (w : ChatWhere) (o : SortOrder) (take : Z)
  : M Db (list Chat) :=
  fun db =>
    Return (take_rows take
              (order_by chat_createdAt o (filter (chat_matches w) (db_chats db))))
           (logged (SelectChats w o take) db).

Definition mem_vote_findFirst (w : VoteWhere) : M Db (option Vote) :=
  fun db =>
    Return (find (vote_matches w) (db_votes db)) (logged (SelectVoteFirst w) db).

Definition set_isUpvoted (isUpvoted : bool) (v : Vote) : Vote :=
  {| vote_chatId := vote_chatId v; vote_messageId := vote_messageId v;
     vote_userId := vote_userId v; vote_isUpvoted := isUpvoted;
     vote_createdAt := vote_createdAt v |}.

(** [update] on the unique key: the row is rewritten in place; no row is an
    error (P2025). *)
Definition mem_vote_update (key : string * string * string) (isUpvoted : bool)
  : M Db Vote :=
  fun db =>
    let db := logged (UpdateVote key isUpvoted) db in
    match find (has_key key) (db_votes db) with
    | Some v =>
        Return (set_isUpvoted isUpvoted v)
               (with_votes
                  (map (fun r => if has_key key r then set_isUpvoted isUpvoted r
                                 else r)
                       (db_votes db))
                  db)
    | None => Throw (OtherError "P2025") db
    end.

(** [create]: the primary key must be new (P2002) and the chat, the message
    and the user must exist (P2003); [createdAt] takes its default. *)
Definition mem_vote_create (key : string * string * string) (isUpvoted : bool)
  : M Db Vote :=
  fun db =>
    let db := logged (InsertVote key isUpvoted) db in
    let '(chatId, messageId, userId) := key in
    if existsb (has_key key) (db_votes db) then Throw (OtherError "P2002") db
    else if negb (existsb (fun c => (chat_id c =? chatId)%string) (db_chats db)
                  && existsb (fun m => (message_id m =? messageId)%string)
                             (db_messages db)
                  && existsb (fun u => (user_id u =? userId)%string)
                             (db_users db))
    then Throw (OtherError "P2003") db
    else
      let row := {| vote_chatId := chatId; vote_messageId := messageId;
                    vote_userId := userId; vote_isUpvoted := isUpvoted;
                    vote_createdAt := db_clock db |} in
      Return row (with_votes (db_votes db ++ [row]) db).

Definition mem_message_findMany (w : MessageWhere) (o : option SortOrder)
  : M Db (list DBMessage) :=
  fun db =>
    let rows := filter (message_matches w) (db_messages db) in
    Return (match o with
            | Some o => order_by message_createdAt o rows
            | None => rows
            end)
           (logged (SelectMessages w o) db).

Definition count_of {A : Type} (rows : list A) : BatchPayload :=
  {| count := Z.of_nat (List.length rows) |}.

Definition mem_vote_deleteMany (w : VoteWhere) : M Db BatchPayload :=
  fun db =>
    let db := logged (DeleteVotes w) db in
    Return (count_of (filter (vote_matches w) (db_votes db)))
           (with_votes
              (filter (fun v => negb (vote_matches w v)) (db_votes db)) db).

(** [deleteMany] on messages; the votes of a deleted message go with it
    ([onDelete: Cascade]). *)
Definition mem_message_deleteMany (w : MessageWhere) : M Db BatchPayload :=
  fun db =>
    let db := logged (DeleteMessages w) db in
    let deleted := filter (message_matches w) (db_messages db) in
    Return (count_of deleted)
           (with_votes
              (filter (fun v => negb (is_in (vote_messageId v)
                                            (map message_id deleted)))
                      (db_votes db))
              (with_messages
                 (filter (fun m => negb (message_matches w m)) (db_messages db))
                 db)).

Definition mem_document_findFirst (id : string) (o : SortOrder)
  : M Db (option Document) :=
  fun db =>
    Return (hd_error
              (order_by document_createdAt o
                 (filter (fun d => (document_id d =? id)%string)
                         (db_documents db))))
           (logged (SelectDocumentFirst id o) db).

(** *** The query functions on this client *)

Definition getChatsByUserId : string -> Z -> option string -> option string
                              -> M Db ChatPage :=
  Queries.getChatsByUserId Db mem_chat_findMany mem_chat_findFirst.

Definition voteMessage : string -> string -> string -> VoteType -> M Db Vote :=
  Queries.voteMessage Db mem_vote_findFirst mem_vote_update mem_vote_create.

Definition deleteMessagesByChatIdAfterTimestamp
  : string -> Z -> M Db (option BatchPayload) :=
  Queries.deleteMessagesByChatIdAfterTimestamp Db
    mem_message_findMany mem_message_deleteMany mem_vote_deleteMany.

Definition getDocumentById : string -> M Db (option Document) :=
  Queries.getDocumentById Db mem_document_findFirst.

Definition empty_db : Db :=
  {| db_users := []; db_chats := []; db_messages := []; db_votes := [];
     db_documents := []; db_clock := 0; db_log := [] |}.

(** *** Keys and tables *)

Lemma key_eqb_eq (a b : string * string * string) : key_eqb a b = true <-> a = b.
Proof.
  destruct a as [[a1 a2] a3], b as [[b1 b2] b3]. unfold key_eqb.
  rewrite !andb_true_iff, !String.eqb_eq. split.
  - intros [[-> ->] ->]. reflexivity.
  - intros [= -> -> ->]. auto.
Qed.

Lemma has_key_iff (key : string * string * string) (v : Vote) :
  has_key key v = true <-> vote_key v = key.
Proof. apply key_eqb_eq. Qed.

Lemma vote_matches_key (chatId messageId userId : string) (v : Vote) :
  vote_matches {| vw_chatId := chatId; vw_messageId := Some messageId;
                  vw_userId := Some userId; vw_messageId_in := None |} v
  = has_key (chatId, messageId, userId) v.
Proof.
  unfold vote_matches, has_key, key_eqb, vote_key. simpl.
  now rewrite andb_true_r.
Qed.

Lemma find_ext {A : Type} (p q : A -> bool) (l : list A) :
  (forall a, p a = q a) -> find p l = find q l.
Proof.
  intros H. induction l as [|x xs IH]; simpl; [reflexivity|].
  now rewrite H, IH.
Qed.

Lemma filter_none {A : Type} (p : A -> bool) (l : list A) :
  (forall a, In a l -> p a = false) -> filter p l = [].
Proof.
  induction l as [|x xs IH]; intros H; simpl; [reflexivity|].
  rewrite (H x (or_introl eq_refl)). apply IH. intros a Ha. apply H. now right.
Qed.

Lemma filter_all {A : Type} (p : A -> bool) (l : list A) :
  (forall a, In a l -> p a = true) -> filter p l = l.
Proof.
  induction l as [|x xs IH]; intros H; simpl; [reflexivity|].
  rewrite (H x (or_introl eq_refl)). f_equal. apply IH. intros a Ha.
  apply H. now right.
Qed.


(** Under a unique key a lookup by key finds the one row there is. *)
Lemma find_some_filter_key (key : string * string * string)
                           (votes : list Vote) (v : Vote) :
  NoDup (map vote_key votes) ->
  find (has_key key) votes = Some v ->
  filter (has_key key) votes = [v].
Proof.
  induction votes as [|x xs IH]; simpl; intros Hnd Hf; [discriminate|].
  inversion Hnd as [|? ? Hnotin Hnd']; subst.
  destruct (has_key key x) eqn:E.
  - injection Hf as ->. f_equal. apply filter_none. intros a Ha.
    destruct (has_key key a) eqn:Ea; [|reflexivity].
    exfalso. apply Hnotin.
    apply has_key_iff in E, Ea. rewrite E, <- Ea. now apply in_map.
  - now apply IH.
Qed.

Lemma existsb_find_none {A : Type} (p : A -> bool) (l : list A) :
  find p l = None -> existsb p l = false.
Proof.
  induction l as [|x xs IH]; simpl; [reflexivity|].
  destruct (p x); [discriminate | exact IH].
Qed.

(** Rewriting [isUpvoted] on the rows of one key. *)
Definition revote (key : string * string * string) (isUpvoted : bool)
                  (r : Vote) : Vote :=
  if has_key key r then set_isUpvoted isUpvoted r else r.

Lemma revote_key (key : string * string * string) (b : bool) (r : Vote) :
  vote_key (revote key b r) = vote_key r.
Proof. unfold revote. now destruct (has_key key r). Qed.

Lemma revote_keys (key : string * string * string) (b : bool)
                  (votes : list Vote) :
  map vote_key (map (revote key b) votes) = map vote_key votes.
Proof.
  rewrite map_map. apply map_ext. intros. apply revote_key.
Qed.

Lemma has_key_revote (key k : string * string * string) (b : bool) (r : Vote) :
  has_key k (revote key b r) = has_key k r.
Proof. unfold has_key. now rewrite revote_key. Qed.

Lemma filter_revote_same (key : string * string * string) (b : bool)
                         (votes : list Vote) :
  filter (has_key key) (map (revote key b) votes)
  = map (set_isUpvoted b) (filter (has_key key) votes).
Proof.
  induction votes as [|x xs IH]; simpl; [reflexivity|].
  rewrite has_key_revote. destruct (has_key key x) eqn:E; [|exact IH].
  simpl. rewrite IH. unfold revote. now rewrite E.
Qed.



(** *** Pages of chats *)

Lemma order_by_sorted_desc {A : Type} (key : A -> Z) (rows : list A) :
  StronglySorted (fun a b => key a >= key b) (order_by key desc rows).
Proof.
  unfold order_by.
  assert (H : StronglySorted
                (Sorting.cmp_le (fun a b => key b - key a))
                (Sorting.sort (fun a b => key b - key a) rows)).
  { apply Sorting.sort_sorted; intros; lia. }
  induction H as [|x l Hs IH Hall]; constructor; auto.
  eapply Forall_impl; [|exact Hall].
  unfold Sorting.cmp_le. intros; lia.
Qed.

Lemma order_by_In {A : Type} (key : A -> Z) (o : SortOrder) (rows : list A)
                  (x : A) :
  In x (order_by key o rows) <-> In x rows.
Proof. apply Sorting.sort_In. Qed.

Lemma firstn_In {A : Type} (n : nat) (l : list A) (x : A) :
  In x (firstn n l) -> In x l.
Proof.
  intros H. rewrite <- (firstn_skipn n l). apply in_or_app. now left.
Qed.

Lemma StronglySorted_firstn {A : Type} (R : A -> A -> Prop) (n : nat)
                            (l : list A) :
  StronglySorted R l -> StronglySorted R (firstn n l).
Proof.
  intros H. revert n. induction H as [|x l Hs IH Hall]; intros [|n]; simpl;
    try constructor; auto.
  rewrite Forall_forall in *. intros y Hy. apply Hall.
  now apply (firstn_In n).
Qed.

Lemma firstn_succ {A : Type} (n : nat) (l : list A) :
  (n < List.length l)%nat ->
  exists extra, nth_error l n = Some extra /\
                firstn (S n) l = firstn n l ++ [extra].
Proof.
  revert n. induction l as [|x xs IH]; intros n H; simpl in H; [lia|].
  destruct n as [|n].
  - exists x. split; reflexivity.
  - destruct (IH n) as (extra & Hn & Hf); [lia|].
    exists extra. split; [exact Hn|].
    change (x :: firstn (S n) xs = x :: (firstn n xs ++ [extra])).
    now rewrite Hf.
Qed.

(** What the function makes of the rows a query with [take: limit + 1]
    returns, for a positive limit. *)
Lemma page_of_rows {A : Type} (matched : list A) (limit : Z) :
  0 < limit ->
  let filteredChats := take_rows (limit + 1) matched in
  let more := Z.of_nat (List.length filteredChats) >? limit in
  filteredChats = firstn (Z.to_nat (limit + 1)) matched /\
  Z.of_nat (List.length filteredChats) <= limit + 1 /\
  (if more then slice0 filteredChats limit else filteredChats)
    = firstn (Z.to_nat limit) matched /\
  (more = true <-> limit < Z.of_nat (List.length matched)) /\
  (more = true ->
     exists extra, nth_error matched (Z.to_nat limit) = Some extra /\
                   filteredChats = firstn (Z.to_nat limit) matched ++ [extra]) /\
  (more = false -> firstn (Z.to_nat limit) matched = matched).
Proof.
  intros Hpos filteredChats more.
  assert (Hf : filteredChats = firstn (Z.to_nat (limit + 1)) matched).
  { unfold filteredChats, take_rows.
    destruct (Z.ltb_spec (limit + 1) 0); [lia | reflexivity]. }
  assert (Hlen : List.length filteredChats
                 = Nat.min (Z.to_nat (limit + 1)) (List.length matched)).
  { rewrite Hf. apply length_firstn. }
  assert (Hmore : more = true <-> limit < Z.of_nat (List.length matched)).
  { unfold more. rewrite Hlen. rewrite Z.gtb_ltb, Z.ltb_lt. lia. }
  split; [exact Hf|]. split; [lia|].
  assert (Hsucc : Z.to_nat (limit + 1) = S (Z.to_nat limit)) by lia.
  split; [|split; [exact Hmore|split]].
  - destruct more eqn:E.
    + unfold slice0. destruct (Z.ltb_spec limit 0); [lia|].
      rewrite Hf, firstn_firstn. f_equal. lia.
    + rewrite Hf. assert (~ limit < Z.of_nat (List.length matched)).
      { intros Hc. apply Hmore in Hc. discriminate. }
      rewrite !firstn_all2 by lia. reflexivity.
  - intros E. apply Hmore in E.
    destruct (firstn_succ (Z.to_nat limit) matched) as (extra & Hn & Hx);
      [lia|].
    exists extra. split; [exact Hn|]. now rewrite Hf, Hsucc.
  - intros E. apply firstn_all2.
    assert (~ limit < Z.of_nat (List.length matched)).
    { intros Hc. apply Hmore in Hc. congruence. }
    lia.
Qed.

(** The rows of a user's chats a cursor condition leaves, newest first. *)
Definition matched_chats (db : Db) (id : string) (cursor : option DateFilter)
  : list Chat :=
  order_by chat_createdAt desc
    (filter (chat_matches {| cw_userId := id; cw_createdAt := cursor |})
            (db_chats db)).


(** The condition on [createdAt] the cursors stand for: chats created after
    the chat [startingAfter] names, else before the one [endingBefore] names,
    else none; nothing when the chat named does not exist. *)
Definition cursor_condition (db : Db) (startingAfter endingBefore : option string)
  : option (option DateFilter) :=
  let chat_of s :=
    find (fun c => (chat_id c =? Js.the_string s)%string) (db_chats db) in
  if Js.truthy_str startingAfter then
    option_map (fun c => Some (gt (chat_createdAt c))) (chat_of startingAfter)
  else if Js.truthy_str endingBefore then
    option_map (fun c => Some (lt (chat_createdAt c))) (chat_of endingBefore)
  else Some None.

(** A call that returns ran the query once, last, under the condition of its
    cursors, and built its page from the rows of that query. *)
Lemma getChatsByUserId_returns
  (db db' : Db) (id : string) (limit : Z)
  (startingAfter endingBefore : option string) (page : ChatPage) :
  getChatsByUserId id limit startingAfter endingBefore db = Return page db' ->
  exists (cursor : option DateFilter) (earlier : list Statement),
    let filteredChats := take_rows (limit + 1) (matched_chats db id cursor) in
    let more := Z.of_nat (List.length filteredChats) >? limit in
    cursor_condition db startingAfter endingBefore = Some cursor /\
    db_log db' =
      earlier ++ [SelectChats {| cw_userId := id; cw_createdAt := cursor |}
                              desc (limit + 1)] /\
    chats page = (if more then slice0 filteredChats limit else filteredChats) /\
    hasMore page = more.
Proof.
  unfold getChatsByUserId, Queries.getChatsByUserId, try_catch, bind, ret.
  unfold cursor_condition. intros H.
  destruct (Js.truthy_str startingAfter).
  - unfold mem_chat_findFirst in H at 1.
    destruct (find _ (db_chats db)) as [selectedChat|]; [|discriminate].
    unfold mem_chat_findMany in H. simpl in H. injection H as <- <-.
    exists (Some (gt (chat_createdAt selectedChat))),
           (db_log db ++ [SelectChatFirst (Js.the_string startingAfter)]).
    repeat split.
  - destruct (Js.truthy_str endingBefore).
    + unfold mem_chat_findFirst in H at 1.
      destruct (find _ (db_chats db)) as [selectedChat|]; [|discriminate].
      unfold mem_chat_findMany in H. simpl in H. injection H as <- <-.
      exists (Some (lt (chat_createdAt selectedChat))),
             (db_log db ++ [SelectChatFirst (Js.the_string endingBefore)]).
      repeat split.
    + unfold mem_chat_findMany in H. simpl in H. injection H as <- <-.
      exists None, (db_log db). repeat split.
Qed.


(** *** Cursors that match no chat *)

Lemma find_none_intro {A : Type} (p : A -> bool) (l : list A) :
  (forall a, In a l -> p a = false) -> find p l = None.
Proof.
  induction l as [|x xs IH]; intros H; simpl; [reflexivity|].
  rewrite (H x (or_introl eq_refl)). apply IH. intros a Ha. apply H. now right.
Qed.

Lemma mem_chat_findFirst_unknown (db : Db) (s : string) :
  (forall c, In c (db_chats db) -> chat_id c <> s) ->
  mem_chat_findFirst s db = Return None (logged (SelectChatFirst s) db).
Proof.
  intros H. unfold mem_chat_findFirst. f_equal.
  apply find_none_intro. intros c Hc. apply String.eqb_neq. now apply H.
Qed.

(** Sample tables: one user, two of her chats, three messages, one vote. *)
Definition sample_db : Db :=
  {| db_users := [ {| user_id := "u1"; user_username := "ada";
                      user_email := None; user_password_hash := None |} ];
     db_chats := [ {| chat_id := "c1"; chat_createdAt := 1; chat_userId := "u1";
                      chat_title := None;
                      chat_visibility := visibility_private |};
                   {| chat_id := "c2"; chat_createdAt := 2; chat_userId := "u1";
                      chat_title := None;
                      chat_visibility := visibility_private |} ];
     db_messages := [ {| message_id := "m1"; message_chatId := "c1";
                         message_role := "user"; message_content := "hi";
                         message_createdAt := 10 |};
                      {| message_id := "m2"; message_chatId := "c1";
                         message_role := "assistant"; message_content := "hello";
                         message_createdAt := 20 |};
                      {| message_id := "m3"; message_chatId := "c2";
                         message_role := "user"; message_content := "hey";
                         message_createdAt := 20 |} ];
     db_votes := [ {| vote_chatId := "c1"; vote_messageId := "m2";
                      vote_userId := "u1"; vote_isUpvoted := false;
                      vote_createdAt := 21 |} ];
     db_documents := [];
     db_clock := 100;
     db_log := [] |}.

(** *** Deleting the messages of a chat from a timestamp on *)

(** The messages [deleteMessagesByChatIdAfterTimestamp] selects. *)
Definition doomed (chatId : string) (timestamp : Z) (m : DBMessage) : bool :=
  (message_chatId m =? chatId)%string && (timestamp <=? message_createdAt m).

Lemma is_in_iff (x : string) (xs : list string) :
  is_in x xs = true <-> In x xs.
Proof.
  unfold is_in. rewrite existsb_exists. split.
  - intros (y & Hy & E). apply String.eqb_eq in E. now subst.
  - intros H. exists x. split; [exact H | apply String.eqb_refl].
Qed.

Lemma unique_by_key {A K : Type} (key : A -> K) (l : list A) (a b : A) :
  NoDup (map key l) -> In a l -> In b l -> key a = key b -> a = b.
Proof.
  induction l as [|x xs IH]; simpl; intros Hnd Ha Hb E; [contradiction|].
  inversion Hnd as [|? ? Hnotin Hnd']; subst.
  destruct Ha as [->|Ha], Hb as [->|Hb]; auto.
  - exfalso. apply Hnotin. rewrite E. now apply in_map.
  - exfalso. apply Hnotin. rewrite <- E. now apply in_map.
Qed.

Lemma select_is_doomed (chatId : string) (timestamp : Z) (m : DBMessage) :
  message_matches {| mw_chatId := chatId; mw_createdAt := Some (gte timestamp);
                     mw_id_in := None |} m
  = doomed chatId timestamp m.
Proof. unfold message_matches, doomed. simpl. now rewrite andb_true_r. Qed.

(** With unique ids, deleting by chat and id deletes the selected rows. *)
Lemma delete_is_doomed (chatId : string) (timestamp : Z)
                       (messages : list DBMessage) (m : DBMessage) :
  NoDup (map message_id messages) -> In m messages ->
  message_matches
    {| mw_chatId := chatId; mw_createdAt := None;
       mw_id_in := Some (map message_id
                           (filter (doomed chatId timestamp) messages)) |} m
  = doomed chatId timestamp m.
Proof.
  intros Hnd Hm. unfold message_matches. simpl. rewrite andb_true_r.
  destruct (doomed chatId timestamp m) eqn:Ed.
  - apply andb_true_iff. split.
    + unfold doomed in Ed. now apply andb_true_iff in Ed as [Ed _].
    + apply is_in_iff, in_map, filter_In. now split.
  - destruct (String.eqb_spec (message_chatId m) chatId) as [Ec|Ec];
      [|reflexivity].
    simpl. destruct (is_in _ _) eqn:Ei; [|reflexivity].
    apply is_in_iff, in_map_iff in Ei as (m' & Eid & Hin).
    apply filter_In in Hin as [Hin Hd].
    rewrite (unique_by_key message_id messages m m' Hnd Hm Hin (eq_sym Eid)) in Ed.
    congruence.
Qed.

Lemma filter_filter {A : Type} (p q : A -> bool) (l : list A) :
  filter p (filter q l) = filter (fun x => q x && p x) l.
Proof.
  induction l as [|x xs IH]; simpl; [reflexivity|].
  destruct (q x); simpl; [destruct (p x)|]; now rewrite IH.
Qed.

(** C9. With unique message ids, the call returns, and the messages left are
    those not of the chat or created before the timestamp: a message of the
    chat created at the timestamp or later is gone. The votes on the deleted
    messages are gone too, deleted for that chat by a statement that runs
    before the one deleting the messages. When no message is selected nothing
    is deleted and the result is [undefined]; otherwise it is the count of
    deleted messages. *)
Theorem deleteMessagesByChatIdAfterTimestamp_deletes
  (db : Db) (chatId : string) (timestamp : Z) :
  NoDup (map message_id (db_messages db)) ->
  let selected := filter (doomed chatId timestamp) (db_messages db) in
  let messageIds := map message_id selected in
  let select := SelectMessages {| mw_chatId := chatId;
                                  mw_createdAt := Some (gte timestamp);
                                  mw_id_in := None |} None in
  exists (r : option BatchPayload) (db' : Db),
    deleteMessagesByChatIdAfterTimestamp chatId timestamp db = Return r db' /\
    db_messages db' =
      filter (fun m => negb ((message_chatId m =? chatId)%string
                             && (timestamp <=? message_createdAt m)))
             (db_messages db) /\
    (forall m, In m (db_messages db) -> message_chatId m = chatId ->
               message_createdAt m = timestamp -> ~ In m (db_messages db')) /\
    db_votes db' =
      filter (fun v => negb (is_in (vote_messageId v) messageIds)) (db_votes db) /\
    (selected = [] ->
       r = None /\ db_messages db' = db_messages db /\
       db_votes db' = db_votes db /\ db_log db' = db_log db ++ [select]) /\
    (selected <> [] ->
       r = Some {| count := Z.of_nat (List.length selected) |} /\
       db_log db' =
         db_log db ++
           [select;
            DeleteVotes {| vw_chatId := chatId; vw_messageId := None;
                           vw_userId := None;
                           vw_messageId_in := Some messageIds |};
            DeleteMessages {| mw_chatId := chatId; mw_createdAt := None;
                              mw_id_in := Some messageIds |}]).
Proof.
  intros Hnd. cbv zeta.
  remember (filter (doomed chatId timestamp) (db_messages db)) as selected
    eqn:Edef.
  assert (Hsel : filter (message_matches
                           {| mw_chatId := chatId;
                              mw_createdAt := Some (gte timestamp);
                              mw_id_in := None |}) (db_messages db) = selected).
  { rewrite Edef. apply filter_ext. intros m. apply select_is_doomed. }
  assert (Hgone : forall m, In m (db_messages db) -> message_chatId m = chatId ->
            message_createdAt m = timestamp ->
            ~ In m (filter (fun m => negb (doomed chatId timestamp m))
                           (db_messages db))).
  { intros m _ Hc Ht Hin. apply filter_In in Hin as [_ Hin].
    unfold doomed in Hin. rewrite Hc, Ht, String.eqb_refl, Z.leb_refl in Hin.
    discriminate. }
  unfold deleteMessagesByChatIdAfterTimestamp,
    Queries.deleteMessagesByChatIdAfterTimestamp, try_catch, bind, ret.
  unfold mem_message_findMany at 1. rewrite Hsel.
  destruct selected as [|m0 rest].
  - (* nothing selected *)
    simpl.
    assert (Hkeep : filter (fun m => negb (doomed chatId timestamp m))
                           (db_messages db) = db_messages db).
    { apply filter_all. intros m Hm. apply negb_true_iff.
      destruct (doomed chatId timestamp m) eqn:Ed; [|reflexivity].
      assert (Hin : In m []) by (rewrite Edef; apply filter_In; now split).
      contradiction. }
    eexists. eexists. split; [reflexivity|]. simpl.
    split; [exact (eq_sym Hkeep)|].
    split; [intros m Hm Hc Ht; rewrite <- Hkeep; now apply Hgone|].
    split; [symmetry; now apply filter_all|].
    split; [|congruence].
    intros _. split; [reflexivity|]. split; [reflexivity|].
    split; reflexivity.
  - (* some messages selected *)
    set (selected := m0 :: rest) in *.
    set (messageIds := map message_id selected).
    assert (Hlen : (0 <? List.length messageIds)%nat = true) by reflexivity.
    rewrite Hlen. unfold mem_vote_deleteMany, mem_message_deleteMany. simpl.
    assert (Hdel : forall m, In m (db_messages db) ->
              message_matches {| mw_chatId := chatId; mw_createdAt := None;
                                 mw_id_in := Some messageIds |} m
              = doomed chatId timestamp m).
    { intros m Hm. unfold messageIds. rewrite Edef.
      now apply delete_is_doomed. }
    assert (Hrows : filter (message_matches
                              {| mw_chatId := chatId; mw_createdAt := None;
                                 mw_id_in := Some messageIds |})
                           (db_messages db) = selected).
    { rewrite Edef. now apply filter_ext_in. }
    rewrite Hrows. fold messageIds.
    eexists. eexists. split; [reflexivity|]. simpl.
    split.
    { apply filter_ext_in. intros m Hm. now rewrite (Hdel m Hm). }
    split.
    { intros m Hm Hc Ht Hin. apply (Hgone m Hm Hc Ht).
      apply filter_In in Hin as [_ Hin]. apply filter_In. split; [exact Hm|].
      now rewrite <- (Hdel m Hm). }
    split.
    { rewrite filter_filter. apply filter_ext. intros v.
      unfold vote_matches.
      cbn [vw_chatId vw_messageId vw_userId vw_messageId_in holds].
      rewrite !andb_true_r.
      set (b := is_in (vote_messageId v) messageIds).
      change (negb ((vote_chatId v =? chatId)%string && b) && negb b = negb b).
      now destruct (vote_chatId v =? chatId)%string, b. }
    split; [discriminate|].
    intros _. split; [reflexivity|].
    now rewrite <- !app_assoc.
Qed.

(** C7, as the function behaves. A cursor that is a non-empty string naming no
    chat makes the call fail with [bad_request:database] and the text of the
    function: [startingAfter] when it is non-empty, else [endingBefore]. The
    [not_found:database] error is thrown inside the [try] block and does not
    reach the caller. *)
Theorem getChatsByUserId_unknown_cursor
  (db : Db) (id : string) (limit : Z)
  (startingAfter endingBefore : option string) (s : string) :
  (startingAfter = Some s \/
   (Js.truthy_str startingAfter = false /\ endingBefore = Some s)) ->
  s <> "" ->
  (forall c, In c (db_chats db) -> chat_id c <> s) ->
  getChatsByUserId id limit startingAfter endingBefore db =
    Throw (SDKError {| errorCode := "bad_request:database";
                       errorText := Some "Failed to get chats by user id" |})
          (logged (SelectChatFirst s) db).
Proof.
  intros Hcursor Hs Hnone.
  assert (Ht : Js.truthy_str (Some s) = true).
  { apply Js.truthy_str_true. now exists s. }
  unfold getChatsByUserId.
  apply (Queries.getChatsByUserId_cursor_not_found Db).
  - destruct Hcursor as [->|[Ha ->]]; [now rewrite Ht | now rewrite Ha].
  - destruct Hcursor as [->|[Ha ->]]; [rewrite Ht | rewrite Ha]; simpl;
      now apply mem_chat_findFirst_unknown.
Qed.

(** Against C7 as stated: the empty string is a non-null [startingAfter]
    that names no chat, and the call returns the first page. *)
Lemma getChatsByUserId_empty_cursor_returns :
  (forall c, In c (db_chats sample_db) -> chat_id c <> "") /\
  exists page db',
    getChatsByUserId "u1" 1 (Some "") None sample_db = Return page db' /\
    map chat_id (chats page) = ["c2"] /\ hasMore page = true.
Proof.
  split.
  - intros c [<-|[<-|[]]]; discriminate.
  - eexists. eexists. split; [reflexivity|]. split; reflexivity.
Qed.

(** *** The theorems at the sample tables *)

Lemma sample_votes_unique : NoDup (map vote_key (db_votes sample_db)).
Proof. repeat constructor. simpl. tauto. Qed.

Lemma sample_messages_unique : NoDup (map message_id (db_messages sample_db)).
Proof.
  repeat constructor; simpl; intuition discriminate.
Qed.



(** A cursor naming no chat. *)
Lemma getChatsByUserId_unknown_cursor_witness :
  getChatsByUserId "u1" 1 (Some "c9") None sample_db =
    Throw (SDKError {| errorCode := "bad_request:database";
                       errorText := Some "Failed to get chats by user id" |})
          (logged (SelectChatFirst "c9") sample_db).
Proof.
  apply (getChatsByUserId_unknown_cursor sample_db "u1" 1 (Some "c9") None "c9").
  - left. reflexivity.
  - discriminate.
  - intros c [<-|[<-|[]]]; discriminate.
Defined.

(** Deleting the messages of chat c1 from time 20 on deletes m2, created
    at 20. *)
Lemma deleteMessagesByChatIdAfterTimestamp_deletes_witness :
  exists r db',
    deleteMessagesByChatIdAfterTimestamp "c1" 20 sample_db = Return r db' /\
    map message_id (db_messages db') = ["m1"; "m3"] /\
    db_votes db' = [] /\
    r = Some {| count := 1 |}.
Proof.
  destruct (deleteMessagesByChatIdAfterTimestamp_deletes sample_db "c1" 20
              sample_messages_unique)
    as (r & db' & Hrun & Hmsgs & _ & Hvotes & _ & Hsome).
  exists r, db'. split; [exact Hrun|].
  split; [rewrite Hmsgs; reflexivity|].
  split; [rewrite Hvotes; reflexivity|].
  apply Hsome. discriminate.
Defined.

End Mem.

(* ================================================================== *)
(** ** The document-versions route *)

Module Route.
Import Effects Queries.
Local Open Scope monad_scope.

(** A JSON value, as stored in a [Json] column. *)
#[local] Set Warnings "-register-all".
Inductive Json : Type :=
| JsonNull
| JsonBool (b : bool)
| JsonNum (n : Z)
| JsonStr (s : string)
| JsonArr (items : list Json)
| JsonObj (fields : list (string * Json)).

Definition json_truthy (j : Json) : bool :=
  match j with
  | JsonNull => false
  | JsonBool b => b
  | JsonNum n => negb (n =? 0)
  | JsonStr s => negb (s =? "")%string
  | JsonArr _ => true
  | JsonObj _ => true
  end.

(** A row of [DocumentVersion]. *)
Record DocumentVersion : Type := {
  version_id : string;
  version_documentId : string;
  version_userId : string;
  version_title : option string;
  version_contentRich : option Json;
  version_createdAt : Z;
  version_updatedAt : Z
}.

(** The request, as far as the handler reads it: the query of its URL. *)
Record Request : Type := { searchParams : list (string * string) }.

(** [searchParams.get(name)]: the first value of the name, or [null]. *)
Definition searchParams_get (name : string) (request : Request) : option string :=
  Js.lookup name (searchParams request).

Record SessionUser : Type := { session_user_id : option string }.
Record Session : Type := { session_user : option SessionUser }.

(** A version in document format. *)
Record VersionDocument : Type := {
  vd_id : string;
  vd_title : option string;
  vd_content : Json;
  vd_kind : ArtifactKind;
  vd_userId : string;
  vd_createdAt : Z;
  vd_updatedAt : Z
}.

(** An element of the array the handler answers with. *)
Inductive Entry : Type :=
| VersionEntry (v : VersionDocument)
| DocumentEntry (d : Document).

(** The two ways the handler builds a response:
    [new ChatSDKError(...).toResponse()] and [Response.json(body, { status })]. *)
Inductive Response : Type :=
| toResponse (e : ChatSDKError)
| Response_json (body : list Entry) (status : Z).

(** [version.title || document.title]. *)
Definition title_or (title fallback : option string) : option string :=
  if Js.truthy_str title then title else fallback.

(** [(version.contentRich as any)?.content || '']. *)
Definition content_or_empty (contentRich : option Json) : Json :=
  match contentRich with
  | Some (JsonObj fields) =>
      match Js.lookup "content" fields with
      | Some content => if json_truthy content then content else JsonStr ""
      | None => JsonStr ""
      end
  | _ => JsonStr ""
  end.

(** [a !== b] for a string and a [string | undefined]. *)
Definition differs (a : string) (b : option string) : bool :=
  match b with
  | Some b => negb (a =? b)%string
  | None => true
  end.

(** [session?.user]. *)
Definition user_of (session : option Session) : option SessionUser :=
  match session with
  | Some s => session_user s
  | None => None
  end.

Section Handler.

Variable W : Type.

(** [auth()] of app/(auth)/auth and [getDocumentVersions] of the query
    module are parameters; the Prisma operation is the one [getDocumentById]
    calls. *)
Variable auth : M W (option Session).
Variable document_findFirst : string -> SortOrder -> M W (option Document).
Variable getDocumentVersions : string -> M W (list DocumentVersion).

Definition getDocumentById : string -> M W (option Document) :=
  Queries.getDocumentById W document_findFirst.

Definition versionDocument (document : Document) (version : DocumentVersion)
  : VersionDocument :=
  {| vd_id := version_documentId version;
     vd_title := title_or (version_title version) (document_title document);
     vd_content := content_or_empty (version_contentRich version);
     vd_kind := document_kind document;
     vd_userId := version_userId version;
     vd_createdAt := version_createdAt version;
     vd_updatedAt := version_updatedAt version |}.

Definition GET (request : Request) : M W Response :=
  let documentId := searchParams_get "documentId" request in
  if negb (Js.truthy_str documentId) then
    ret (toResponse {| errorCode := "bad_request:api";
                       errorText := Some "Parameter documentId is missing" |})
  else
    let documentId := Js.the_string documentId in
    session <- auth ;;
    match user_of session with
    | None =>
        ret (toResponse {| errorCode := "unauthorized:document";
                           errorText := None |})
    | Some user =>
        document <- getDocumentById documentId ;;
        match document with
        | None =>
            ret (toResponse {| errorCode := "not_found:document";
                               errorText := None |})
        | Some document =>
            if differs (document_userId document) (session_user_id user) then
              ret (toResponse {| errorCode := "forbidden:document";
                                 errorText := None |})
            else
              versions <- getDocumentVersions documentId ;;
              let versionDocuments := map (versionDocument document) versions in
              let allVersions :=
                map VersionEntry versionDocuments ++ [DocumentEntry document] in
              ret (Response_json allVersions 200)
        end
    end.

(** C8. The handler answers, in this order: [bad_request:api] when the
    [documentId] parameter is missing (absent or empty), before anything else
    runs; [unauthorized:document] when [auth()] gives no user;
    [not_found:document] when there is no such document;
    [forbidden:document] when the document is another user's; else status 200
    with the versions in document format followed by the document. *)
Theorem GET_checks_in_order (request : Request) (w : W) :
  let documentId := searchParams_get "documentId" request in
  (Js.truthy_str documentId = false ->
   GET request w =
     Return (toResponse {| errorCode := "bad_request:api";
                           errorText := Some "Parameter documentId is missing" |})
            w) /\
  (forall id, documentId = Some id -> id <> "" ->
   forall session w1, auth w = Return session w1 ->
     (user_of session = None ->
      GET request w =
        Return (toResponse {| errorCode := "unauthorized:document";
                              errorText := None |}) w1) /\
     (forall user, user_of session = Some user ->
      forall found w2, getDocumentById id w1 = Return found w2 ->
        (found = None ->
         GET request w =
           Return (toResponse {| errorCode := "not_found:document";
                                 errorText := None |}) w2) /\
        (forall document, found = Some document ->
           (Some (document_userId document) <> session_user_id user ->
            GET request w =
              Return (toResponse {| errorCode := "forbidden:document";
                                    errorText := None |}) w2) /\
           (Some (document_userId document) = session_user_id user ->
            forall versions w3,
              getDocumentVersions id w2 = Return versions w3 ->
              GET request w =
                Return (Response_json
                          (map VersionEntry
                               (map (versionDocument document) versions)
                           ++ [DocumentEntry document])
                          200) w3)))).
Proof.
  intros documentId. unfold GET. fold documentId. split.
  - intros ->. reflexivity.
  - intros id Hid Hne session w1 Hauth.
    assert (Ht : Js.truthy_str documentId = true).
    { apply Js.truthy_str_true. now exists id. }
    rewrite Ht, Hid. cbn [negb Js.the_string].
    rewrite (bind_returns _ _ _ _ _ Hauth). split.
    + intros ->. reflexivity.
    + intros user -> found w2 Hdoc.
      rewrite (bind_returns _ _ _ _ _ Hdoc). split.
      * intros ->. reflexivity.
      * intros document ->. split.
        -- intros Hd. replace (differs _ _) with true; [reflexivity|].
           unfold differs. destruct (session_user_id user) as [u|];
             [|reflexivity].
           symmetry. apply negb_true_iff, String.eqb_neq. congruence.
        -- intros Hd versions w3 Hv.
           replace (differs _ _) with false.
           ++ now rewrite (bind_returns _ _ _ _ _ Hv).
           ++ unfold differs. rewrite <- Hd.
              now rewrite String.eqb_refl.
Qed.

End Handler.

(** *** The handler on the in-memory client *)

Definition sample_document : Document :=
  {| document_id := "d1"; document_createdAt := 30; document_updatedAt := 40;
     document_title := Some "Notes"; document_content := Some "v3";
     document_kind := kind_text; document_userId := "u1" |}.

Definition sample_version : DocumentVersion :=
  {| version_id := "v1"; version_documentId := "d1"; version_userId := "u1";
     version_title := Some "";
     version_contentRich := Some (JsonObj [("content", JsonStr "v1")]);
     version_createdAt := 31; version_updatedAt := 32 |}.

Definition sample_db : Mem.Db :=
  {| Mem.db_users := []; Mem.db_chats := []; Mem.db_messages := [];
     Mem.db_votes := []; Mem.db_documents := [sample_document];
     Mem.db_clock := 50; Mem.db_log := [] |}.

(** The session of user u1, and one stored version. *)
Definition sample_auth : M Mem.Db (option Session) :=
  ret (Some {| session_user := Some {| session_user_id := Some "u1" |} |}).

Definition sample_getDocumentVersions (documentId : string)
  : M Mem.Db (list DocumentVersion) :=
  ret (if (documentId =? "d1")%string then [sample_version] else []).

(** The owner asks for the versions of d1: the stored version, under the
    title of the document since its own is empty, then the document. *)
Lemma GET_checks_in_order_witness :
  GET Mem.Db sample_auth Mem.mem_document_findFirst sample_getDocumentVersions
      {| searchParams := [("documentId", "d1")] |} sample_db
  = Return
      (Response_json
         [ VersionEntry {| vd_id := "d1"; vd_title := Some "Notes";
                           vd_content := JsonStr "v1"; vd_kind := kind_text;
                           vd_userId := "u1"; vd_createdAt := 31;
                           vd_updatedAt := 32 |};
           DocumentEntry sample_document ]
         200)
      (Mem.logged (Mem.SelectDocumentFirst "d1" desc) sample_db).
Proof.
  pose proof (GET_checks_in_order Mem.Db sample_auth Mem.mem_document_findFirst
                sample_getDocumentVersions
                {| searchParams := [("documentId", "d1")] |} sample_db) as H.
  cbv zeta in H. destruct H as [_ H].
  destruct (H "d1" eq_refl ltac:(discriminate) _ _ eq_refl) as [_ H1].
  destruct (H1 _ eq_refl _ _ eq_refl) as [_ H2].
  destruct (H2 _ eq_refl) as [_ H3].
  exact (H3 eq_refl _ _ eq_refl).
Defined.

End Route.

(* ================================================================== *)
(** ** The migration script: parts, batches, inserts *)

Module MigrationParts.
Import Route.

(** A message part, [{ type: string; [k: string]: any }]: its type and its
    other fields. *)
Record Part : Type := {
  type : string;
  fields : Js.object Json
}.

(** The part as a JSON object, and [p.content ?? p]. *)
Definition part_json (p : Part) : Json :=
  JsonObj (("type", JsonStr (type p)) :: fields p).

Definition content_or_self (p : Part) : Json :=
  match Js.lookup "content" (fields p) with
  | Some JsonNull => part_json p
  | Some content => content
  | None => part_json p
  end.

(** [part.reasoning === 'undefined']. *)
Definition reasoning_is_undefined_text (p : Part) : bool :=
  match Js.lookup "reasoning" (fields p) with
  | Some (JsonStr s) => (s =? "undefined")%string
  | _ => false
  end.

Definition sanitizeParts (parts : list Part) : list Part :=
  filter (fun part =>
            negb ((type part =? "reasoning")%string
                  && reasoning_is_undefined_text part))
         parts.

Section Dedupe.

(** [JSON.stringify]. *)
Variable JSON_stringify : Json -> string.

(** [`${p.type}|${JSON.stringify(p.content ?? p)}`]. *)
Definition part_key (p : Part) : string :=
  (type p ++ "|" ++ JSON_stringify (content_or_self p))%string.

(** The [filter] of [dedupeParts], with the set [seen] as it stands. *)
Fixpoint dedupe_from (seen : list string) (parts : list Part) : list Part :=
  match parts with
  | [] => []
  | p :: rest =>
      let key := part_key p in
      if Mem.is_in key seen then dedupe_from seen rest
      else p :: dedupe_from (key :: seen) rest
  end.

Definition dedupeParts (parts : list Part) : list Part := dedupe_from [] parts.

(** [sanitizeParts(dedupeParts(message.parts || []))]. *)
Definition cleanParts (parts : option (list Part)) : list Part :=
  sanitizeParts (dedupeParts (match parts with Some ps => ps | None => [] end)).

Lemma dedupe_from_In (seen : list string) (parts : list Part) (p : Part) :
  In p (dedupe_from seen parts) -> In p parts /\ ~ In (part_key p) seen.
Proof.
  revert seen. induction parts as [|q rest IH]; intros seen H; simpl in *.
  - contradiction.
  - destruct (Mem.is_in (part_key q) seen) eqn:E.
    + destruct (IH _ H). auto.
    + destruct H as [->|H].
      * split; [now left|]. intros Hin. apply Mem.is_in_iff in Hin. congruence.
      * destruct (IH _ H) as [H1 H2]. split; [now right|].
        intros Hin. apply H2. now right.
Qed.

Lemma dedupe_from_nodup (seen : list string) (parts : list Part) :
  NoDup (map part_key (dedupe_from seen parts)).
Proof.
  revert seen. induction parts as [|q rest IH]; intros seen; simpl.
  - constructor.
  - destruct (Mem.is_in (part_key q) seen); [apply IH|].
    simpl. constructor; [|apply IH].
    intros Hin. apply in_map_iff in Hin as (p & Hk & Hp).
    apply dedupe_from_In in Hp as [_ Hp]. apply Hp. left. now symmetry.
Qed.

Lemma dedupe_from_covers (seen : list string) (parts : list Part) (p : Part) :
  In p parts ->
  In (part_key p) seen \/ In (part_key p) (map part_key (dedupe_from seen parts)).
Proof.
  revert seen. induction parts as [|q rest IH]; intros seen H; simpl in *.
  - contradiction.
  - destruct (Mem.is_in (part_key q) seen) eqn:E.
    + destruct H as [->|H]; [left; now apply Mem.is_in_iff | now apply IH].
    + destruct H as [->|H]; [right; now left|].
      destruct (IH (part_key q :: seen) H) as [[Hq|Hs]|Hd].
      * right. left. exact Hq.
      * now left.
      * right. now right.
Qed.

Lemma dedupe_from_fixed (seen : list string) (parts : list Part) :
  NoDup (map part_key parts) ->
  (forall p, In p parts -> ~ In (part_key p) seen) ->
  dedupe_from seen parts = parts.
Proof.
  revert seen. induction parts as [|q rest IH]; intros seen Hnd Hs; simpl.
  - reflexivity.
  - inversion Hnd as [|? ? Hq Hnd']; subst.
    destruct (Mem.is_in (part_key q) seen) eqn:E.
    + apply Mem.is_in_iff in E. exfalso. now apply (Hs q (or_introl eq_refl)).
    + f_equal. apply IH; [exact Hnd'|].
      intros p Hp [Hk|Hin].
      * apply Hq. rewrite Hk. now apply in_map.
      * apply (Hs p); [now right | exact Hin].
Qed.

(** The part kept for a key is the first one that has it. *)
Lemma dedupe_from_first (seen : list string) (parts : list Part) (p : Part) :
  In p (dedupe_from seen parts) ->
  exists before after,
    parts = before ++ p :: after /\
    ~ In (part_key p) (map part_key before).
Proof.
  revert seen. induction parts as [|q rest IH]; intros seen H; simpl in *.
  - contradiction.
  - destruct (Mem.is_in (part_key q) seen) eqn:E.
    + pose proof (dedupe_from_In _ _ _ H) as [_ Hns].
      destruct (IH _ H) as (b & a & -> & Hb).
      exists (q :: b), a. split; [reflexivity|].
      simpl. intros [Hk|Hin]; [|now apply Hb].
      apply Hns. rewrite <- Hk. now apply Mem.is_in_iff.
    + destruct H as [->|H].
      * exists [], rest. split; [reflexivity | simpl; tauto].
      * pose proof (dedupe_from_In _ _ _ H) as [_ Hns].
        destruct (IH _ H) as (b & a & -> & Hb).
        exists (q :: b), a. split; [reflexivity|].
        simpl. intros [Hk|Hin]; [|now apply Hb].
        apply Hns. now left.
Qed.

(** X1. [dedupeParts] returns parts of its input with pairwise distinct keys,
    keeps a part for every key of the input, and the part it keeps for a key
    is the first of the input with that key. *)
Theorem dedupeParts_distinct_keys (parts : list Part) :
  NoDup (map part_key (dedupeParts parts)) /\
  (forall p, In p parts ->
     In (part_key p) (map part_key (dedupeParts parts))) /\
  (forall p, In p (dedupeParts parts) ->
     exists before after,
       parts = before ++ p :: after /\
       ~ In (part_key p) (map part_key before)).
Proof.
  unfold dedupeParts. split; [apply dedupe_from_nodup|]. split.
  - intros p Hp. destruct (dedupe_from_covers [] parts p Hp) as [[]|H].
    exact H.
  - intros p Hp. now apply dedupe_from_first with (seen := []).
Qed.

(** X2. Input without duplicate keys comes back unchanged, so deduplicating
    twice is deduplicating once. *)
Theorem dedupeParts_idempotent (parts : list Part) :
  (NoDup (map part_key parts) -> dedupeParts parts = parts) /\
  dedupeParts (dedupeParts parts) = dedupeParts parts.
Proof.
  assert (H : forall l, NoDup (map part_key l) -> dedupeParts l = l).
  { intros l Hl. apply dedupe_from_fixed; [exact Hl | auto]. }
  split; [apply H|]. apply H. apply dedupe_from_nodup.
Qed.

(** Dropping parts keeps the keys distinct. *)
Lemma filter_keeps_distinct (keep : Part -> bool) (parts : list Part) :
  NoDup (map part_key parts) -> NoDup (map part_key (filter keep parts)).
Proof.
  intros Hnd. induction parts as [|q rest IH]; simpl; [constructor|].
  inversion Hnd as [|? ? Hq Hrest]; subst.
  destruct (keep q); simpl; [|now apply IH].
  constructor; [|now apply IH].
  intros Hin. apply Hq. apply in_map_iff in Hin as (y & Hy & Hin).
  apply filter_In in Hin as [Hin _]. rewrite <- Hy. now apply in_map.
Qed.

Lemma cleanParts_nodup (parts : option (list Part)) :
  NoDup (map part_key (cleanParts parts)).
Proof. apply filter_keeps_distinct, dedupe_from_nodup. Qed.

(** X3. The parts stored for an assistant message come from the message,
    have pairwise distinct keys, and none is a reasoning part whose reasoning
    is the text 'undefined'; a message without parts gets none. *)
Theorem cleanParts_clean (parts : option (list Part)) :
  NoDup (map part_key (cleanParts parts)) /\
  (forall p, In p (cleanParts parts) ->
     (exists ps, parts = Some ps /\ In p ps) /\
     ~ (type p = "reasoning" /\
        Js.lookup "reasoning" (fields p) = Some (JsonStr "undefined"))) /\
  (parts = None -> cleanParts parts = []).
Proof.
  unfold cleanParts, sanitizeParts. split; [|split].
  - apply filter_keeps_distinct, dedupe_from_nodup.
  - intros p Hp. apply filter_In in Hp as [Hp Hk]. split.
    + destruct parts as [ps|]; [|contradiction].
      exists ps. split; [reflexivity|].
      now apply (dedupe_from_In [] ps p).
    + intros [Ht Hr]. apply negb_true_iff, andb_false_iff in Hk.
      unfold reasoning_is_undefined_text in Hk. rewrite Ht, Hr in Hk.
      destruct Hk; discriminate.
  - intros ->. reflexivity.
Qed.

End Dedupe.

End MigrationParts.

(* ================================================================== *)
(** ** The migration script: batches *)

Module Batches.

Local Open Scope nat_scope.

Definition BATCH_SIZE : nat := 100.
Definition INSERT_BATCH_SIZE : nat := 1000.

Section Loop.

Context {A : Type}.

(** [items.slice(i, j)] for [i <= j]. *)
Definition slice (i j : nat) (items : list A) : list A :=
  firstn (j - i) (skipn i items).

(** [for (let i = ...; i < items.length; i += size) { items.slice(i, i + size) }]:
    the slices taken from index [i] on, in at most [fuel] turns. *)
Fixpoint batch_loop (fuel size i : nat) (items : list A) : list (list A) :=
  match fuel with
  | O => []
  | S fuel' =>
      if i <? List.length items
      then slice i (i + size) items :: batch_loop fuel' size (i + size) items
      else []
  end.

(** The loop from index 0; with a positive step it is over within
    [items.length] turns. *)
Definition batches (size : nat) (items : list A) : list (list A) :=
  batch_loop (List.length items) size 0 items.

(** The batches that pass [if (batch.length > 0)]. *)
Definition nonempty_batches (size : nat) (items : list A) : list (list A) :=
  filter (fun batch => 0 <? List.length batch) (batches size items).

Lemma slice_length (i size : nat) (items : list A) :
  List.length (slice i (i + size) items)
  = Nat.min size (List.length items - i).
Proof.
  unfold slice. rewrite length_firstn, length_skipn. f_equal. lia.
Qed.

Lemma batch_loop_concat (fuel size i : nat) (items : list A) :
  0 < size -> List.length items - i <= fuel ->
  List.concat (batch_loop fuel size i items) = skipn i items.
Proof.
  intros Hs. revert i. induction fuel as [|fuel IH]; intros i Hf; simpl.
  - symmetry. apply skipn_all2. lia.
  - destruct (Nat.ltb_spec i (List.length items)) as [Hi|Hi].
    + simpl. rewrite IH by lia. unfold slice.
      replace (i + size - i) with size by lia.
      replace (i + size) with (size + i) by lia.
      rewrite <- skipn_skipn. apply firstn_skipn.
    + symmetry. apply skipn_all2. lia.
Qed.

(** More fuel than the loop needs changes nothing: the loop ends by its own
    condition. *)
Lemma batch_loop_fuel (fuel size i : nat) (items : list A) :
  0 < size -> List.length items - i <= fuel ->
  batch_loop (S fuel) size i items = batch_loop fuel size i items.
Proof.
  intros Hs. revert i. induction fuel as [|fuel IH]; intros i Hf.
  - simpl. destruct (Nat.ltb_spec i (List.length items)); [lia | reflexivity].
  - change (batch_loop (S (S fuel)) size i items)
      with (if i <? List.length items
            then slice i (i + size) items
                 :: batch_loop (S fuel) size (i + size) items
            else []).
    simpl. destruct (Nat.ltb_spec i (List.length items)); [|reflexivity].
    f_equal. apply IH. lia.
Qed.

Lemma batch_loop_enough (extra size : nat) (items : list A) :
  0 < size ->
  batch_loop (List.length items + extra) size 0 items
  = batch_loop (List.length items) size 0 items.
Proof.
  intros Hs. induction extra as [|extra IH].
  - now rewrite Nat.add_0_r.
  - rewrite Nat.add_succ_r, batch_loop_fuel by lia. exact IH.
Qed.

Lemma batch_loop_sizes (fuel size i : nat) (items : list A) :
  0 < size ->
  Forall (fun batch => 0 < List.length batch <= size)
         (batch_loop fuel size i items).
Proof.
  intros Hs. revert i. induction fuel as [|fuel IH]; intros i; simpl.
  - constructor.
  - destruct (Nat.ltb_spec i (List.length items)) as [Hi|Hi]; [|constructor].
    constructor; [|apply IH]. rewrite slice_length. lia.
Qed.

Lemma batch_loop_full (fuel size i : nat) (items : list A) :
  Forall (fun batch => List.length batch = size)
         (removelast (batch_loop fuel size i items)).
Proof.
  revert i. induction fuel as [|fuel IH]; intros i; simpl.
  - constructor.
  - destruct (Nat.ltb_spec i (List.length items)) as [Hi|Hi]; [|constructor].
    destruct (batch_loop fuel size (i + size) items) as [|b rest] eqn:E.
    + constructor.
    + change (removelast (slice i (i + size) items :: b :: rest))
        with (slice i (i + size) items :: removelast (b :: rest)).
      constructor; [|rewrite <- E; apply IH].
      rewrite slice_length.
      destruct fuel as [|fuel']; simpl in E; [discriminate|].
      destruct (Nat.ltb_spec (i + size) (List.length items)); [lia|discriminate].
Qed.

Lemma batches_facts (size : nat) (items : list A) :
  0 < size ->
  List.concat (batches size items) = items /\
  Forall (fun batch => 0 < List.length batch <= size) (batches size items) /\
  Forall (fun batch => List.length batch = size)
         (removelast (batches size items)) /\
  nonempty_batches size items = batches size items.
Proof.
  intros Hs. unfold nonempty_batches, batches.
  split; [apply batch_loop_concat; lia|].
  split; [now apply batch_loop_sizes|].
  split; [apply batch_loop_full|].
  apply Mem.filter_all. intros batch Hb.
  pose proof (batch_loop_sizes (List.length items) size 0 items Hs) as Hall.
  rewrite Forall_forall in Hall. apply Nat.ltb_lt. now apply Hall.
Qed.

End Loop.

(** X4. The chats are processed in consecutive batches that together are the
    list of chats: no batch is empty, none has more than 100 chats, and every
    batch but the last has exactly 100. The loop is over within as many turns
    as there are chats: more turns add no batch. *)
Theorem chat_batches_partition {Chat : Type} (chats : list Chat) :
  List.concat (batches BATCH_SIZE chats) = chats /\
  Forall (fun chatBatch => 0 < List.length chatBatch <= 100)
         (batches BATCH_SIZE chats) /\
  Forall (fun chatBatch => List.length chatBatch = 100)
         (removelast (batches BATCH_SIZE chats)) /\
  forall extra,
    batch_loop (List.length chats + extra) BATCH_SIZE 0 chats
    = batches BATCH_SIZE chats.
Proof.
  assert (Hs : 0 < BATCH_SIZE) by (unfold BATCH_SIZE; lia).
  destruct (batches_facts BATCH_SIZE chats Hs) as (H1 & H2 & H3 & _).
  repeat split; auto. intros extra. now apply batch_loop_enough.
Qed.

(** X5. The rows to insert reach [createMany] in batches of at most 1000 that
    together are the rows, in order: the guard on the batch length never
    skips a batch, so every row is inserted once. *)
Theorem insert_batches_cover {Row : Type} (rows : list Row) :
  nonempty_batches INSERT_BATCH_SIZE rows = batches INSERT_BATCH_SIZE rows /\
  List.concat (nonempty_batches INSERT_BATCH_SIZE rows) = rows /\
  Forall (fun batch => 0 < List.length batch <= 1000)
         (nonempty_batches INSERT_BATCH_SIZE rows).
Proof.
  destruct (batches_facts INSERT_BATCH_SIZE rows) as (H1 & H2 & _ & H4).
  - unfold INSERT_BATCH_SIZE. lia.
  - rewrite H4. auto.
Qed.

(** Two hundred and fifty items make batches of 100, 100 and 50. *)
Example batches_sample :
  map (@List.length nat) (batches BATCH_SIZE (seq 0 250)) = [100; 100; 50].
Proof. vm_compute. reflexivity. Qed.

End Batches.

(* ================================================================== *)
(** ** The migration script: what is inserted *)

Module MigrationInserts.
Import Route MigrationParts.

(** A message of the UI section [appendResponseMessages] returns. *)
Record UIMessage : Type := {
  ui_id : string;
  ui_role : string;
  ui_content : string;
  ui_parts : option (list Part);
  ui_createdAt : option Z
}.

Record NewMessageInsert : Type := {
  nm_id : string;
  nm_chatId : string;
  nm_parts : list Part;
  nm_role : string;
  nm_attachments : list Json;
  nm_createdAt : option Z
}.

(** A row of the deprecated [Vote] table, and a vote to insert. *)
Record VoteRow : Type := {
  v_messageId : string;
  v_chatId : string;
  v_isUpvoted : bool;
  v_userId : string;
  v_createdAt : Z
}.

Section Inserts.

Variable JSON_stringify : Json -> string.

(** [appendResponseMessages({ messages: [userMessage], responseMessages:
    assistantMessages, ... })] of the ai package: the UI section, or nothing
    when it throws. *)
Variable appendResponseMessages :
  option Migration.MessageDeprecated -> list Migration.MessageDeprecated ->
  option (list UIMessage).

(** The callback of [uiSection.map]; [None] is [null]. *)
Definition project (chat_id : string) (message : UIMessage)
  : option NewMessageInsert :=
  if (ui_role message =? "user")%string then
    Some {| nm_id := ui_id message;
            nm_chatId := chat_id;
            nm_parts := [ {| type := "text";
                             fields := [("text", JsonStr (ui_content message))] |} ];
            nm_role := ui_role message;
            nm_createdAt := ui_createdAt message;
            nm_attachments := [] |}
  else if (ui_role message =? "assistant")%string then
    Some {| nm_id := ui_id message;
            nm_chatId := chat_id;
            nm_parts := cleanParts JSON_stringify (ui_parts message);
            nm_role := ui_role message;
            nm_createdAt := ui_createdAt message;
            nm_attachments := [] |}
  else None.

(** [.map(...).filter(msg => msg !== null)]. *)
Fixpoint projectedUISection (chat_id : string) (uiSection : list UIMessage)
  : list NewMessageInsert :=
  match uiSection with
  | [] => []
  | message :: rest =>
      match project chat_id message with
      | Some msg => msg :: projectedUISection chat_id rest
      | None => projectedUISection chat_id rest
      end
  end.

(** The arrays [newMessagesToInsert] and [newVotesToInsert]. *)
Definition Inserts : Type := (list NewMessageInsert * list VoteRow)%type.

(** One turn of [for (const msg of projectedUISection)]. *)
Definition push_message (votes : list VoteRow) (acc : Inserts)
                        (msg : NewMessageInsert) : Inserts :=
  let '(newMessagesToInsert, newVotesToInsert) := acc in
  let newMessagesToInsert := newMessagesToInsert ++ [msg] in
  if (nm_role msg =? "assistant")%string then
    match find (fun v => (v_messageId v =? nm_id msg)%string) votes with
    | Some voteByMessage =>
        (newMessagesToInsert,
         newVotesToInsert ++
           [ {| v_messageId := nm_id msg;
                v_chatId := nm_chatId msg;
                v_isUpvoted := v_isUpvoted voteByMessage;
                v_userId := v_userId voteByMessage;
                v_createdAt := v_createdAt voteByMessage |} ])
    | None => (newMessagesToInsert, newVotesToInsert)
    end
  else (newMessagesToInsert, newVotesToInsert).

(** One turn of [for (const section of messageSections)]: a section on which
    [appendResponseMessages] throws is logged and skipped. *)
Definition push_section (chat_id : string) (votes : list VoteRow)
                        (acc : Inserts)
                        (section : list Migration.MessageDeprecated) : Inserts :=
  let userMessage := hd_error section in
  let assistantMessages := tl section in
  match appendResponseMessages userMessage assistantMessages with
  | Some uiSection =>
      fold_left (push_message votes) (projectedUISection chat_id uiSection) acc
  | None => acc
  end.

(** One turn of [for (const chat of chatBatch)]; [None] when the comparator
    of the sort throws, which no [try] of the script encloses. *)
Definition push_chat (allMessages : list Migration.MessageDeprecated)
                     (allVotes : list VoteRow) (acc : Inserts)
                     (chat : Queries.Chat) : option Inserts :=
  match Migration.messages_of_chat allMessages (Queries.chat_id chat) with
  | None => None
  | Some messages =>
      let votes :=
        filter (fun v => (v_chatId v =? Queries.chat_id chat)%string)
               allVotes in
      Some (fold_left (push_section (Queries.chat_id chat) votes)
                      (Migration.messageSections_of messages) acc)
  end.

(** The loop over the chats of a batch, which an exception leaves. *)
Fixpoint push_chats (allMessages : list Migration.MessageDeprecated)
                    (allVotes : list VoteRow) (chatBatch : list Queries.Chat)
                    (acc : Inserts) : option Inserts :=
  match chatBatch with
  | [] => Some acc
  | chat :: rest =>
      match push_chat allMessages allVotes acc chat with
      | None => None
      | Some acc => push_chats allMessages allVotes rest acc
      end
  end.

(** The two arrays at the end of the loop over the chats, if it ends. *)
Definition batch_queue (allMessages : list Migration.MessageDeprecated)
                       (allVotes : list VoteRow)
                       (chatBatch : list Queries.Chat) : option Inserts :=
  push_chats allMessages allVotes chatBatch ([], []).

(** What a batch of chats leaves to insert: the two arrays, and nothing when
    the script stopped before the insert loops. *)
Definition batch_inserts (allMessages : list Migration.MessageDeprecated)
                         (allVotes : list VoteRow)
                         (chatBatch : list Queries.Chat) : Inserts :=
  match batch_queue allMessages allVotes chatBatch with
  | Some inserts => inserts
  | None => ([], [])
  end.

(** *** What holds of every message and vote to insert *)

Definition message_ok (chatBatch : list Queries.Chat) (m : NewMessageInsert)
  : Prop :=
  (nm_role m = "user" \/ nm_role m = "assistant") /\
  (exists chat, In chat chatBatch /\ nm_chatId m = Queries.chat_id chat) /\
  nm_attachments m = [] /\
  (nm_role m = "user" ->
   exists text,
     nm_parts m = [ {| type := "text"; fields := [("text", JsonStr text)] |} ]) /\
  NoDup (map (part_key JSON_stringify) (nm_parts m)).

Definition vote_ok (allVotes : list VoteRow) (messages : list NewMessageInsert)
                   (v : VoteRow) : Prop :=
  (exists m, In m messages /\ nm_role m = "assistant" /\
             nm_id m = v_messageId v /\ nm_chatId m = v_chatId v) /\
  (exists old, In old allVotes /\
               v_messageId old = v_messageId v /\ v_chatId old = v_chatId v /\
               v_isUpvoted old = v_isUpvoted v /\ v_userId old = v_userId v /\
               v_createdAt old = v_createdAt v).

Definition inserts_ok (allVotes : list VoteRow) (chatBatch : list Queries.Chat)
                      (acc : Inserts) : Prop :=
  Forall (message_ok chatBatch) (fst acc) /\
  Forall (vote_ok allVotes (fst acc)) (snd acc).

Lemma vote_ok_more (allVotes : list VoteRow) (ms ms' : list NewMessageInsert)
                   (v : VoteRow) :
  vote_ok allVotes ms v -> vote_ok allVotes (ms ++ ms') v.
Proof.
  intros [(m & Hin & H) Hold]. split; [|exact Hold].
  exists m. split; [apply in_or_app; now left | exact H].
Qed.

Lemma project_ok (chatBatch : list Queries.Chat) (chat : Queries.Chat)
                 (message : UIMessage) (msg : NewMessageInsert) :
  In chat chatBatch ->
  project (Queries.chat_id chat) message = Some msg ->
  message_ok chatBatch msg /\ nm_chatId msg = Queries.chat_id chat.
Proof.
  intros Hc H. unfold project in H.
  destruct (String.eqb_spec (ui_role message) "user") as [Hu|Hu].
  - injection H as <-. split; [|reflexivity]. unfold message_ok. simpl.
    repeat split; auto.
    + now exists chat.
    + intros _. now exists (ui_content message).
    + repeat constructor. simpl. tauto.
  - destruct (String.eqb_spec (ui_role message) "assistant") as [Ha|Ha];
      [|discriminate].
    injection H as <-. split; [|reflexivity]. unfold message_ok. simpl.
    repeat split; auto.
    + now exists chat.
    + congruence.
    + apply cleanParts_nodup.
Qed.

Lemma projectedUISection_ok (chatBatch : list Queries.Chat)
  (chat : Queries.Chat) (uiSection : list UIMessage) :
  In chat chatBatch ->
  Forall (fun msg => message_ok chatBatch msg /\
                     nm_chatId msg = Queries.chat_id chat)
         (projectedUISection (Queries.chat_id chat) uiSection).
Proof.
  intros Hc. induction uiSection as [|message rest IH]; simpl; [constructor|].
  destruct (project (Queries.chat_id chat) message) as [msg|] eqn:E; [|exact IH].
  constructor; [now apply (project_ok chatBatch chat message) | exact IH].
Qed.

Lemma push_message_ok (allVotes : list VoteRow) (chatBatch : list Queries.Chat)
  (chat : Queries.Chat) (acc : Inserts) (msg : NewMessageInsert) :
  message_ok chatBatch msg -> nm_chatId msg = Queries.chat_id chat ->
  inserts_ok allVotes chatBatch acc ->
  inserts_ok allVotes chatBatch
    (push_message
       (filter (fun v => (v_chatId v =? Queries.chat_id chat)%string) allVotes)
       acc msg).
Proof.
  intros Hm Hchat [Hms Hvs]. destruct acc as [ms vs]. simpl in Hms, Hvs.
  assert (Hms' : Forall (message_ok chatBatch) (ms ++ [msg])).
  { apply Forall_app. split; [exact Hms | now constructor]. }
  assert (Hvs' : Forall (vote_ok allVotes (ms ++ [msg])) vs).
  { eapply Forall_impl; [|exact Hvs]. intros v. apply vote_ok_more. }
  unfold push_message.
  destruct (String.eqb_spec (nm_role msg) "assistant") as [Ha|Ha];
    [|split; assumption].
  destruct (find _ _) as [old|] eqn:Ef; [|split; assumption].
  split; [exact Hms'|]. simpl. apply Forall_app. split; [exact Hvs'|].
  constructor; [|constructor].
  apply find_some in Ef as [Hin Hid]. apply filter_In in Hin as [Hin Hc].
  apply String.eqb_eq in Hid, Hc. split; simpl.
  - exists msg. split; [apply in_or_app; right; now left|]. auto.
  - exists old. repeat split; auto. congruence.
Qed.

Lemma push_messages_ok (allVotes : list VoteRow) (chatBatch : list Queries.Chat)
  (chat : Queries.Chat) (msgs : list NewMessageInsert) (acc : Inserts) :
  Forall (fun msg => message_ok chatBatch msg /\
                     nm_chatId msg = Queries.chat_id chat) msgs ->
  inserts_ok allVotes chatBatch acc ->
  inserts_ok allVotes chatBatch
    (fold_left
       (push_message
          (filter (fun v => (v_chatId v =? Queries.chat_id chat)%string)
                  allVotes))
       msgs acc).
Proof.
  intros Hall. revert acc. induction Hall as [|msg rest [Hm Hc] _ IH];
    intros acc Hacc; simpl; [exact Hacc|].
  apply IH. now apply push_message_ok.
Qed.

Lemma push_chat_ok (allMessages : list Migration.MessageDeprecated)
  (allVotes : list VoteRow) (chatBatch : list Queries.Chat)
  (chat : Queries.Chat) (acc : Inserts) :
  In chat chatBatch ->
  inserts_ok allVotes chatBatch acc ->
  forall acc', push_chat allMessages allVotes acc chat = Some acc' ->
  inserts_ok allVotes chatBatch acc'.
Proof.
  intros Hc Hacc acc' H. unfold push_chat in H.
  destruct (Migration.messages_of_chat allMessages (Queries.chat_id chat))
    as [messages|]; [|discriminate].
  injection H as <-. revert Hacc.
  generalize (Migration.messageSections_of messages).
  intros sections. revert acc.
  induction sections as [|section rest IH]; intros acc Hacc; simpl;
    [exact Hacc|].
  apply IH. unfold push_section.
  destruct (appendResponseMessages _ _) as [uiSection|]; [|exact Hacc].
  apply push_messages_ok; [now apply projectedUISection_ok | exact Hacc].
Qed.

Lemma batch_inserts_ok (allMessages : list Migration.MessageDeprecated)
  (allVotes : list VoteRow) (chatBatch : list Queries.Chat) :
  inserts_ok allVotes chatBatch (batch_inserts allMessages allVotes chatBatch).
Proof.
  unfold batch_inserts, batch_queue.
  assert (H : forall done acc acc',
             (forall c, In c done -> In c chatBatch) ->
             inserts_ok allVotes chatBatch acc ->
             push_chats allMessages allVotes done acc = Some acc' ->
             inserts_ok allVotes chatBatch acc').
  { induction done as [|c rest IH]; intros acc acc' Hsub Hacc Hrun;
      simpl in Hrun.
    - now injection Hrun as <-.
    - destruct (push_chat allMessages allVotes acc c) as [acc1|] eqn:E;
        [|discriminate].
      apply (IH acc1 acc'); [intros; apply Hsub; now right | | exact Hrun].
      apply (push_chat_ok allMessages allVotes chatBatch c acc);
        [apply Hsub; now left | exact Hacc | exact E]. }
  destruct (push_chats allMessages allVotes chatBatch ([], []))
    as [inserts|] eqn:E.
  - apply (H chatBatch ([], []) inserts); [auto | split; constructor | exact E].
  - split; constructor.
Qed.

(** X6. Whatever [appendResponseMessages] returns, every message the script
    inserts for a batch of chats has role user or assistant, the id of a chat
    of the batch, no attachments, as its parts a single part of type text
    that holds one text when it is a user's, and parts with pairwise distinct
    keys. *)
Theorem inserted_messages_well_formed
  (allMessages : list Migration.MessageDeprecated) (allVotes : list VoteRow)
  (chatBatch : list Queries.Chat) :
  Forall
    (fun m =>
       (nm_role m = "user" \/ nm_role m = "assistant") /\
       (exists chat, In chat chatBatch /\ nm_chatId m = Queries.chat_id chat) /\
       nm_attachments m = [] /\
       (nm_role m = "user" ->
        exists text,
          nm_parts m
          = [ {| type := "text"; fields := [("text", JsonStr text)] |} ]) /\
       NoDup (map (part_key JSON_stringify) (nm_parts m)))
    (fst (batch_inserts allMessages allVotes chatBatch)).
Proof.
  exact (proj1 (batch_inserts_ok allMessages allVotes chatBatch)).
Qed.

(** X7. Every vote the script inserts belongs to an inserted assistant
    message, with that message's id and chat id, and carries the user, the
    value and the date of a deprecated vote on that message in that chat. *)
Theorem inserted_votes_follow_messages
  (allMessages : list Migration.MessageDeprecated) (allVotes : list VoteRow)
  (chatBatch : list Queries.Chat) :
  let inserts := batch_inserts allMessages allVotes chatBatch in
  Forall
    (fun v =>
       (exists m, In m (fst inserts) /\ nm_role m = "assistant" /\
                  nm_id m = v_messageId v /\ nm_chatId m = v_chatId v) /\
       (exists old, In old allVotes /\
                    v_messageId old = v_messageId v /\
                    v_chatId old = v_chatId v /\
                    v_isUpvoted old = v_isUpvoted v /\
                    v_userId old = v_userId v /\
                    v_createdAt old = v_createdAt v))
    (snd inserts).
Proof.
  exact (proj2 (batch_inserts_ok allMessages allVotes chatBatch)).
Qed.

End Inserts.

(** A stand-in for [appendResponseMessages] that turns every deprecated
    message into a UI message with its text parts, and throws on a section
    without a response. *)
Definition sample_append (userMessage : option Migration.MessageDeprecated)
                         (assistantMessages : list Migration.MessageDeprecated)
  : option (list UIMessage) :=
  let ui (m : Migration.MessageDeprecated) :=
    {| ui_id := Migration.id m; ui_role := Migration.role m;
       ui_content := "";
       ui_parts :=
         match Migration.content m with
         | Migration.ContentParts parts =>
             Some (map (fun p => {| type := Migration.part_type p;
                                    fields := [] |}) parts)
         | Migration.ContentOther _ => None
         end;
       ui_createdAt := Some (Migration.createdAt m) |} in
  match userMessage, assistantMessages with
  | Some u, _ :: _ => Some (map ui (u :: assistantMessages))
  | _, _ => None
  end.

(** One chat with a question and an answer that was voted up: two messages
    and the vote are inserted; the vote on a message of another chat is not. *)
Example batch_inserts_sample :
  let inserts :=
    batch_inserts (fun _ => "") sample_append
      [ Migration.sample_message "a1" "assistant" ["text"; "text"] 2;
        Migration.sample_message "q1" "user" ["text"] 1 ]
      [ {| v_messageId := "a1"; v_chatId := "c1"; v_isUpvoted := true;
           v_userId := "u1"; v_createdAt := 3 |};
        {| v_messageId := "a1"; v_chatId := "c2"; v_isUpvoted := false;
           v_userId := "u2"; v_createdAt := 4 |} ]
      [ {| Queries.chat_id := "c1"; Queries.chat_createdAt := 0;
           Queries.chat_userId := "u1"; Queries.chat_title := None;
           Queries.chat_visibility := Queries.visibility_private |} ] in
  map (fun m => (nm_id m, nm_role m, List.length (nm_parts m))) (fst inserts)
    = [("q1", "user", 1%nat); ("a1", "assistant", 1%nat)] /\
  map (fun v => (v_messageId v, v_chatId v, v_userId v, v_isUpvoted v))
      (snd inserts)
    = [("a1", "c1", "u1", true)].
Proof. vm_compute. split; reflexivity. Qed.

(** A chat whose sort throws ends the loop: no array reaches the insert
    loops, whatever the chats before it gave. *)
Example batch_queue_stops :
  batch_queue (fun _ => "") sample_append
    [ Migration.text_message "a1" "assistant" "hello" 1;
      Migration.sample_message "q1" "user" ["text"] 1 ]
    []
    [ {| Queries.chat_id := "c0"; Queries.chat_createdAt := 0;
         Queries.chat_userId := "u1"; Queries.chat_title := None;
         Queries.chat_visibility := Queries.visibility_private |};
      {| Queries.chat_id := "c1"; Queries.chat_createdAt := 0;
         Queries.chat_userId := "u1"; Queries.chat_title := None;
         Queries.chat_visibility := Queries.visibility_private |} ]
  = None.
Proof. reflexivity. Qed.

End MigrationInserts.

(* ================================================================== *)
(** ** More of the query module on the in-memory client *)

Module MemVotes.
Import Effects Queries Mem.

(** What a returning [voteMessage] did to the table. *)
Lemma voteMessage_step
  (db db' : Db) (chatId messageId userId : string) (type : VoteType)
  (r : Vote) :
  voteMessage chatId messageId userId type db = Return r db' ->
  let key := (chatId, messageId, userId) in
  (exists v, find (has_key key) (db_votes db) = Some v /\
             r = set_isUpvoted (is_up type) v /\
             db_votes db' = map (revote key (is_up type)) (db_votes db)) \/
  (find (has_key key) (db_votes db) = None /\
   vote_key r = key /\ vote_isUpvoted r = is_up type /\
   db_votes db' = db_votes db ++ [r]).
Proof.
  intros Hrun. cbv zeta.
  unfold voteMessage, Queries.voteMessage, try_catch, bind in Hrun.
  unfold mem_vote_findFirst in Hrun.
  rewrite (find_ext _ (has_key (chatId, messageId, userId))) in Hrun
    by apply vote_matches_key.
  destruct (find (has_key (chatId, messageId, userId)) (db_votes db))
    as [v|] eqn:Hfind.
  - unfold mem_vote_update in Hrun. simpl in Hrun. rewrite Hfind in Hrun.
    injection Hrun as <- <-. left. exists v. repeat split.
  - unfold mem_vote_create in Hrun. simpl in Hrun.
    rewrite (existsb_find_none _ _ Hfind) in Hrun.
    destruct (negb _) in Hrun; [discriminate|].
    injection Hrun as <- <-. right. repeat split.
Qed.

Lemma find_revote (key : string * string * string) (b : bool)
                  (votes : list Vote) (v : Vote) :
  find (has_key key) votes = Some v ->
  find (has_key key) (map (revote key b) votes) = Some (set_isUpvoted b v).
Proof.
  induction votes as [|x xs IH]; simpl; intros H; [discriminate|].
  rewrite has_key_revote. destruct (has_key key x) eqn:E.
  - injection H as ->. unfold revote. now rewrite E.
  - now apply IH.
Qed.

Lemma find_app_none {A : Type} (p : A -> bool) (l : list A) (x : A) :
  find p l = None -> p x = true -> find p (l ++ [x]) = Some x.
Proof.
  induction l as [|y ys IH]; simpl; intros H Hx.
  - now rewrite Hx.
  - destruct (p y); [discriminate | now apply IH].
Qed.

(** After a returning call the row of the key is found, and the key is still
    unique. *)
Lemma voteMessage_leaves_row
  (db db' : Db) (chatId messageId userId : string) (type : VoteType)
  (r : Vote) :
  NoDup (map vote_key (db_votes db)) ->
  voteMessage chatId messageId userId type db = Return r db' ->
  find (has_key (chatId, messageId, userId)) (db_votes db') = Some r /\
  NoDup (map vote_key (db_votes db')).
Proof.
  intros Hpk Hrun.
  destruct (voteMessage_step _ _ _ _ _ _ _ Hrun)
    as [(v & Hf & -> & ->)|(Hf & Hk & _ & ->)].
  - split; [now apply find_revote | now rewrite revote_keys].
  - split.
    + apply find_app_none; [exact Hf | now apply has_key_iff].
    + rewrite map_app. simpl.
      apply NoDup_app; [exact Hpk | repeat constructor; auto |].
      intros k Hin [<-|[]].
      apply in_map_iff in Hin as (x & Hx & Hin).
      pose proof (find_none _ _ Hf x Hin) as Hmiss.
      assert (Hhit : has_key (chatId, messageId, userId) x = true)
        by (apply has_key_iff; congruence).
      congruence.
Qed.

(** X8. Once a vote of a user on a message is stored, a second
    [voteMessage] for the same chat, message and user returns whatever its
    type: it rewrites the stored row, which stays the only row of the key,
    and the table keeps its size. *)
Theorem voteMessage_again
  (db db1 : Db) (chatId messageId userId : string) (t1 t2 : VoteType)
  (r1 : Vote) :
  NoDup (map vote_key (db_votes db)) ->
  voteMessage chatId messageId userId t1 db = Return r1 db1 ->
  exists db2,
    voteMessage chatId messageId userId t2 db1
      = Return (set_isUpvoted (is_up t2) r1) db2 /\
    filter (has_key (chatId, messageId, userId)) (db_votes db2)
      = [set_isUpvoted (is_up t2) r1] /\
    List.length (db_votes db2) = List.length (db_votes db1) /\
    map vote_key (db_votes db2) = map vote_key (db_votes db1).
Proof.
  intros Hpk Hrun1.
  destruct (voteMessage_leaves_row _ _ _ _ _ _ _ Hpk Hrun1) as [Hfind Hpk1].
  unfold voteMessage, Queries.voteMessage, try_catch, bind.
  unfold mem_vote_findFirst.
  rewrite (find_ext _ (has_key (chatId, messageId, userId)))
    by apply vote_matches_key.
  rewrite Hfind. unfold mem_vote_update. simpl. rewrite Hfind.
  eexists. split; [reflexivity|]. simpl.
  fold (revote (chatId, messageId, userId) (is_up t2)).
  split; [|split].
  - rewrite filter_revote_same.
    now rewrite (find_some_filter_key _ _ _ Hpk1 Hfind).
  - apply length_map.
  - apply revote_keys.
Qed.

(** A downvote on the sample tables, then an upvote. *)
Lemma voteMessage_again_witness :
  exists r1 db1 db2,
    voteMessage "c1" "m1" "u1" down sample_db = Return r1 db1 /\
    voteMessage "c1" "m1" "u1" up db1 = Return (set_isUpvoted true r1) db2 /\
    List.length (db_votes db2) = 2%nat.
Proof.
  eexists. eexists.
  destruct (voteMessage_again sample_db _ "c1" "m1" "u1" down up _
              sample_votes_unique eq_refl) as (db2 & Hrun & _ & Hlen & _).
  exists db2. split; [reflexivity|]. split; [exact Hrun|].
  rewrite Hlen. reflexivity.
Defined.

End MemVotes.

Module MemMessages.
Import Effects Queries Mem.

(** The statement that selects the messages to delete. *)
Definition select_from (chatId : string) (timestamp : Z) : Statement :=
  SelectMessages {| mw_chatId := chatId; mw_createdAt := Some (gte timestamp);
                    mw_id_in := None |} None.

(** With nothing to delete the function only runs its query. *)
Lemma delete_nothing_selected (db : Db) (chatId : string) (timestamp : Z) :
  filter (doomed chatId timestamp) (db_messages db) = [] ->
  deleteMessagesByChatIdAfterTimestamp chatId timestamp db
    = Return None (logged (select_from chatId timestamp) db).
Proof.
  intros H.
  unfold deleteMessagesByChatIdAfterTimestamp,
    Queries.deleteMessagesByChatIdAfterTimestamp, try_catch, bind, ret.
  unfold mem_message_findMany at 1.
  rewrite (filter_ext _ (doomed chatId timestamp))
    by (intros m; apply select_is_doomed).
  rewrite H. reflexivity.
Qed.

(** The messages a call leaves. *)
Lemma delete_messages_left (db : Db) (chatId : string) (timestamp : Z) :
  NoDup (map message_id (db_messages db)) ->
  exists r db',
    deleteMessagesByChatIdAfterTimestamp chatId timestamp db = Return r db' /\
    db_messages db'
      = filter (fun m => negb (doomed chatId timestamp m)) (db_messages db).
Proof.
  intros Hnd.
  destruct (filter (doomed chatId timestamp) (db_messages db))
    as [|m0 rest] eqn:Es.
  - rewrite (delete_nothing_selected db chatId timestamp Es).
    eexists. eexists. split; [reflexivity|]. simpl.
    symmetry. apply filter_all. intros m Hm. apply negb_true_iff.
    destruct (doomed chatId timestamp m) eqn:Ed; [|reflexivity].
    assert (Hin : In m []) by (rewrite <- Es; apply filter_In; now split).
    contradiction.
  - unfold deleteMessagesByChatIdAfterTimestamp,
      Queries.deleteMessagesByChatIdAfterTimestamp, try_catch, bind, ret.
    unfold mem_message_findMany at 1.
    rewrite (filter_ext _ (doomed chatId timestamp))
      by (intros m; apply select_is_doomed).
    rewrite Es. remember (m0 :: rest) as selected eqn:Hsel.
    assert (Hlen : (0 <? List.length (map message_id selected))%nat = true)
      by (rewrite Hsel; reflexivity).
    rewrite Hlen. unfold mem_vote_deleteMany, mem_message_deleteMany.
    eexists. eexists. split; [reflexivity|]. simpl.
    apply filter_ext_in. intros m Hm. f_equal.
    rewrite <- Es. now apply delete_is_doomed.
Qed.

Lemma filter_negb_none {A : Type} (p : A -> bool) (l : list A) :
  filter p (filter (fun x => negb (p x)) l) = [].
Proof.
  apply filter_none. intros a Ha. apply filter_In in Ha as [_ Ha].
  now apply negb_true_iff.
Qed.

(** X9. With unique message ids, repeating
    [deleteMessagesByChatIdAfterTimestamp] right after a call finds nothing
    left to delete: it returns [undefined] and runs only its query. *)
Theorem deleteMessagesByChatIdAfterTimestamp_twice
  (db : Db) (chatId : string) (timestamp : Z) :
  NoDup (map message_id (db_messages db)) ->
  exists r db',
    deleteMessagesByChatIdAfterTimestamp chatId timestamp db = Return r db' /\
    deleteMessagesByChatIdAfterTimestamp chatId timestamp db'
      = Return None
          (logged (SelectMessages
                     {| mw_chatId := chatId;
                        mw_createdAt := Some (gte timestamp);
                        mw_id_in := None |} None) db').
Proof.
  intros Hnd.
  destruct (delete_messages_left db chatId timestamp Hnd)
    as (r & db' & Hrun & Hleft).
  exists r, db'. split; [exact Hrun|].
  apply delete_nothing_selected. rewrite Hleft. apply filter_negb_none.
Qed.

Lemma deleteMessagesByChatIdAfterTimestamp_twice_witness :
  exists r db' db'',
    deleteMessagesByChatIdAfterTimestamp "c1" 20 sample_db = Return r db' /\
    r = Some {| count := 1 |} /\
    deleteMessagesByChatIdAfterTimestamp "c1" 20 db' = Return None db'' /\
    db_messages db'' = db_messages db'.
Proof.
  destruct (deleteMessagesByChatIdAfterTimestamp_twice sample_db "c1" 20
              sample_messages_unique) as (r & db' & Hrun & Hagain).
  exists r, db'. eexists. split; [exact Hrun|].
  split; [|split; [exact Hagain | reflexivity]].
  vm_compute in Hrun. now injection Hrun as <- _.
Defined.

End MemMessages.

Module MemChats.
Import Effects Queries Mem.

Lemma take_rows_In {A : Type} (n : Z) (rows : list A) (x : A) :
  In x (take_rows n rows) -> In x rows.
Proof.
  unfold take_rows. destruct (n <? 0).
  - intros H. rewrite <- (firstn_skipn (List.length rows - Z.to_nat (- n)) rows).
    apply in_or_app. now right.
  - apply firstn_In.
Qed.

Lemma slice0_In {A : Type} (l : list A) (e : Z) (x : A) :
  In x (slice0 l e) -> In x l.
Proof. unfold slice0. destruct (e <? 0); apply firstn_In. Qed.

(** Every chat of a page is one of the chats the query matched. *)
Lemma page_chats_matched
  (db db' : Db) (id : string) (limit : Z)
  (startingAfter endingBefore : option string) (page : ChatPage) :
  getChatsByUserId id limit startingAfter endingBefore db = Return page db' ->
  exists cursor,
    cursor_condition db startingAfter endingBefore = Some cursor /\
    forall c, In c (chats page) ->
      In c (db_chats db) /\
      chat_matches {| cw_userId := id; cw_createdAt := cursor |} c = true.
Proof.
  intros Hrun.
  destruct (getChatsByUserId_returns _ _ _ _ _ _ _ Hrun)
    as (cursor & earlier & Hcur & _ & Hchats & _).
  exists cursor. split; [exact Hcur|]. intros c Hc.
  cbv zeta in Hchats. rewrite Hchats in Hc.
  assert (Hm : In c (matched_chats db id cursor)).
  { destruct (_ >? _) in Hc; [apply slice0_In in Hc|]; now apply take_rows_In in Hc. }
  unfold matched_chats in Hm. rewrite order_by_In in Hm.
  now apply filter_In in Hm.
Qed.

(** X10. The cursors are strict. A page asked for with a non-empty
    [startingAfter] holds only chats of the user created after the chat it
    names; with [endingBefore] instead, only chats created before it. The
    chat a cursor names is never on the page. *)
Theorem getChatsByUserId_cursor_strict
  (db db' : Db) (id : string) (limit : Z)
  (startingAfter endingBefore : option string) (page : ChatPage) :
  getChatsByUserId id limit startingAfter endingBefore db = Return page db' ->
  (Js.truthy_str startingAfter = true ->
   exists selectedChat,
     find (fun c => (chat_id c =? Js.the_string startingAfter)%string)
          (db_chats db) = Some selectedChat /\
     ~ In selectedChat (chats page) /\
     Forall (fun c => chat_userId c = id /\
                      chat_createdAt c > chat_createdAt selectedChat)
            (chats page)) /\
  (Js.truthy_str startingAfter = false ->
   Js.truthy_str endingBefore = true ->
   exists selectedChat,
     find (fun c => (chat_id c =? Js.the_string endingBefore)%string)
          (db_chats db) = Some selectedChat /\
     ~ In selectedChat (chats page) /\
     Forall (fun c => chat_userId c = id /\
                      chat_createdAt c < chat_createdAt selectedChat)
            (chats page)).
Proof.
  intros Hrun.
  destruct (page_chats_matched _ _ _ _ _ _ _ Hrun) as (cursor & Hcur & Hall).
  unfold cursor_condition in Hcur. split.
  - intros Ha. rewrite Ha in Hcur.
    destruct (find _ (db_chats db)) as [sel|]; [|discriminate].
    injection Hcur as <-. exists sel. split; [reflexivity|].
    assert (HF : Forall (fun c => chat_userId c = id /\
                                  chat_createdAt c > chat_createdAt sel)
                        (chats page)).
    { apply Forall_forall. intros c Hc. destruct (Hall c Hc) as [_ Hm].
      unfold chat_matches in Hm. simpl in Hm.
      apply andb_true_iff in Hm as [Hu Hd].
      apply String.eqb_eq in Hu. apply Z.ltb_lt in Hd. split; [exact Hu | lia]. }
    split; [|exact HF].
    intros Hin. rewrite Forall_forall in HF. destruct (HF sel Hin). lia.
  - intros Ha Hb. rewrite Ha, Hb in Hcur.
    destruct (find _ (db_chats db)) as [sel|]; [|discriminate].
    injection Hcur as <-. exists sel. split; [reflexivity|].
    assert (HF : Forall (fun c => chat_userId c = id /\
                                  chat_createdAt c < chat_createdAt sel)
                        (chats page)).
    { apply Forall_forall. intros c Hc. destruct (Hall c Hc) as [_ Hm].
      unfold chat_matches in Hm. simpl in Hm.
      apply andb_true_iff in Hm as [Hu Hd].
      apply String.eqb_eq in Hu. apply Z.ltb_lt in Hd. split; [exact Hu | lia]. }
    split; [|exact HF].
    intros Hin. rewrite Forall_forall in HF. destruct (HF sel Hin). lia.
Qed.

(** The page before chat c2 of the sample tables holds chat c1 alone. *)
Lemma getChatsByUserId_cursor_strict_witness :
  exists page db',
    getChatsByUserId "u1" 5 None (Some "c2") sample_db = Return page db' /\
    map chat_id (chats page) = ["c1"] /\
    Forall (fun c => chat_createdAt c < 2) (chats page).
Proof.
  eexists. eexists. split; [reflexivity|]. split; [reflexivity|].
  destruct (getChatsByUserId_cursor_strict sample_db _ "u1" 5 None (Some "c2") _
              eq_refl) as [_ H].
  destruct (H eq_refl eq_refl) as (sel & Hsel & _ & HF).
  vm_compute in Hsel. injection Hsel as <-.
  eapply Forall_impl; [|exact HF]. intros c [_ Hc]. exact Hc.
Defined.

Lemma existsb_filter_length {A : Type} (p : A -> bool) (l : list A) :
  existsb p l = negb (Nat.eqb (List.length (filter p l)) 0).
Proof.
  induction l as [|x xs IH]; simpl; [reflexivity|].
  destruct (p x); simpl; [reflexivity | exact IH].
Qed.

(** X11. A limit of 0 still queries one chat: the page is empty, and
    [hasMore] tells whether the user has a chat at all. *)
Theorem getChatsByUserId_limit_zero (db : Db) (id : string) :
  getChatsByUserId id 0 None None db
  = Return {| chats := [];
              hasMore := existsb (fun c => (chat_userId c =? id)%string)
                                 (db_chats db) |}
           (logged (SelectChats {| cw_userId := id; cw_createdAt := None |}
                                desc 1) db).
Proof.
  unfold getChatsByUserId.
  rewrite (Queries.getChatsByUserId_no_cursor Db mem_chat_findMany
             mem_chat_findFirst id 0 None None db _ _ eq_refl eq_refl eq_refl).
  f_equal. unfold take_rows, order_by. simpl.
  set (rows := filter (chat_matches {| cw_userId := id; cw_createdAt := None |})
                      (db_chats db)).
  assert (Hrows : rows = filter (fun c => (chat_userId c =? id)%string)
                                (db_chats db)).
  { apply filter_ext. intros c. unfold chat_matches. simpl.
    apply andb_true_r. }
  assert (Hex : existsb (fun c => (chat_userId c =? id)%string) (db_chats db)
                = negb (Nat.eqb (List.length rows) 0)).
  { rewrite Hrows. apply existsb_filter_length. }
  rewrite Hex.
  pose proof (Sorting.sort_length
                (fun a b : Chat => chat_createdAt b - chat_createdAt a) rows)
    as Hlen.
  destruct (Sorting.sort _ rows) as [|x xs]; simpl in *.
  - rewrite <- Hlen. reflexivity.
  - rewrite <- Hlen. reflexivity.
Qed.

End MemChats.

(* ================================================================== *)
(** ** Further operations of the in-memory client *)

Module MemTables.
Import Effects Queries Mem.

Definition with_chats (chats : list Chat) (db : Db) : Db :=
  {| db_users := db_users db; db_chats := chats;
     db_messages := db_messages db; db_votes := db_votes db;
     db_documents := db_documents db; db_clock := db_clock db;
     db_log := db_log db |}.

(** [new Date()] and [Date.now()]: the clock of the tables. *)
Definition mem_Date_now (db : Db) : Z * Db := (db_clock db, db).

(** Pairwise distinct strings. *)
Fixpoint distinct (xs : list string) : bool :=
  match xs with
  | [] => true
  | x :: rest => negb (is_in x rest) && distinct rest
  end.

(** [chat.create]: the id must be new (P2002) and the user must exist
    (P2003). *)
Definition mem_chat_create (c : Chat) : M Db Chat :=
  fun db =>
    if existsb (fun x => (chat_id x =? chat_id c)%string) (db_chats db)
    then Throw (OtherError "P2002") db
    else if negb (existsb (fun u => (user_id u =? chat_userId c)%string)
                          (db_users db))
    then Throw (OtherError "P2003") db
    else Return c (with_chats (db_chats db ++ [c]) db).

(** [message.createMany]: one statement, all rows or none; the ids must be
    new and distinct (P2002) and the chats must exist (P2003). *)
Definition mem_message_createMany (rows : list DBMessage) : M Db BatchPayload :=
  fun db =>
    if negb (distinct (map message_id rows))
       || existsb (fun m => is_in (message_id m)
                                  (map message_id (db_messages db))) rows
    then Throw (OtherError "P2002") db
    else if negb (forallb
                    (fun m => existsb
                                (fun c => (chat_id c =? message_chatId m)%string)
                                (db_chats db))
                    rows)
    then Throw (OtherError "P2003") db
    else Return (count_of rows) (with_messages (db_messages db ++ rows) db).

Definition mem_message_findFirst (id : string) : M Db (option DBMessage) :=
  fun db =>
    Return (find (fun m => (message_id m =? id)%string) (db_messages db)) db.

Definition mem_vote_findMany (w : VoteWhere) : M Db (list Vote) :=
  fun db => Return (filter (vote_matches w) (db_votes db)) db.

Definition document_matches (w : DocumentWhere) (d : Document) : bool :=
  (document_id d =? dw_id w)%string
  && holds (dw_createdAt w) (fun f => date_holds f (document_createdAt d)).

Definition mem_document_findMany (w : DocumentWhere) (o : option SortOrder)
  : M Db (list Document) :=
  fun db =>
    let rows := filter (document_matches w) (db_documents db) in
    Return (match o with
            | Some o => order_by document_createdAt o rows
            | None => rows
            end) db.

(** [where: { chat: { userId }, createdAt, role }]: the messages of the
    user's chats. *)
Definition counted (db : Db) (w : MessageCountWhere) (m : DBMessage) : bool :=
  existsb (fun c => (chat_id c =? message_chatId m)%string
                    && (chat_userId c =? mc_chat_userId w)%string)
          (db_chats db)
  && date_holds (mc_createdAt w) (message_createdAt m)
  && (message_role m =? mc_role w)%string.

Definition mem_message_count (w : MessageCountWhere) : M Db Z :=
  fun db =>
    Return (Z.of_nat (List.length (filter (counted db w) (db_messages db)))) db.

(** *** The query functions on these operations *)

Definition saveChat : string -> string -> string -> VisibilityType -> M Db Chat :=
  Queries.saveChat Db mem_Date_now mem_chat_create.

Definition getChatById : string -> M Db (option Chat) :=
  Queries.getChatById Db mem_chat_findFirst.

Definition saveMessages : list DBMessage -> M Db BatchPayload :=
  Queries.saveMessages Db mem_message_createMany.

Definition getMessagesByChatId : string -> M Db (list DBMessage) :=
  Queries.getMessagesByChatId Db mem_message_findMany.

Definition getMessageById : string -> M Db (option DBMessage) :=
  Queries.getMessageById Db mem_message_findFirst.

Definition getVotesByChatId : string -> M Db (list Vote) :=
  Queries.getVotesByChatId Db mem_vote_findMany.

Definition getDocumentsById : string -> M Db (list Document) :=
  Queries.getDocumentsById Db mem_document_findMany.

Definition getMessageCountByUserId : string -> Z -> M Db Z :=
  Queries.getMessageCountByUserId Db mem_Date_now mem_message_count.

(** *** Chats *)

Lemma existsb_false_find {A : Type} (p : A -> bool) (l : list A) :
  existsb p l = false -> find p l = None.
Proof.
  induction l as [|x xs IH]; simpl; [reflexivity|].
  destruct (p x); [discriminate | exact IH].
Qed.

Lemma existsb_In_true {A : Type} (p : A -> bool) (l : list A) (x : A) :
  In x l -> p x = true -> existsb p l = true.
Proof. intros H1 H2. apply existsb_exists. now exists x. Qed.

Lemma find_app_first_none {A : Type} (p : A -> bool) (l l' : list A) :
  find p l = None -> find p (l ++ l') = find p l'.
Proof.
  induction l as [|x xs IH]; simpl; intros H; [reflexivity|].
  destruct (p x); [discriminate | now apply IH].
Qed.

(** X12. A chat that [saveChat] returns is the chat of the given id, user,
    title and visibility, dated by the clock, and [getChatById] finds it
    right after; saving under an id that is taken fails with the module's
    error and changes nothing. *)
Theorem saveChat_then_getChatById
  (db : Db) (id userId title : string) (visibility : VisibilityType) :
  (forall c db',
      saveChat id userId title visibility db = Return c db' ->
      c = {| chat_id := id; chat_createdAt := db_clock db;
             chat_userId := userId; chat_title := Some title;
             chat_visibility := visibility |} /\
      db_chats db' = db_chats db ++ [c] /\
      getChatById id db' = Return (Some c) (logged (SelectChatFirst id) db')) /\
  ((exists c0, In c0 (db_chats db) /\ chat_id c0 = id) ->
   saveChat id userId title visibility db
     = Throw (SDKError {| errorCode := "bad_request:database";
                          errorText := Some "Failed to save chat" |}) db).
Proof.
  unfold saveChat, Queries.saveChat, try_catch, bind, eff, mem_Date_now,
    mem_chat_create. simpl. split.
  - intros c db' H.
    destruct (existsb _ (db_chats db)) eqn:Edup; [discriminate|].
    destruct (negb _) in H; [discriminate|].
    injection H as <- <-. split; [reflexivity|]. split; [reflexivity|].
    unfold getChatById, Queries.getChatById, try_catch, bind, ret,
      mem_chat_findFirst. simpl.
    rewrite find_app_first_none.
    + simpl. now rewrite String.eqb_refl.
    + now apply existsb_false_find.
  - intros (c0 & Hin & Hid).
    rewrite (existsb_In_true _ _ c0 Hin); [reflexivity|].
    now apply String.eqb_eq.
Qed.

(** *** Messages *)

Lemma order_by_sorted_asc {A : Type} (key : A -> Z) (rows : list A) :
  StronglySorted (fun a b => key a <= key b) (order_by key asc rows).
Proof.
  unfold order_by.
  assert (H : StronglySorted
                (Sorting.cmp_le (fun a b => key a - key b))
                (Sorting.sort (fun a b => key a - key b) rows)).
  { apply Sorting.sort_sorted; intros; lia. }
  induction H as [|x l Hs IH Hall]; constructor; auto.
  eapply Forall_impl; [|exact Hall].
  unfold Sorting.cmp_le. intros; lia.
Qed.

(** X13. [getMessagesByChatId] returns the messages of the chat, all of them
    and no other, oldest first; it sends one select and leaves every table
    and the clock as they are. *)
Theorem getMessagesByChatId_oldest_first (db : Db) (id : string) :
  exists messages db',
    getMessagesByChatId id db = Return messages db' /\
    Permutation
      (filter (fun m => (message_chatId m =? id)%string) (db_messages db))
      messages /\
    StronglySorted (fun a b => message_createdAt a <= message_createdAt b)
                   messages /\
    db_users db' = db_users db /\
    db_chats db' = db_chats db /\
    db_messages db' = db_messages db /\
    db_votes db' = db_votes db /\
    db_documents db' = db_documents db /\
    db_clock db' = db_clock db /\
    db_log db'
    = (db_log db
       ++ [SelectMessages {| mw_chatId := id; mw_createdAt := None;
                             mw_id_in := None |} (Some asc)])%list.
Proof.
  unfold getMessagesByChatId, Queries.getMessagesByChatId, try_catch,
    mem_message_findMany.
  eexists. eexists. split; [reflexivity|]. simpl.
  split; [|split; [apply order_by_sorted_asc | repeat split]].
  rewrite (filter_ext (fun m => (message_chatId m =? id)%string)
             (message_matches {| mw_chatId := id; mw_createdAt := None;
                                 mw_id_in := None |})).
  - apply Sorting.sort_perm.
  - intros m. unfold message_matches. simpl. now rewrite !andb_true_r.
Qed.

Lemma distinct_NoDup (xs : list string) : distinct xs = true -> NoDup xs.
Proof.
  induction xs as [|x rest IH]; simpl; intros H; [constructor|].
  apply andb_true_iff in H as [Hx Hr]. constructor; [|now apply IH].
  intros Hin. apply is_in_iff in Hin. rewrite Hin in Hx. discriminate.
Qed.

Lemma find_by_id_unique (rows : list DBMessage) (m : DBMessage) :
  NoDup (map message_id rows) -> In m rows ->
  find (fun x => (message_id x =? message_id m)%string) rows = Some m.
Proof.
  induction rows as [|x xs IH]; simpl; intros Hnd Hin; [contradiction|].
  inversion Hnd as [|? ? Hx Hxs]; subst.
  destruct (String.eqb_spec (message_id x) (message_id m)) as [E|E].
  - destruct Hin as [->|Hin]; [reflexivity|].
    exfalso. apply Hx. rewrite E. now apply in_map.
  - destruct Hin as [->|Hin]; [congruence | now apply IH].
Qed.

(** X14. [saveMessages] inserts all its messages or none. When it returns,
    the count is the number of messages, the table is the old one followed by
    the messages, and [getMessageById] finds each of them; when it fails, the
    error is the module's and the table is untouched. *)
Theorem saveMessages_all_or_nothing (db : Db) (messages : list DBMessage) :
  (forall r db',
      saveMessages messages db = Return r db' ->
      count r = Z.of_nat (List.length messages) /\
      db_messages db' = db_messages db ++ messages /\
      forall m, In m messages ->
                getMessageById (message_id m) db' = Return (Some m) db') /\
  (forall e db',
      saveMessages messages db = Throw e db' ->
      e = SDKError {| errorCode := "bad_request:database";
                      errorText := Some "Failed to save messages" |} /\
      db' = db).
Proof.
  unfold saveMessages, Queries.saveMessages, try_catch, mem_message_createMany,
    throw.
  destruct (negb (distinct (map message_id messages))
            || existsb _ messages) eqn:Edup.
  - split; [discriminate|]. intros e db' [= <- <-]. split; reflexivity.
  - destruct (negb (forallb _ messages)) eqn:Efk.
    + split; [discriminate|]. intros e db' [= <- <-]. split; reflexivity.
    + split; [|discriminate].
      intros r db' [= <- <-]. split; [reflexivity|]. split; [reflexivity|].
      intros m Hm.
      unfold getMessageById, Queries.getMessageById, try_catch,
        mem_message_findFirst. simpl. f_equal.
      apply orb_false_iff in Edup as [Hd Hnew].
      apply negb_false_iff, distinct_NoDup in Hd.
      rewrite find_app_first_none; [now apply find_by_id_unique|].
      apply find_none_intro. intros x Hx. apply String.eqb_neq. intros E.
      assert (Hfalse : is_in (message_id m) (map message_id (db_messages db))
                       = true).
      { apply is_in_iff. rewrite <- E. now apply in_map. }
      assert (Hex : existsb
                      (fun m => is_in (message_id m)
                                      (map message_id (db_messages db)))
                      messages = true).
      { apply existsb_exists. now exists m. }
      congruence.
Qed.

(** *** Votes *)

(** X15. After a [voteMessage] that returns, [getVotesByChatId] for the chat
    returns votes of that chat only, among which the vote of the user on the
    message is the returned row and no other. *)
Theorem voteMessage_then_getVotesByChatId
  (db db' : Db) (chatId messageId userId : string) (type : VoteType)
  (r : Vote) :
  NoDup (map vote_key (db_votes db)) ->
  voteMessage chatId messageId userId type db = Return r db' ->
  exists votes,
    getVotesByChatId chatId db' = Return votes db' /\
    Forall (fun v => vote_chatId v = chatId) votes /\
    filter (has_key (chatId, messageId, userId)) votes = [r].
Proof.
  intros Hpk Hrun.
  destruct (MemVotes.voteMessage_leaves_row _ _ _ _ _ _ _ Hpk Hrun)
    as [Hfind Hpk'].
  unfold getVotesByChatId, Queries.getVotesByChatId, try_catch,
    mem_vote_findMany.
  eexists. split; [reflexivity|]. split.
  - apply Forall_forall. intros v Hv. apply filter_In in Hv as [_ Hv].
    unfold vote_matches in Hv. simpl in Hv. rewrite !andb_true_r in Hv.
    now apply String.eqb_eq.
  - rewrite filter_filter.
    rewrite (filter_ext _ (has_key (chatId, messageId, userId))).
    + now apply find_some_filter_key.
    + intros v. unfold vote_matches, has_key, key_eqb, vote_key. simpl.
      rewrite !andb_true_r.
      destruct (vote_chatId v =? chatId)%string; reflexivity.
Qed.

Lemma voteMessage_then_getVotesByChatId_witness :
  exists r db' votes,
    voteMessage "c1" "m1" "u1" up sample_db = Return r db' /\
    getVotesByChatId "c1" db' = Return votes db' /\
    filter (has_key ("c1", "m1", "u1")) votes = [r].
Proof.
  eexists. eexists.
  destruct (voteMessage_then_getVotesByChatId sample_db _ "c1" "m1" "u1" up _
              sample_votes_unique eq_refl) as (votes & Hget & _ & Hone).
  exists votes. split; [reflexivity|]. split; [exact Hget | exact Hone].
Defined.

(** *** Documents *)

(** X16. [getDocumentById] returns the most recent document of the id: one
    of the documents with that id, none of which is newer; it returns
    [null] exactly when no document has the id. *)
Theorem getDocumentById_latest (db : Db) (id : string) :
  exists found,
    getDocumentById id db
      = Return found (logged (SelectDocumentFirst id desc) db) /\
    (found = None <->
       forall d, In d (db_documents db) -> document_id d <> id) /\
    (forall d, found = Some d ->
       In d (db_documents db) /\ document_id d = id /\
       forall d', In d' (db_documents db) -> document_id d' = id ->
                  document_createdAt d' <= document_createdAt d).
Proof.
  unfold getDocumentById, Queries.getDocumentById, try_catch, bind, ret,
    mem_document_findFirst.
  eexists. split; [reflexivity|].
  set (rows := filter (fun d => (document_id d =? id)%string) (db_documents db)).
  pose proof (order_by_sorted_desc document_createdAt rows) as Hsorted.
  assert (Hin : forall d, In d (order_by document_createdAt desc rows) <->
                          In d (db_documents db) /\ document_id d = id).
  { intros d. rewrite order_by_In. unfold rows. rewrite filter_In.
    now rewrite String.eqb_eq. }
  destruct (order_by document_createdAt desc rows) as [|top rest]; simpl.
  - split.
    + split; [|reflexivity]. intros _ d Hd E. now apply (proj2 (Hin d)).
    + discriminate.
  - split.
    + split; [discriminate|]. intros Hnone. exfalso.
      destruct (proj1 (Hin top) (or_introl eq_refl)) as [Hd E].
      now apply (Hnone top).
    + intros d [= <-].
      destruct (proj1 (Hin top) (or_introl eq_refl)) as [Hd E].
      split; [exact Hd|]. split; [exact E|].
      intros d' Hd' E'. destruct (proj2 (Hin d') (conj Hd' E')) as [<-|Hr].
      * lia.
      * inversion Hsorted as [|? ? _ Hall]; subst.
        rewrite Forall_forall in Hall. specialize (Hall d' Hr). lia.
Qed.

(** *** Message counts *)

Lemma filter_length_mono {A : Type} (p q : A -> bool) (l : list A) :
  (forall x, p x = true -> q x = true) ->
  (List.length (filter p l) <= List.length (filter q l))%nat.
Proof.
  intros H. induction l as [|x xs IH]; simpl; [lia|].
  destruct (p x) eqn:Ep.
  - rewrite (H x Ep). simpl. lia.
  - destruct (q x); simpl; lia.
Qed.

(** X17. [getMessageCountByUserId] returns the number of messages of role
    user, in a chat of the user, created at the clock's time minus
    [differenceInHours] hours or later, and changes nothing; the count is
    never negative nor more than the number of messages, and a longer
    look-back never counts fewer. *)
Theorem getMessageCountByUserId_monotone
  (db : Db) (id : string) (h1 h2 : Z) :
  h1 <= h2 ->
  let counts (differenceInHours : Z) : Z :=
    Z.of_nat
      (List.length
         (filter
            (fun m =>
               existsb (fun c => (chat_id c =? message_chatId m)%string
                                 && (chat_userId c =? id)%string)
                       (db_chats db)
               && (db_clock db - differenceInHours * 3600000
                   <=? message_createdAt m)
               && (message_role m =? "user")%string)
            (db_messages db))) in
  getMessageCountByUserId id h1 db = Return (counts h1) db /\
  getMessageCountByUserId id h2 db = Return (counts h2) db /\
  0 <= counts h1 <= counts h2 /\
  counts h2 <= Z.of_nat (List.length (db_messages db)).
Proof.
  intros Hh. cbv zeta.
  assert (Hrun : forall h,
             getMessageCountByUserId id h db
             = Return
                 (Z.of_nat
                    (List.length
                       (filter
                          (fun m =>
                             existsb
                               (fun c => (chat_id c =? message_chatId m)%string
                                         && (chat_userId c =? id)%string)
                               (db_chats db)
                             && (db_clock db - h * 3600000
                                 <=? message_createdAt m)
                             && (message_role m =? "user")%string)
                          (db_messages db)))) db).
  { intros h.
    unfold getMessageCountByUserId, Queries.getMessageCountByUserId, try_catch,
      bind, ret, eff, mem_Date_now, mem_message_count.
    cbn beta iota. do 3 f_equal. apply filter_ext. intros m.
    unfold counted. cbn [mc_chat_userId mc_createdAt mc_role date_holds].
    replace (db_clock db - h * 60 * 60 * 1000)
      with (db_clock db - h * 3600000) by lia.
    reflexivity. }
  split; [apply Hrun|]. split; [apply Hrun|].
  split; [split; [lia|]|].
  - apply Nat2Z.inj_le. apply filter_length_mono. intros m.
    rewrite !andb_true_iff, !Z.leb_le.
    intros [[H1 H2] H3]. repeat split; auto. lia.
  - apply Nat2Z.inj_le. apply List.filter_length_le.
Qed.

(** On the sample tables, at clock 100: no message of u1 is as recent as
    the clock, and both of the user's are within the last hour. *)
Lemma getMessageCountByUserId_monotone_witness :
  getMessageCountByUserId "u1" 0 sample_db = Return 0 sample_db /\
  getMessageCountByUserId "u1" 1 sample_db = Return 2 sample_db.
Proof.
  destruct (getMessageCountByUserId_monotone sample_db "u1" 0 1 ltac:(lia))
    as (H1 & H2 & _).
  split; [exact H1 | exact H2].
Defined.

End MemTables.

(* ================================================================== *)
(** ** The client with streams and suggestions *)

Module Store.
Import Effects Queries Mem.

(** The tables of [Mem] with those of [Stream] and [Suggestion]. *)
Record World : Type := {
  w_db : Db;
  w_streams : list Stream;
  w_suggestions : list Suggestion
}.

Definition with_db (db : Db) (w : World) : World :=
  {| w_db := db; w_streams := w_streams w; w_suggestions := w_suggestions w |}.

(** An operation of [Mem] run on the larger world. *)
Definition lift {A : Type} (m : M Db A) : M World A :=
  fun w =>
    match m (w_db w) with
    | Return a db => Return a (with_db db w)
    | Throw e db => Throw e (with_db db w)
    end.

Definition with_documents (documents : list Document) (db : Db) : Db :=
  {| db_users := db_users db; db_chats := db_chats db;
     db_messages := db_messages db; db_votes := db_votes db;
     db_documents := documents; db_clock := db_clock db;
     db_log := db_log db |}.

Definition of_chat (id : string) (chatId : string) : bool := (chatId =? id)%string.

Definition w_stream_deleteMany (chatId : string) : M World BatchPayload :=
  fun w =>
    Return (count_of (filter (fun s => of_chat chatId (stream_chatId s))
                             (w_streams w)))
           {| w_db := w_db w;
              w_streams := filter (fun s => negb (of_chat chatId (stream_chatId s)))
                                  (w_streams w);
              w_suggestions := w_suggestions w |}.

(** [chat.delete]: no chat of the id is an error (P2025); the messages, votes
    and streams of the chat go with it ([onDelete: Cascade]). *)
Definition w_chat_delete (id : string) : M World Chat :=
  fun w =>
    let db := w_db w in
    match find (fun c => (chat_id c =? id)%string) (db_chats db) with
    | None => Throw (OtherError "P2025") w
    | Some chat =>
        let gone := filter (fun m => of_chat id (message_chatId m))
                           (db_messages db) in
        Return chat
          {| w_db :=
               MemTables.with_chats
                 (filter (fun c => negb (chat_id c =? id)%string) (db_chats db))
                 (with_votes
                    (filter (fun v => negb (of_chat id (vote_chatId v))
                                      && negb (is_in (vote_messageId v)
                                                     (map message_id gone)))
                            (db_votes db))
                    (with_messages
                       (filter (fun m => negb (of_chat id (message_chatId m)))
                               (db_messages db))
                       db));
             w_streams := filter (fun s => negb (of_chat id (stream_chatId s)))
                                 (w_streams w);
             w_suggestions := w_suggestions w |}
    end.

Definition suggestion_matches (documentId : string) (f : DateFilter)
                              (s : Suggestion) : bool :=
  (suggestion_documentId s =? documentId)%string
  && date_holds f (suggestion_createdAt s).

Definition w_suggestion_deleteMany (documentId : string) (f : DateFilter)
  : M World BatchPayload :=
  fun w =>
    Return (count_of (filter (suggestion_matches documentId f) (w_suggestions w)))
           {| w_db := w_db w; w_streams := w_streams w;
              w_suggestions :=
                filter (fun s => negb (suggestion_matches documentId f s))
                       (w_suggestions w) |}.

(** [document.deleteMany]; the suggestions of a deleted document go with it. *)
Definition w_document_deleteMany (w0 : DocumentWhere) : M World BatchPayload :=
  fun w =>
    let deleted := filter (MemTables.document_matches w0)
                          (db_documents (w_db w)) in
    Return (count_of deleted)
           {| w_db := with_documents
                        (filter (fun d => negb (MemTables.document_matches w0 d))
                                (db_documents (w_db w)))
                        (w_db w);
              w_streams := w_streams w;
              w_suggestions :=
                filter (fun s => negb (is_in (suggestion_documentId s)
                                             (map document_id deleted)))
                       (w_suggestions w) |}.

Definition w_document_findMany (w0 : DocumentWhere) (o : option SortOrder)
  : M World (list Document) :=
  lift (MemTables.mem_document_findMany w0 o).

Definition w_message_deleteMany (w0 : MessageWhere) : M World BatchPayload :=
  lift (mem_message_deleteMany w0).

Definition w_vote_deleteMany (w0 : VoteWhere) : M World BatchPayload :=
  lift (mem_vote_deleteMany w0).

Definition deleteChatById : string -> M World Chat :=
  Queries.deleteChatById World w_chat_delete w_message_deleteMany
    w_vote_deleteMany w_stream_deleteMany.

Definition deleteDocumentsByIdAfterTimestamp
  : string -> Z -> M World (list Document) :=
  Queries.deleteDocumentsByIdAfterTimestamp World w_document_findMany
    w_document_deleteMany w_suggestion_deleteMany.

Definition sample_world : World :=
  {| w_db :=
       {| db_users := db_users sample_db; db_chats := db_chats sample_db;
          db_messages := db_messages sample_db; db_votes := db_votes sample_db;
          db_documents :=
            [ {| document_id := "d1"; document_createdAt := 10;
                 document_updatedAt := 10; document_title := Some "first";
                 document_content := Some "a"; document_kind := kind_text;
                 document_userId := "u1" |};
              {| document_id := "d1"; document_createdAt := 20;
                 document_updatedAt := 20; document_title := Some "second";
                 document_content := Some "b"; document_kind := kind_text;
                 document_userId := "u1" |} ];
          db_clock := 100; db_log := [] |};
     w_streams := [ {| stream_id := "s1"; stream_chatId := "c1";
                       stream_createdAt := 11 |};
                    {| stream_id := "s2"; stream_chatId := "c2";
                       stream_createdAt := 21 |} ];
     w_suggestions := [ {| suggestion_id := "g1"; suggestion_documentId := "d1";
                           suggestion_originalText := "a";
                           suggestion_suggestedText := "b";
                           suggestion_description := None;
                           suggestion_isResolved := false;
                           suggestion_userId := "u1";
                           suggestion_createdAt := 20 |} ] |}.

(** *** Documents *)

(** The documents [deleteDocumentsByIdAfterTimestamp] selects. *)
Definition newer (id : string) (timestamp : Z) (d : Document) : bool :=
  (document_id d =? id)%string && (timestamp <? document_createdAt d).

Lemma document_matches_newer (id : string) (timestamp : Z) (d : Document) :
  MemTables.document_matches
    {| dw_id := id; dw_createdAt := Some (gt timestamp) |} d
  = newer id timestamp d.
Proof. reflexivity. Qed.

(** X18. [deleteDocumentsByIdAfterTimestamp] returns and deletes the
    documents of the id created strictly after the timestamp: a document
    created at the timestamp or before stays, as do the documents of other
    ids; no suggestion of the id created after the timestamp is left, and
    chats, messages and votes are untouched. *)
Theorem deleteDocumentsByIdAfterTimestamp_strict
  (w : World) (id : string) (timestamp : Z) :
  exists deletedDocs w',
    deleteDocumentsByIdAfterTimestamp id timestamp w = Return deletedDocs w' /\
    deletedDocs
      = filter (fun d => (document_id d =? id)%string
                         && (timestamp <? document_createdAt d))
               (db_documents (w_db w)) /\
    db_documents (w_db w')
      = filter (fun d => negb ((document_id d =? id)%string
                               && (timestamp <? document_createdAt d)))
               (db_documents (w_db w)) /\
    (forall d, In d (db_documents (w_db w)) ->
       document_id d <> id \/ document_createdAt d <= timestamp ->
       In d (db_documents (w_db w'))) /\
    (forall s, In s (w_suggestions w') ->
       In s (w_suggestions w) /\
       ~ (suggestion_documentId s = id /\ timestamp < suggestion_createdAt s)) /\
    db_chats (w_db w') = db_chats (w_db w) /\
    db_messages (w_db w') = db_messages (w_db w) /\
    db_votes (w_db w') = db_votes (w_db w).
Proof.
  unfold deleteDocumentsByIdAfterTimestamp,
    Queries.deleteDocumentsByIdAfterTimestamp, try_catch, bind, ret.
  unfold w_suggestion_deleteMany, w_document_findMany, w_document_deleteMany,
    lift, MemTables.mem_document_findMany.
  cbn [w_db w_streams w_suggestions with_db].
  eexists. eexists. split; [reflexivity|].
  cbn [w_db w_suggestions with_documents db_documents db_chats db_messages
       db_votes].
  split; [reflexivity|]. split; [reflexivity|]. split; [|split].
  - intros d Hd Hkeep. apply filter_In. split; [exact Hd|].
    apply negb_true_iff, andb_false_iff.
    destruct Hkeep as [Hid|Ht]; [left; now apply String.eqb_neq|].
    right. apply Z.ltb_ge. exact Ht.
  - intros s Hs. apply filter_In in Hs as [Hs _].
    apply filter_In in Hs as [Hs Hm]. split; [exact Hs|].
    intros [Hid Ht]. unfold suggestion_matches in Hm. simpl in Hm.
    apply negb_true_iff, andb_false_iff in Hm as [Hm|Hm].
    + apply String.eqb_neq in Hm. contradiction.
    + apply Z.ltb_ge in Hm. lia.
  - repeat split.
Qed.

(** The version of d1 created at 20 survives a deletion from 20 on and is
    deleted from 10 on. *)
Example deleteDocumentsByIdAfterTimestamp_sample :
  (exists w', deleteDocumentsByIdAfterTimestamp "d1" 20 sample_world
              = Return [] w') /\
  (exists deleted w',
     deleteDocumentsByIdAfterTimestamp "d1" 10 sample_world
       = Return deleted w' /\
     map document_createdAt deleted = [20] /\
     map document_createdAt (db_documents (w_db w')) = [10]).
Proof.
  split.
  - eexists. reflexivity.
  - eexists. eexists. split; [reflexivity|]. split; reflexivity.
Qed.

(** *** Chats *)

Definition chat_left (id : string) (w : World) : Prop :=
  Forall (fun m => message_chatId m <> id) (db_messages (w_db w)) /\
  Forall (fun v => vote_chatId v <> id) (db_votes (w_db w)) /\
  Forall (fun s => stream_chatId s <> id) (w_streams w).

(** The three [deleteMany] of [deleteChatById], which cannot fail here. *)
Definition clear_chat (id : string) (w : World) : World :=
  let gone := filter (fun m => of_chat id (message_chatId m))
                     (db_messages (w_db w)) in
  {| w_db :=
       with_votes
         (filter (fun v => negb (is_in (vote_messageId v) (map message_id gone)))
                 (filter (fun v => negb (of_chat id (vote_chatId v)))
                         (db_votes (w_db w))))
         (with_messages
            (filter (fun m => negb (of_chat id (message_chatId m)))
                    (db_messages (w_db w)))
            (logged (DeleteMessages {| mw_chatId := id; mw_createdAt := None;
                                       mw_id_in := None |})
               (logged (DeleteVotes {| vw_chatId := id; vw_messageId := None;
                                       vw_userId := None;
                                       vw_messageId_in := None |})
                  (w_db w))));
     w_streams := filter (fun s => negb (of_chat id (stream_chatId s)))
                         (w_streams w);
     w_suggestions := w_suggestions w |}.

Lemma vote_matches_chat (id : string) (v : Vote) :
  vote_matches {| vw_chatId := id; vw_messageId := None; vw_userId := None;
                  vw_messageId_in := None |} v
  = of_chat id (vote_chatId v).
Proof. unfold vote_matches, of_chat. simpl. now rewrite !andb_true_r. Qed.

Lemma message_matches_chat (id : string) (m : DBMessage) :
  message_matches {| mw_chatId := id; mw_createdAt := None; mw_id_in := None |} m
  = of_chat id (message_chatId m).
Proof. unfold message_matches, of_chat. simpl. now rewrite !andb_true_r. Qed.

Lemma deleteChatById_run (id : string) (w : World) :
  deleteChatById id w
  = match w_chat_delete id (clear_chat id w) with
    | Return chat w' => Return chat w'
    | Throw _ w' =>
        Throw (SDKError {| errorCode := "bad_request:database";
                           errorText := Some "Failed to delete chat by id" |})
              w'
    end.
Proof.
  unfold deleteChatById, Queries.deleteChatById, try_catch, bind, ret, throw.
  unfold w_vote_deleteMany, w_message_deleteMany, w_stream_deleteMany, lift,
    mem_vote_deleteMany, mem_message_deleteMany.
  cbn [w_db w_streams w_suggestions with_db db_votes db_messages with_votes
       with_messages logged].
  replace (filter (fun v => negb (vote_matches _ v)) (db_votes (w_db w)))
    with (filter (fun v => negb (of_chat id (vote_chatId v))) (db_votes (w_db w)))
    by (apply filter_ext; intros v; now rewrite vote_matches_chat).
  replace (filter (message_matches _) (db_messages (w_db w)))
    with (filter (fun m => of_chat id (message_chatId m)) (db_messages (w_db w)))
    by (apply filter_ext; intros m; now rewrite message_matches_chat).
  replace (filter (fun m => negb (message_matches _ m)) (db_messages (w_db w)))
    with (filter (fun m => negb (of_chat id (message_chatId m)))
                 (db_messages (w_db w)))
    by (apply filter_ext; intros m; now rewrite message_matches_chat).
  match goal with
  | |- context [w_chat_delete id ?x] => change x with (clear_chat id w)
  end.
  destruct (w_chat_delete id (clear_chat id w)); reflexivity.
Qed.

Lemma filter_negb_Forall {A : Type} (p : A -> bool) (l : list A) :
  Forall (fun x => p x = false) (filter (fun x => negb (p x)) l).
Proof.
  apply Forall_forall. intros x Hx. apply filter_In in Hx as [_ Hx].
  now apply negb_true_iff.
Qed.

Lemma clear_chat_left (id : string) (w : World) : chat_left id (clear_chat id w).
Proof.
  unfold chat_left, clear_chat. cbn [w_db w_streams db_messages db_votes
    with_votes with_messages logged].
  split; [|split].
  - eapply Forall_impl; [|apply filter_negb_Forall]. intros m Hm.
    now apply String.eqb_neq.
  - apply Forall_forall. intros v Hv. apply filter_In in Hv as [Hv _].
    apply filter_In in Hv as [_ Hv]. apply String.eqb_neq.
    now apply negb_true_iff.
  - eapply Forall_impl; [|apply filter_negb_Forall]. intros s0 Hs.
    now apply String.eqb_neq.
Qed.

(** The votes that stay when the chat [id] goes: those filed under another
    chat and on a message of another chat (a vote goes with its message). *)
Lemma clear_chat_votes (id : string) (w : World) :
  db_votes (w_db (clear_chat id w))
  = filter (fun v => negb (vote_chatId v =? id)%string
                     && negb (is_in (vote_messageId v)
                                (map message_id
                                   (filter
                                      (fun m => (message_chatId m =? id)%string)
                                      (db_messages (w_db w))))))
           (db_votes (w_db w)).
Proof.
  unfold clear_chat. cbn [w_db db_votes with_votes]. unfold of_chat.
  induction (db_votes (w_db w)) as [|v rest IH]; simpl; [reflexivity|].
  destruct (negb (vote_chatId v =? id)%string); simpl; [|exact IH].
  destruct (negb (is_in _ _)); simpl; now rewrite IH.
Qed.

Lemma no_chat_of_id (id : string) (chats : list Chat) (c : Chat) :
  find (fun c => (chat_id c =? id)%string) chats = None ->
  In c chats -> chat_id c <> id.
Proof.
  intros Hnone Hin. apply String.eqb_neq.
  exact (find_none _ _ Hnone c Hin).
Qed.

(** X19. [deleteChatById] deletes the votes, messages and streams of the
    chat before the chat itself, with no transaction around them. When the
    chat exists it is returned; the chat, its messages and its streams are
    gone and those of other chats stay; the votes that stay are the ones
    filed under another chat whose message is not a message of the chat;
    users, documents and suggestions are untouched. When there is no such
    chat the call fails with the module's error after the three deletions
    ran: the tables are those the deletions leave, and when every message,
    vote and stream refers to an existing chat, as the foreign keys demand,
    no row has been deleted. *)
Theorem deleteChatById_deletes (w : World) (id : string) :
  (forall chat,
      find (fun c => (chat_id c =? id)%string) (db_chats (w_db w)) = Some chat ->
      exists w',
        deleteChatById id w = Return chat w' /\
        db_chats (w_db w')
          = filter (fun c => negb (chat_id c =? id)%string) (db_chats (w_db w)) /\
        db_messages (w_db w')
          = filter (fun m => negb (message_chatId m =? id)%string)
                   (db_messages (w_db w)) /\
        w_streams w'
          = filter (fun s => negb (stream_chatId s =? id)%string) (w_streams w) /\
        db_votes (w_db w')
          = filter
              (fun v =>
                 negb (vote_chatId v =? id)%string
                 && negb (is_in (vote_messageId v)
                            (map message_id
                               (filter
                                  (fun m => (message_chatId m =? id)%string)
                                  (db_messages (w_db w))))))
              (db_votes (w_db w)) /\
        db_users (w_db w') = db_users (w_db w) /\
        db_documents (w_db w') = db_documents (w_db w) /\
        w_suggestions w' = w_suggestions w) /\
  (find (fun c => (chat_id c =? id)%string) (db_chats (w_db w)) = None ->
   exists w',
     deleteChatById id w
       = Throw (SDKError {| errorCode := "bad_request:database";
                            errorText := Some "Failed to delete chat by id" |})
               w' /\
     db_chats (w_db w') = db_chats (w_db w) /\
     db_messages (w_db w')
       = filter (fun m => negb (message_chatId m =? id)%string)
                (db_messages (w_db w)) /\
     w_streams w'
       = filter (fun s => negb (stream_chatId s =? id)%string) (w_streams w) /\
     db_votes (w_db w')
       = filter
           (fun v =>
              negb (vote_chatId v =? id)%string
              && negb (is_in (vote_messageId v)
                         (map message_id
                            (filter
                               (fun m => (message_chatId m =? id)%string)
                               (db_messages (w_db w))))))
           (db_votes (w_db w)) /\
     db_users (w_db w') = db_users (w_db w) /\
     db_documents (w_db w') = db_documents (w_db w) /\
     w_suggestions w' = w_suggestions w /\
     ((forall m, In m (db_messages (w_db w)) ->
                 exists c, In c (db_chats (w_db w)) /\
                           chat_id c = message_chatId m) ->
      (forall v, In v (db_votes (w_db w)) ->
                 exists c, In c (db_chats (w_db w)) /\
                           chat_id c = vote_chatId v) ->
      (forall s, In s (w_streams w) ->
                 exists c, In c (db_chats (w_db w)) /\
                           chat_id c = stream_chatId s) ->
      db_messages (w_db w') = db_messages (w_db w) /\
      db_votes (w_db w') = db_votes (w_db w) /\
      w_streams w' = w_streams w)).
Proof.
  rewrite deleteChatById_run. unfold w_chat_delete.
  assert (Hchats : db_chats (w_db (clear_chat id w)) = db_chats (w_db w))
    by reflexivity.
  rewrite Hchats.
  pose proof (clear_chat_left id w) as (Hm & Hv & Hs).
  pose proof (clear_chat_votes id w) as Hvotes.
  split.
  - intros chat ->. eexists. split; [reflexivity|].
    cbn [w_db w_streams w_suggestions db_chats db_messages db_votes db_users
         db_documents MemTables.with_chats with_votes with_messages].
    split; [reflexivity|]. split; [|split; [|split]].
    + rewrite Mem.filter_all; [reflexivity|].
      intros m Hin. rewrite Forall_forall in Hm.
      apply negb_true_iff, String.eqb_neq. now apply Hm.
    + rewrite Mem.filter_all; [reflexivity|].
      intros s0 Hin. rewrite Forall_forall in Hs.
      apply negb_true_iff, String.eqb_neq. now apply Hs.
    + rewrite <- Hvotes. apply Mem.filter_all. intros v Hin.
      apply andb_true_iff. split.
      * rewrite Forall_forall in Hv.
        apply negb_true_iff, String.eqb_neq. now apply Hv.
      * unfold of_chat. rewrite Mem.filter_none; [reflexivity|].
        intros m Hin'. rewrite Forall_forall in Hm.
        apply String.eqb_neq. now apply Hm.
    + repeat split.
  - intros Hnone. eexists. rewrite Hnone. split; [reflexivity|].
    split; [reflexivity|]. split; [reflexivity|]. split; [reflexivity|].
    split; [exact Hvotes|]. split; [reflexivity|]. split; [reflexivity|].
    split; [reflexivity|].
    intros Hfm Hfv Hfs.
    assert (Hgone : filter (fun m => (message_chatId m =? id)%string)
                           (db_messages (w_db w)) = []).
    { apply Mem.filter_none. intros m Hin. apply String.eqb_neq.
      destruct (Hfm m Hin) as (c & Hc & <-).
      now apply (no_chat_of_id id (db_chats (w_db w))). }
    split; [|split].
    + cbn [clear_chat w_db db_messages with_votes with_messages].
      apply Mem.filter_all. intros m Hin. unfold of_chat.
      apply negb_true_iff, String.eqb_neq.
      destruct (Hfm m Hin) as (c & Hc & <-).
      now apply (no_chat_of_id id (db_chats (w_db w))).
    + rewrite Hvotes, Hgone. apply Mem.filter_all. intros v Hin.
      simpl. rewrite andb_true_r.
      apply negb_true_iff, String.eqb_neq.
      destruct (Hfv v Hin) as (c & Hc & <-).
      now apply (no_chat_of_id id (db_chats (w_db w))).
    + cbn [clear_chat w_streams].
      apply Mem.filter_all. intros s0 Hin. unfold of_chat.
      apply negb_true_iff, String.eqb_neq.
      destruct (Hfs s0 Hin) as (c & Hc & <-).
      now apply (no_chat_of_id id (db_chats (w_db w))).
Qed.

(** Deleting chat c1 of the sample leaves chat c2 with its message and
    stream; deleting a chat that does not exist fails. *)
Example deleteChatById_sample :
  (exists chat w',
     deleteChatById "c1" sample_world = Return chat w' /\
     map chat_id (db_chats (w_db w')) = ["c2"] /\
     map message_id (db_messages (w_db w')) = ["m3"] /\
     db_votes (w_db w') = [] /\
     map stream_id (w_streams w') = ["s2"]) /\
  (exists e w', deleteChatById "c9" sample_world = Throw e w').
Proof.
  split.
  - eexists. eexists. split; [reflexivity|]. repeat split.
  - eexists. eexists. reflexivity.
Qed.

(** A vote filed under chat c2 on a message of chat c1 goes with the
    message when c1 is deleted. *)
Example deleteChatById_vote_of_other_chat :
  let w :=
    {| w_db :=
         with_votes [ {| vote_chatId := "c2"; vote_messageId := "m1";
                         vote_userId := "u1"; vote_isUpvoted := true;
                         vote_createdAt := 30 |};
                      {| vote_chatId := "c2"; vote_messageId := "m3";
                         vote_userId := "u1"; vote_isUpvoted := true;
                         vote_createdAt := 31 |} ]
                    sample_db;
       w_streams := []; w_suggestions := [] |} in
  exists chat w',
    deleteChatById "c1" w = Return chat w' /\
    map vote_messageId (db_votes (w_db w')) = ["m3"].
Proof. eexists. eexists. split; reflexivity. Qed.

End Store.

(* ================================================================== *)
(** ** The document-versions route when a call fails *)

Module RouteErrors.
Import Effects Queries Route.

Section Failures.

Variable W : Type.
Variable auth : M W (option Session).
Variable document_findFirst : string -> SortOrder -> M W (option Document).
Variable getDocumentVersions : string -> M W (list DocumentVersion).

Lemma bind_throws {A B : Type} (m : M W A) (k : A -> M W B) (w w' : W)
                  (e : JsError) :
  m w = Throw e w' -> bind m k w = Throw e w'.
Proof. intros H. unfold bind. now rewrite H. Qed.

(** X20. The handler has no [catch]. With a [documentId] given, an error
    thrown by [auth()] or by [getDocumentVersions] leaves the handler as it
    is, and a failure of the database while the document is looked up leaves
    it as the [bad_request:database] error of [getDocumentById]: in none of
    these cases does the handler answer with a response. *)
Theorem GET_throws_through (request : Request) (w : W) (id : string) :
  searchParams_get "documentId" request = Some id -> id <> "" ->
  (forall e w1,
      auth w = Throw e w1 ->
      GET W auth document_findFirst getDocumentVersions request w = Throw e w1) /\
  (forall session user w1 e w2,
      auth w = Return session w1 -> user_of session = Some user ->
      document_findFirst id desc w1 = Throw e w2 ->
      GET W auth document_findFirst getDocumentVersions request w
        = Throw (SDKError {| errorCode := "bad_request:database";
                             errorText := Some "Failed to get document by id" |})
                w2) /\
  (forall session user w1 document w2 e w3,
      auth w = Return session w1 -> user_of session = Some user ->
      document_findFirst id desc w1 = Return (Some document) w2 ->
      session_user_id user = Some (document_userId document) ->
      getDocumentVersions id w2 = Throw e w3 ->
      GET W auth document_findFirst getDocumentVersions request w = Throw e w3).
Proof.
  intros Hid Hne.
  assert (Ht : Js.truthy_str (searchParams_get "documentId" request) = true).
  { apply Js.truthy_str_true. now exists id. }
  unfold GET. rewrite Ht, Hid. cbn [negb Js.the_string].
  split; [|split].
  - intros e w1 Hauth. now apply bind_throws.
  - intros session user w1 e w2 Hauth Huser Hfind.
    rewrite (bind_returns _ _ _ _ _ Hauth), Huser.
    apply bind_throws. unfold getDocumentById, Queries.getDocumentById.
    apply try_catch_replaces with e. now apply bind_throws.
  - intros session user w1 document w2 e w3 Hauth Huser Hfind Hown Hv.
    rewrite (bind_returns _ _ _ _ _ Hauth), Huser.
    assert (Hdoc : getDocumentById W document_findFirst id w1
                   = Return (Some document) w2).
    { unfold getDocumentById, Queries.getDocumentById.
      apply try_catch_returns. unfold bind, ret. now rewrite Hfind. }
    rewrite (bind_returns _ _ _ _ _ Hdoc).
    unfold differs. rewrite Hown, String.eqb_refl. cbn [negb].
    now apply bind_throws.
Qed.

End Failures.

(** A database that cannot be reached. *)
Definition unreachable (id : string) (o : SortOrder)
  : M Mem.Db (option Document) :=
  throw (OtherError "P1001").

Lemma GET_throws_through_witness :
  GET Mem.Db sample_auth unreachable sample_getDocumentVersions
      {| searchParams := [("documentId", "d1")] |} Route.sample_db
  = Throw (SDKError {| errorCode := "bad_request:database";
                       errorText := Some "Failed to get document by id" |})
          Route.sample_db.
Proof.
  destruct (GET_throws_through Mem.Db sample_auth unreachable
              sample_getDocumentVersions
              {| searchParams := [("documentId", "d1")] |} Route.sample_db "d1"
              eq_refl ltac:(discriminate)) as (_ & H & _).
  exact (H _ _ _ (OtherError "P1001") _ eq_refl eq_refl eq_refl).
Defined.

End RouteErrors.

(* ================================================================== *)
(** ** The migration script: how many sections *)

Module MigrationSections.
Import Migration.

(** The messages of role user. *)
Definition users (messages : list MessageDeprecated) : list MessageDeprecated :=
  filter (fun m => (role m =? "user")%string) messages.

Lemma section_loop_length (messages : list MessageDeprecated)
  (sec : list MessageDeprecated) (secs : list (list MessageDeprecated)) :
  sec <> [] ->
  List.length (emitted (fold_left section_step messages (sec, secs)))
  = (List.length secs + 1 + List.length (users messages))%nat.
Proof.
  revert sec secs. induction messages as [|m rest IH]; intros sec secs Hne.
  - simpl fold_left. rewrite emitted_nonempty by exact Hne.
    rewrite length_app. simpl. lia.
  - assert (Hstep : section_step (sec, secs) m
                    = if (role m =? "user")%string
                      then ([m], secs ++ [sec]) else (sec ++ [m], secs)).
    { unfold section_step. rewrite (proj2 (length_pos_nonempty sec) Hne).
      now destruct (role m =? "user")%string. }
    change (fold_left section_step (m :: rest) (sec, secs))
      with (fold_left section_step rest (section_step (sec, secs) m)).
    rewrite Hstep. unfold users. simpl filter.
    destruct (role m =? "user")%string.
    + rewrite IH by discriminate. rewrite length_app. simpl.
      fold (users rest). lia.
    + rewrite IH by (destruct sec; discriminate).
      fold (users rest). lia.
Qed.

(** X21. The first section of a chat starts with the chat's first message,
    whatever its role; every later section starts with a user message; and
    there is one section for the first message and one more for each user
    message after it. A chat without messages has no section. *)
Theorem sections_per_user_message
  (first : MessageDeprecated) (rest : list MessageDeprecated) :
  (exists inside others,
      messageSections_of (first :: rest) = (first :: inside) :: others /\
      Forall (fun s => exists m tail, s = m :: tail /\ role m = "user") others) /\
  List.length (messageSections_of (first :: rest))
    = S (List.length (users rest)) /\
  messageSections_of [] = [].
Proof.
  split; [|split].
  - destruct (messageSections_of_inv (first :: rest)) as [Hc [Hne _ Hheads]].
    destruct (messageSections_of (first :: rest)) as [|s others].
    + discriminate.
    + inversion Hne as [|? ? Hs _]; subst.
      destruct s as [|h inside]; [congruence|].
      simpl in Hc. injection Hc as -> _.
      exists inside, others. split; [reflexivity | exact Hheads].
  - unfold messageSections_of.
    change (fold_left section_step (first :: rest) ([], []))
      with (fold_left section_step rest (section_step ([], []) first)).
    assert (Hstep : section_step ([], []) first = ([first], [])).
    { unfold section_step. simpl. now rewrite andb_false_r. }
    rewrite Hstep. rewrite section_loop_length by discriminate.
    simpl. lia.
  - reflexivity.
Qed.

End MigrationSections.

(* ================================================================== *)
(** ** Paging through the chats of a user *)

Module MemPages.
Import Effects Queries Mem.

Lemma find_by_chat_id (chats : list Chat) (c : Chat) :
  NoDup (map chat_id chats) -> In c chats ->
  find (fun x => (chat_id x =? chat_id c)%string) chats = Some c.
Proof.
  induction chats as [|x xs IH]; simpl; intros Hnd Hin; [contradiction|].
  inversion Hnd as [|? ? Hx Hxs]; subst.
  destruct (String.eqb_spec (chat_id x) (chat_id c)) as [E|E].
  - destruct Hin as [->|Hin]; [reflexivity|].
    exfalso. apply Hx. rewrite E. now apply in_map.
  - destruct Hin as [->|Hin]; [congruence | now apply IH].
Qed.

(** The chats of a page for a positive limit are sorted, newest first, and
    are chats of the table. *)
Lemma page_sorted
  (db db' : Db) (id : string) (limit : Z)
  (startingAfter endingBefore : option string) (page : ChatPage) :
  0 < limit ->
  getChatsByUserId id limit startingAfter endingBefore db = Return page db' ->
  StronglySorted (fun a b => chat_createdAt a >= chat_createdAt b)
                 (chats page) /\
  (forall c, In c (chats page) -> In c (db_chats db)) /\
  db_chats db' = db_chats db.
Proof.
  intros Hpos Hrun.
  destruct (MemChats.page_chats_matched _ _ _ _ _ _ _ Hrun)
    as (cursor0 & _ & Hin).
  destruct (getChatsByUserId_returns _ _ _ _ _ _ _ Hrun)
    as (cursor & earlier & _ & _ & Hchats & _).
  cbv zeta in Hchats.
  destruct (page_of_rows (matched_chats db id cursor) limit Hpos)
    as (_ & _ & Hpage & _).
  rewrite Hpage in Hchats. split; [|split].
  - rewrite Hchats. apply StronglySorted_firstn, order_by_sorted_desc.
  - intros c Hc. now apply Hin.
  - unfold getChatsByUserId, Queries.getChatsByUserId, try_catch, bind, ret
      in Hrun.
    destruct (Js.truthy_str startingAfter).
    + unfold mem_chat_findFirst in Hrun at 1.
      destruct (find _ (db_chats db)); [|discriminate].
      unfold mem_chat_findMany in Hrun. now injection Hrun as _ <-.
    + destruct (Js.truthy_str endingBefore).
      * unfold mem_chat_findFirst in Hrun at 1.
        destruct (find _ (db_chats db)); [|discriminate].
        unfold mem_chat_findMany in Hrun. now injection Hrun as _ <-.
      * unfold mem_chat_findMany in Hrun. now injection Hrun as _ <-.
Qed.

Lemma last_In {A : Type} (l : list A) (d : A) : l <> [] -> In (last l d) l.
Proof.
  induction l as [|x xs IH]; intros H; [congruence|].
  destruct xs as [|y ys]; [now left|].
  right. apply IH. discriminate.
Qed.

Lemma StronglySorted_last_least {A : Type} (key : A -> Z) (l : list A)
                                (x : A) (d : A) :
  StronglySorted (fun a b => key a >= key b) l -> In x l ->
  key x >= key (last l d).
Proof.
  induction 1 as [|y ys Hs IH Hall]; intros Hin; [contradiction|].
  destruct ys as [|z zs].
  - destruct Hin as [->|[]]. simpl. lia.
  - change (last (y :: z :: zs) d) with (last (z :: zs) d).
    destruct Hin as [->|Hin]; [|now apply IH].
    rewrite Forall_forall in Hall. apply Hall. apply last_In. discriminate.
Qed.

(** X22. With unique chat ids and a positive limit, the page asked for with
    [endingBefore] set to the id of the last chat of a page shares no chat
    with that page, provided that id is not the empty string, which the
    function takes for no cursor. *)
Theorem getChatsByUserId_next_page_disjoint
  (db db1 db2 : Db) (id : string) (limit : Z)
  (startingAfter endingBefore : option string) (page1 page2 : ChatPage)
  (lastChat : Chat) :
  0 < limit ->
  NoDup (map chat_id (db_chats db)) ->
  getChatsByUserId id limit startingAfter endingBefore db = Return page1 db1 ->
  last (chats page1) lastChat = lastChat -> In lastChat (chats page1) ->
  chat_id lastChat <> "" ->
  getChatsByUserId id limit None (Some (chat_id lastChat)) db1
    = Return page2 db2 ->
  forall c, In c (chats page2) -> ~ In c (chats page1).
Proof.
  intros Hpos Hnd Hrun1 Hlast Hin Hne Hrun2 c Hc2 Hc1.
  destruct (page_sorted _ _ _ _ _ _ _ Hpos Hrun1) as (Hsorted & Hsub & Hsame).
  assert (Ht : Js.truthy_str (Some (chat_id lastChat)) = true).
  { apply Js.truthy_str_true. now exists (chat_id lastChat). }
  destruct (MemChats.page_chats_matched _ _ _ _ _ _ _ Hrun2)
    as (cursor & Hcur & Hall).
  unfold cursor_condition in Hcur. rewrite Ht in Hcur. simpl in Hcur.
  rewrite Hsame in Hcur.
  rewrite (find_by_chat_id _ lastChat Hnd (Hsub _ Hin)) in Hcur.
  injection Hcur as <-.
  destruct (Hall c Hc2) as [_ Hm]. unfold chat_matches in Hm. simpl in Hm.
  apply andb_true_iff in Hm as [_ Hlt]. apply Z.ltb_lt in Hlt.
  pose proof (StronglySorted_last_least chat_createdAt (chats page1) c lastChat
                Hsorted Hc1) as Hge.
  rewrite Hlast in Hge. lia.
Qed.

(** The two pages of one chat each of the sample tables. *)
Lemma getChatsByUserId_next_page_disjoint_witness :
  exists page1 db1 page2 db2,
    getChatsByUserId "u1" 1 None None sample_db = Return page1 db1 /\
    getChatsByUserId "u1" 1 None (Some "c2") db1 = Return page2 db2 /\
    map chat_id (chats page1) = ["c2"] /\
    map chat_id (chats page2) = ["c1"] /\
    forall c, In c (chats page2) -> ~ In c (chats page1).
Proof.
  eexists. eexists. eexists. eexists.
  split; [reflexivity|]. split; [reflexivity|].
  split; [reflexivity|]. split; [reflexivity|].
  eapply (getChatsByUserId_next_page_disjoint sample_db _ _ "u1" 1 None None _ _
           {| chat_id := "c2"; chat_createdAt := 2; chat_userId := "u1";
              chat_title := None; chat_visibility := visibility_private |}).
  - lia.
  - repeat constructor; simpl; intuition discriminate.
  - reflexivity.
  - reflexivity.
  - left. reflexivity.
  - discriminate.
  - reflexivity.
Defined.

End MemPages.
